(** * Finvoice 3.0 export/import over Apix (ahkio_finvoice)

    A shallow embedding of [models/account_edi_format.py] and
    [models/ahkio_apix.py], with the properties of the validation order,
    the request digest, the tax aggregation, the Apix list and download
    operations, the field formatters and the import-side checks. *)

From Stdlib Require Import ZArith NArith List String Ascii Bool Lia.
From Stdlib Require QArith.
Import ListNotations.

Set Implicit Arguments.

(** ** SHA-256 (FIPS 180-4), the function behind [hashlib.sha256]

    Words are integers in [0, 2^32); additions wrap around explicitly. *)
Module Sha256.
Local Open Scope Z_scope.

Definition w32 (x : Z) : Z := x mod 2 ^ 32.

Definition rotr (n x : Z) : Z :=
  Z.lor (Z.shiftr x n) (w32 (Z.shiftl x (32 - n))).

Definition Ch (x y z : Z) : Z :=
  Z.lxor (Z.land x y) (Z.land (Z.lxor x (2 ^ 32 - 1)) z).

Definition Maj (x y z : Z) : Z :=
  Z.lxor (Z.land x y) (Z.lxor (Z.land x z) (Z.land y z)).

Definition Sum0 (x : Z) : Z := Z.lxor (rotr 2 x) (Z.lxor (rotr 13 x) (rotr 22 x)).
Definition Sum1 (x : Z) : Z := Z.lxor (rotr 6 x) (Z.lxor (rotr 11 x) (rotr 25 x)).
Definition sig0 (x : Z) : Z := Z.lxor (rotr 7 x) (Z.lxor (rotr 18 x) (Z.shiftr x 3)).
Definition sig1 (x : Z) : Z := Z.lxor (rotr 17 x) (Z.lxor (rotr 19 x) (Z.shiftr x 10)).

(** The round constants are the first 32 bits of the fractional parts of
    the cube roots of the first 64 primes, the initial hash value those of
    the square roots of the first 8 primes. *)
Fixpoint sieve (fuel : nat) (c : Z) (want : nat) (found : list Z) : list Z :=
  match fuel, want with
  | O, _ | _, O => rev found
  | S fuel', S want' =>
      if existsb (fun p => c mod p =? 0) found
      then sieve fuel' (c + 1) want found
      else sieve fuel' (c + 1) want' (c :: found)
  end.

Definition primes (n : nat) : list Z := sieve 400 2 n [].

(** Largest [r] in [lo, lo + 2^fuel) with [r^3 <= x], by bisection. *)
Fixpoint cbrt_bits (fuel : nat) (x lo : Z) : Z :=
  match fuel with
  | O => lo
  | S fuel' =>
      let mid := lo + 2 ^ Z.of_nat fuel' in
      if mid * mid * mid <=? x then cbrt_bits fuel' x mid else cbrt_bits fuel' x lo
  end.

Definition K : list Z :=
  Eval vm_compute in map (fun p => w32 (cbrt_bits 40 (p * 2 ^ 96) 0)) (primes 64).

Definition H0 : list Z :=
  Eval vm_compute in map (fun p => w32 (Z.sqrt (p * 2 ^ 64))) (primes 8).

Definition state : Type := Z * Z * Z * Z * Z * Z * Z * Z.

Definition init : state :=
  match H0 with
  | [a; b; c; d; e; f; g; h] => (a, b, c, d, e, f, g, h)
  | _ => (0, 0, 0, 0, 0, 0, 0, 0)
  end.

(** Message schedule; [ws] holds the words computed so far, latest first. *)
Fixpoint extend (n : nat) (ws : list Z) : list Z :=
  match n with
  | O => ws
  | S n' =>
      let wt := w32 (sig1 (nth 1 ws 0) + nth 6 ws 0 + sig0 (nth 14 ws 0) + nth 15 ws 0) in
      extend n' (wt :: ws)
  end.

Definition schedule (block : list Z) : list Z := rev (extend 48 (rev block)).

Definition round (s : state) (kw : Z * Z) : state :=
  let '(a, b, c, d, e, f, g, h) := s in
  let t1 := h + Sum1 e + Ch e f g + fst kw + snd kw in
  let t2 := Sum0 a + Maj a b c in
  (w32 (t1 + t2), a, b, c, w32 (d + t1), e, f, g).

Definition add_state (s t : state) : state :=
  let '(a, b, c, d, e, f, g, h) := s in
  let '(a', b', c', d', e', f', g', h') := t in
  (w32 (a + a'), w32 (b + b'), w32 (c + c'), w32 (d + d'),
   w32 (e + e'), w32 (f + f'), w32 (g + g'), w32 (h + h')).

Definition compress (s : state) (block : list Z) : state :=
  add_state s (fold_left round (combine K (schedule block)) s).

(** Padding: a 1 bit, zeros up to 56 modulo 64 bytes, the bit length on
    8 bytes, big-endian. *)
Fixpoint be_bytes (n : nat) (x : Z) : list Z :=
  match n with
  | O => []
  | S n' => (be_bytes n' (x / 256) ++ [x mod 256])%list
  end.

Definition pad (msg : list Z) : list Z :=
  let len := Z.of_nat (List.length msg) in
  (msg ++ [128] ++ repeat 0 (Z.to_nat ((55 - len) mod 64)) ++ be_bytes 8 (8 * len))%list.

Fixpoint chunks (A : Type) (fuel size : nat) (l : list A) : list (list A) :=
  match fuel, l with
  | O, _ | _, [] => []
  | S fuel', _ => firstn size l :: chunks fuel' size (skipn size l)
  end.

Definition be_word (bs : list Z) : Z :=
  fold_left (fun acc b => acc * 256 + b) bs 0.

Definition blocks (msg : list Z) : list (list Z) :=
  let padded := pad msg in
  map (fun blk => map be_word (chunks 16 4 blk)) (chunks (List.length padded) 64 padded).

Definition hash (msg : list Z) : state := fold_left compress (blocks msg) init.

(** The digest as one 256-bit number, first word most significant. *)
Definition digest_of_state (s : state) : Z :=
  let '(a, b, c, d, e, f, g, h) := s in
  fold_left (fun acc x => acc * 2 ^ 32 + x) [a; b; c; d; e; f; g; h] 0.

Definition digest (msg : list Z) : Z := digest_of_state (hash msg).

Definition hex_char (d : Z) : ascii :=
  if d <? 10 then ascii_of_N (Z.to_N (48 + d)) else ascii_of_N (Z.to_N (87 + d)).

Fixpoint hex_be (n : nat) (x : Z) : string :=
  match n with
  | O => EmptyString
  | S n' => (hex_be n' (x / 16) ++ String (hex_char (x mod 16)) EmptyString)%string
  end.

(** [str.encode()]: a [string] is taken as its sequence of UTF-8 bytes. *)
Definition encode (s : string) : list Z :=
  map (fun c => Z.of_N (N_of_ascii c)) (list_ascii_of_string s).

(** [hashlib.sha256(b).hexdigest()] *)
Definition hexdigest (msg : list Z) : string := hex_be 64 (digest msg).
End Sha256.

Arguments Sha256.hexdigest : simpl never.
Arguments Sha256.encode : simpl never.

(** ** Python values, exceptions and containers *)
Module Py.
Local Open Scope string_scope.

(** The exceptions the two modules raise or let escape.
    [FinvoiceGenerationException] is the class declared at the end of
    [account_edi_format.py]. *)
Inductive exn : Type :=
| FinvoiceGenerationException (msg : string)
| UserError (msg : string)
| TypeError (msg : string)
| IndexError (msg : string)
| KeyError (key : string)
| AttributeError (msg : string)
| ValueError (msg : string)
| XMLSyntaxError (msg : string)
| BadZipFile (msg : string).

Inductive result (A : Type) : Type :=
| Ok (a : A)
| Raise (e : exn).
Arguments Ok {A} a.
Arguments Raise {A} e.

Definition bind {A B : Type} (r : result A) (k : A -> result B) : result B :=
  match r with
  | Ok a => k a
  | Raise e => Raise e
  end.

(** A value that is a [str], or [None]/[False] (an unset Char field, the
    text of an empty element). *)
Definition value : Type := option string.

(** Truth value of such a value: [None], [False] and [''] are falsy. *)
Definition truthy (v : value) : bool :=
  match v with
  | Some s => negb (s =? "")
  | None => false
  end.

(** [str(v)] inside an f-string. *)
Definition fmt (v : value) : string :=
  match v with
  | Some s => s
  | None => "None"
  end.

(** [sep.join(items)]; an item that is not a [str] raises [TypeError]. *)
Fixpoint join (sep : string) (items : list value) : result string :=
  match items with
  | [] => Ok ""
  | [Some s] => Ok s
  | Some s :: rest => bind (join sep rest) (fun r => Ok (s ++ sep ++ r))
  | None :: _ => Raise (TypeError "sequence item: expected str instance")
  end.

(** The one-character string holding a double quote. *)
Definition dquote : string := String (ascii_of_N 34) EmptyString.

(** [s.replace(a, b)] for one-character [a] and [b]. *)
Fixpoint replace (a b : ascii) (s : string) : string :=
  match s with
  | EmptyString => EmptyString
  | String c s' => String (if Ascii.eqb c a then b else c) (replace a b s')
  end.

(** [s.upper()] on ASCII letters. *)
Definition upper_char (c : ascii) : ascii :=
  let n := N_of_ascii c in
  if ((97 <=? n) && (n <=? 122))%N then ascii_of_N (n - 32) else c.

Fixpoint upper (s : string) : string :=
  match s with
  | EmptyString => EmptyString
  | String c s' => String (upper_char c) (upper s')
  end.

(** Slice bounds as Python normalises them: a negative bound counts from
    the end, and both are clamped to [0, len]. *)
Definition clamp (len i : Z) : Z :=
  let i' := if (i <? 0)%Z then (i + len)%Z else i in
  Z.max 0 (Z.min len i').

(** [s[start:stop]] on the bytes of the text: the slice of the [str] when
    the two bounds fall between characters, as they do where it is used
    (after the ASCII prefix [file://], before a final line feed). *)
Definition slice (start stop : Z) (s : string) : string :=
  let len := Z.of_nat (String.length s) in
  let a := clamp len start in
  let b := clamp len stop in
  substring (Z.to_nat a) (Z.to_nat (b - a)) s.

(** [s[start:]] *)
Definition slice_from (start : Z) (s : string) : string :=
  slice start (Z.of_nat (String.length s)) s.

(** A [str] is held as its UTF-8 text.  Its characters are the code
    points: a byte that is no continuation byte ([10xxxxxx]) together with
    the continuation bytes that follow it.  [split_chars] gives the
    continuation bytes at the head of the text, then the characters. *)
Definition is_continuation (c : ascii) : bool :=
  let n := N_of_ascii c in ((128 <=? n) && (n <? 192))%N.

Fixpoint split_chars (s : string) : string * list string :=
  match s with
  | EmptyString => (EmptyString, [])
  | String c s' =>
      let (k, cs) := split_chars s' in
      if is_continuation c then (String c k, cs) else (EmptyString, String c k :: cs)
  end.

Definition chars (s : string) : list string :=
  let (k, cs) := split_chars s in
  match k with
  | EmptyString => cs
  | String _ _ => k :: cs
  end.

(** [l[start:stop]] on a sequence: never fails. *)
Definition seq_slice {A : Type} (start stop : Z) (l : list A) : list A :=
  let len := Z.of_nat (List.length l) in
  let a := clamp len start in
  let b := clamp len stop in
  firstn (Z.to_nat (b - a)) (skipn (Z.to_nat a) l).

(** [s[start:stop]] on a [str]: by characters. *)
Definition str_slice (start stop : Z) (s : string) : string :=
  String.concat "" (seq_slice start stop (chars s)).

(** [s[i]] on a [str]: the character at [i]; out of range raises
    [IndexError]. *)
Definition str_index (i : Z) (s : string) : result string :=
  let cs := chars s in
  let len := Z.of_nat (List.length cs) in
  let i' := if (i <? 0)%Z then (i + len)%Z else i in
  if ((0 <=? i') && (i' <? len))%Z
  then match nth_error cs (Z.to_nat i') with
       | Some c => Ok c
       | None => Raise (IndexError "string index out of range")
       end
  else Raise (IndexError "string index out of range").

(** [l[0]] on a list. *)
Definition first {A : Type} (l : list A) : result A :=
  match l with
  | x :: _ => Ok x
  | [] => Raise (IndexError "list index out of range")
  end.

(** A [dict]: insertion-ordered, assigning to a key that is present
    replaces its value in place. *)
Section Dict.
Variables K V : Type.
Variable eqb : K -> K -> bool.

Definition dict : Type := list (K * V).

Fixpoint dict_get (k : K) (d : dict) : option V :=
  match d with
  | [] => None
  | (k', v) :: d' => if eqb k k' then Some v else dict_get k d'
  end.

Definition dict_mem (k : K) (d : dict) : bool :=
  match dict_get k d with
  | Some _ => true
  | None => false
  end.

Fixpoint dict_set (k : K) (v : V) (d : dict) : dict :=
  match d with
  | [] => [(k, v)]
  | (k', v') :: d' =>
      if eqb k k' then (k', v) :: d' else (k', v') :: dict_set k v d'
  end.

Definition dict_keys (d : dict) : list K := map fst d.
Definition dict_values (d : dict) : list V := map snd d.
End Dict.

(** A dict with [str] keys; [d[k]] raises [KeyError] on a missing key. *)
Definition sdict (V : Type) : Type := dict string V.
Definition sget {V : Type} (k : string) (d : sdict V) : option V := dict_get String.eqb k d.
Definition sset {V : Type} (k : string) (v : V) (d : sdict V) : sdict V :=
  dict_set String.eqb k v d.
Definition item {V : Type} (k : string) (d : sdict V) : result V :=
  match sget k d with
  | Some v => Ok v
  | None => Raise (KeyError k)
  end.
End Py.

(** ** XML trees and the XPath steps the code uses (lxml) *)
Module Xml.
Local Open Scope string_scope.

#[warnings="-register-all"]
Inductive node : Type :=
| Text (s : string)
| Element (tag : string) (attrib : list (string * string)) (children : list node).

Definition children (n : node) : list node :=
  match n with
  | Element _ _ cs => cs
  | Text _ => []
  end.

Definition has_tag (t : string) (n : node) : bool :=
  match n with
  | Element t' _ _ => t' =? t
  | Text _ => false
  end.

(** [el.text]: the text before the first child element, or [None]. *)
Definition text (n : node) : Py.value :=
  match n with
  | Element _ _ (Text s :: _) => Some s
  | _ => None
  end.

(** [el.get(name)] and [el.attrib.get(name)] *)
Definition get (name : string) (n : node) : Py.value :=
  match n with
  | Element _ a _ => Py.sget name a
  | Text _ => None
  end.

(** [el.xpath('./tag')] *)
Definition child_elements (t : string) (n : node) : list node :=
  filter (has_tag t) (children n).

(** [el.xpath('./text()')] *)
Definition text_nodes (n : node) : list string :=
  flat_map (fun c => match c with Text s => [s] | Element _ _ _ => [] end) (children n).

(** [el.xpath('./@name')] *)
Definition attribute (name : string) (n : node) : list string :=
  match get name n with
  | Some v => [v]
  | None => []
  end.

(** The elements of a tree in document order, the root first. *)
Fixpoint elements (n : node) : list node :=
  match n with
  | Text _ => []
  | Element _ _ cs => n :: flat_map elements cs
  end.

(** [tree.xpath('//tag')]: every element of the document with that tag. *)
Definition anywhere (t : string) (root : node) : list node :=
  filter (has_tag t) (elements root).

(** [el.xpath('.//tag')]: the proper descendants of [el] with that tag. *)
Definition descendants (t : string) (n : node) : list node :=
  filter (has_tag t) (flat_map elements (children n)).

(** [tree.xpath('/a/b/c')]: an absolute path of child steps. *)
Fixpoint steps (path : list string) (ns : list node) : list node :=
  match path with
  | [] => ns
  | t :: path' => steps path' (flat_map (child_elements t) ns)
  end.

Definition absolute (path : list string) (root : node) : list node :=
  match path with
  | [] => []
  | t :: path' => if has_tag t root then steps path' [root] else []
  end.
End Xml.

(** ** The Odoo records the code reads

    A recordset of at most one record (a many2one value, a search with
    [limit=1]) is an [option]; reading a Char field of the empty recordset
    gives [False]. *)
Module ResCurrency.
Record t : Type := { id : Z; name : string; active : bool; decimal_places : nat }.
Definition eqb (a b : t) : bool := (id a =? id b)%Z.
End ResCurrency.

(** res.partner: the three fields [res_partner.py] declares, and those of
    the modules it builds on that the code reads. *)
Module ResPartner.
Record t : Type := {
  id : Z;
  vat : Py.value;
  ahkio_company_registry : Py.value;
  ahkio_organisation_unit_number : Py.value;
  ahkio_e_invoice_address : Py.value;
  ahkio_e_invoice_intermediator : Py.value;
  bank_ids : list Z
}.
End ResPartner.

(** res.company, with the two Apix credentials [res_company.py] declares. *)
Module ResCompany.
Record t : Type := {
  id : Z;
  name : string;
  display_name : string;
  company_registry : Py.value;
  vat : Py.value;
  partner_id : ResPartner.t;
  currency_id : ResCurrency.t;
  ahkio_apix_transfer_id : Py.value;
  ahkio_apix_transfer_key : Py.value
}.
Definition eqb (a b : t) : bool := (id a =? id b)%Z.
End ResCompany.

Module AccountTax.
Record t (F : Type) : Type := {
  id : Z;
  company_id : Z;
  amount_type : string;
  type_tax_use : string;
  amount : F
}.
End AccountTax.

Module IrAttachment.
Record t : Type := {
  name : string;
  raw : string;
  res_model : Py.value;
  res_id : option Z;
  mimetype : Py.value
}.
End IrAttachment.

(** [record.field] on a recordset of at most one record. *)
Definition field {R : Type} (f : R -> Py.value) (r : option R) : Py.value :=
  match r with
  | Some x => f x
  | None => None
  end.

(** ** Python floats: the operations the code applies to amounts

    The arithmetic is a parameter, so that what is proved of sums holds for
    IEEE doubles as for exact numbers: [f_parse] is [float(s)], [f_ltb] is
    [<]. *)
Class PyFloat (F : Type) : Type := {
  f_zero : F;
  f_one : F;
  f_hundred : F;
  f_add : F -> F -> F;
  f_sub : F -> F -> F;
  f_mul : F -> F -> F;
  f_div : F -> F -> F;
  f_neg : F -> F;
  f_ltb : F -> F -> bool;
  f_eqb : F -> F -> bool;
  f_parse : string -> option F
}.

(** ** Invoices (account.move) and their lines (account.move.line) *)
Module AccountMoveLine.
Record t (F : Type) : Type := {
  id : Z;
  tax_line_id : option (AccountTax.t F);
  currency_id : option ResCurrency.t;
  amount_currency : F;
  balance : F;
  display_type : Py.value;
  price_unit : F;
  discount : F;
  quantity : F;
  tax_ids : list (AccountTax.t F);
  product_id : option Z
}.
End AccountMoveLine.

Module AccountMove.
(** [partner_shipping_id] exists only where another module declares it:
    ['partner_shipping_id' in invoice._fields]. *)
Inductive shipping : Type :=
| NoShippingField
| ShippingField (p : option ResPartner.t).

Record t (F : Type) : Type := {
  id : Z;
  name : string;
  move_type : string;
  company_id : ResCompany.t;
  partner_id : option ResPartner.t;
  commercial_partner_id : option ResPartner.t;
  partner_shipping_id : shipping;
  line_ids : list (AccountMoveLine.t F);
  invoice_line_ids : list (AccountMoveLine.t F)
}.
End AccountMove.

(** ** What the tax engine returns and what the templates receive *)
Module Tax.
(** One entry of [compute_all(...)['taxes']]. *)
Record res (F : Type) : Type := { id : Z; amount : F; base : F }.

(** The result of [compute_all]. *)
Record all (F : Type) : Type := { total_excluded : F; taxes : list (res F) }.

(** The arguments the export passes to [compute_all]. *)
Record args (F : Type) : Type := {
  arg_taxes : list (AccountTax.t F);
  arg_force_sign : Z;
  arg_price_unit : F;
  arg_currency : option ResCurrency.t;
  arg_quantity : F;
  arg_product : option Z;
  arg_partner : option ResPartner.t;
  arg_is_refund : bool
}.

(** An entry of a line's ['tax_details']. *)
Record detail (F : Type) : Type := {
  tax : Z;
  tax_amount : F;
  tax_base_amount : F
}.

(** An entry of [aggregated_taxes_details]. *)
Record aggregated (F : Type) : Type := {
  agg_line : AccountMoveLine.t F;
  agg_tax_amount : F;
  agg_tax_base_amount : F
}.
End Tax.

Module Template.
Record line_values (F : Type) : Type := {
  line : AccountMoveLine.t F;
  index : nat;
  line_tax_details : list (Tax.detail F);
  net_price_subtotal : F
}.

(** [template_values], without the three formatting functions it also
    carries. *)
Record values (F : Type) : Type := {
  record : AccountMove.t F;
  invoice_line_values : list (line_values F);
  message_identifier : string;
  message_timestamp : string;
  tax_details : list (Tax.aggregated F);
  pdf_name : string
}.
End Template.

(** ** HTTP (requests) *)
Module Http.
Record request : Type := {
  method : string;
  url : string;
  params : Py.sdict Py.value;
  data : string
}.

Record response : Type := {
  status_code : Z;
  text : string;
  content : string
}.
End Http.

(** ** What an import fills in ([Form] of account.move) *)
Module Form.
Record line (F : Type) : Type := {
  name : Py.value;
  quantity : option F;
  price_unit : option F;
  discount : option F;
  tax_ids : list (AccountTax.t F)
}.

Record t (F : Type) : Type := {
  context_company_id : option Z;
  default_move_type : string;
  partner_id : option ResPartner.t;
  ref : Py.value;
  payment_reference : Py.value;
  narration : string;
  currency_id : option ResCurrency.t;
  invoice_date : Py.value;
  invoice_date_due : Py.value;
  invoice_line_ids : list (line F)
}.
End Form.

(** ** The environment: the caller, the database tables the code searches
    and the collaborators it calls.  A table lists its records in the
    model's order, so that [search(..., limit=1)] is the first match. *)
Module Env.
Record t (F : Type) : Type := {
  is_superuser : bool;
  company : ResCompany.t;
  config_parameter : Py.sdict string;
  companies : list ResCompany.t;
  partners : list ResPartner.t;
  taxes : list (AccountTax.t F);
  currencies : Py.sdict ResCurrency.t;
  form_company_id : Z;
  form_journal_type : string;
  (** [datetime.now()] as ['%Y%m%d%H%M%S'] and as ISO 8601 *)
  now_stamp : string;
  now_iso : string;
  (** [datetime.strptime(s, '%Y%m%d').strftime('%Y-%m-%d')] *)
  reformat_date : string -> option string;
  get_tax_force_sign : AccountMove.t F -> Z;
  compute_all : Tax.args F -> Tax.all F;
  render_pdf : Z -> string;
  render_template : Template.values F -> string;
  temp_name : string -> string -> string;
  zip_write : list (string * string) -> string;
  zip_read : string -> option (Py.sdict string);
  etree_fromstring : string -> Py.result Xml.node;
  send : Http.request -> Http.response
}.

(** [self.env['ir.config_parameter'].get_param(key, default)] *)
Definition get_param {F : Type} (e : t F) (key default : string) : string :=
  match Py.sget key (config_parameter e) with
  | Some v => v
  | None => default
  end.

(** [self.env.ref('base.XXX', raise_if_not_found=False)] *)
Definition ref {F : Type} (e : t F) (xmlid : string) : option ResCurrency.t :=
  Py.sget xmlid (currencies e).
End Env.

(** ** The state the code changes: requests sent, records created *)
Module World.
Record t (F : Type) : Type := {
  sent : list Http.request;
  attachments : list IrAttachment.t;
  moves : list (Form.t F);
  messages : list (string * list string);
  commits : nat
}.
End World.

(** Computations that read and change the world and may raise. *)
Definition M (F A : Type) : Type := World.t F -> Py.result A * World.t F.

Definition ret {F A : Type} (a : A) : M F A := fun w => (Py.Ok a, w).

Definition raise {F A : Type} (e : Py.exn) : M F A := fun w => (Py.Raise e, w).

Definition bindM {F A B : Type} (m : M F A) (k : A -> M F B) : M F B :=
  fun w =>
    match m w with
    | (Py.Ok a, w') => k a w'
    | (Py.Raise e, w') => (Py.Raise e, w')
    end.

Definition lift {F A : Type} (r : Py.result A) : M F A := fun w => (r, w).

Declare Scope py_scope.
Delimit Scope py_scope with py.
Notation "x <- m ;; k" := (bindM m (fun x => k))
  (at level 61, m at next level, right associativity) : py_scope.
Notation "m ;; k" := (bindM m (fun _ => k))
  (at level 61, right associativity) : py_scope.
Notation "x <~ r ;; k" := (Py.bind r (fun x => k))
  (at level 61, r at next level, right associativity) : py_scope.

(** ** Rendering a float with a fixed number of decimals

    Modelled from the spec: [odoo.tools.float_repr] (Odoo's library, not in
    the repository) is ["%.<n>f" % value]: the exact value of the double,
    rounded half-to-even to [n] decimals, in positional notation.  A finite
    double is [(-1)^sign * mant * 2^expo]. *)
Module Float.
Local Open Scope Z_scope.

Record t : Type := { sign : bool; mant : N; expo : Z }.

(** [p / q] rounded to the nearest integer, ties to even; [q > 0]. *)
Definition round_half_even (p q : Z) : Z :=
  let d := p / q in
  let r := p mod q in
  if 2 * r <? q then d
  else if q <? 2 * r then d + 1
  else if Z.even d then d else d + 1.

(** [|x| * 10^n], rounded to an integer. *)
Definition scaled (x : t) (n : nat) : Z :=
  let m := Z.of_N (mant x) * 10 ^ Z.of_nat n in
  if 0 <=? expo x then m * 2 ^ expo x else round_half_even m (2 ^ (- expo x)).

Definition digit (d : Z) : ascii := ascii_of_N (Z.to_N (48 + d)).

(** The last [k] decimal digits of [v], most significant first. *)
Fixpoint digits (k : nat) (v : Z) : string :=
  match k with
  | O => EmptyString
  | S k' => (digits k' (v / 10) ++ String (digit (v mod 10)) EmptyString)%string
  end.

(** The number of decimal digits of [v], at least one. *)
Fixpoint ndigits (fuel : nat) (v : Z) : nat :=
  match fuel with
  | O => 1
  | S fuel' => if v <? 10 then 1%nat else S (ndigits fuel' (v / 10))
  end.

Definition decimal (v : Z) : string := digits (ndigits (Z.to_nat (Z.log2 v)) v) v.

Definition float_repr (value : t) (precision_digits : nat) : string :=
  let v := scaled value precision_digits in
  let unit := 10 ^ Z.of_nat precision_digits in
  ((if sign value then "-" else "")
   ++ decimal (v / unit)
   ++ match precision_digits with
      | O => ""
      | S _ => "." ++ digits precision_digits (v mod unit)
      end)%string.
End Float.

(** ** The effects: requests ([requests]) and record creation (the ORM) *)
Module Orm.
Import Py.
Local Open Scope string_scope.

Section WithFloat.
Context {F : Type}.

(** [requests.put(url, data, params=params)] and
    [requests.get(url, params=params)]: the only way a request leaves. *)
Definition request (env : Env.t F) (method url data : string) (params : sdict value)
  : M F Http.response :=
  fun w =>
    let rq := {| Http.method := method; Http.url := url;
                 Http.params := params; Http.data := data |} in
    (Ok (Env.send env rq),
     {| World.sent := (World.sent w ++ [rq])%list;
        World.attachments := World.attachments w;
        World.moves := World.moves w;
        World.messages := World.messages w;
        World.commits := World.commits w |}).

(** [self.env['ir.attachment'].create(vals)] *)
Definition create_attachment (a : IrAttachment.t) : M F IrAttachment.t :=
  fun w =>
    (Ok a,
     {| World.sent := World.sent w;
        World.attachments := (World.attachments w ++ [a])%list;
        World.moves := World.moves w;
        World.messages := World.messages w;
        World.commits := World.commits w |}).

(** [self.env['ir.attachment'].sudo().search(
      [('name', '=', name), ('res_model', '=', res_model)], limit=1)] *)
Definition search_attachment (name res_model : string) : M F (option IrAttachment.t) :=
  fun w =>
    (Ok (find (fun a => (IrAttachment.name a =? name)
                        && match IrAttachment.res_model a with
                           | Some m => m =? res_model
                           | None => false
                           end)
              (World.attachments w)),
     w).

(** [attachment.res_id = id] on the attachment of that name and model. *)
Definition set_res_id (name res_model : string) (id : Z) : M F unit :=
  fun w =>
    (Ok tt,
     {| World.sent := World.sent w;
        World.attachments :=
          map (fun a =>
                 if (IrAttachment.name a =? name)
                    && match IrAttachment.res_model a with
                       | Some m => m =? res_model
                       | None => false
                       end
                 then {| IrAttachment.name := IrAttachment.name a;
                         IrAttachment.raw := IrAttachment.raw a;
                         IrAttachment.res_model := IrAttachment.res_model a;
                         IrAttachment.res_id := Some id;
                         IrAttachment.mimetype := IrAttachment.mimetype a |}
                 else a)
              (World.attachments w);
        World.moves := World.moves w;
        World.messages := World.messages w;
        World.commits := World.commits w |}).

(** [invoice_form.save()]: the invoice is created; its id is its rank
    among the invoices created. *)
Definition save (form : Form.t F) : M F (Z * Form.t F) :=
  fun w =>
    (Ok (Z.of_nat (List.length (World.moves w)) + 1, form)%Z,
     {| World.sent := World.sent w;
        World.attachments := World.attachments w;
        World.moves := (World.moves w ++ [form])%list;
        World.messages := World.messages w;
        World.commits := World.commits w |}).

(** [invoice.message_post(body=body, attachment_ids=ids)] *)
Definition message_post (body : string) (attachment_names : list string) : M F unit :=
  fun w =>
    (Ok tt,
     {| World.sent := World.sent w;
        World.attachments := World.attachments w;
        World.moves := World.moves w;
        World.messages := (World.messages w ++ [(body, attachment_names)])%list;
        World.commits := World.commits w |}).

(** [self._cr.commit()] *)
Definition commit : M F unit :=
  fun w =>
    (Ok tt,
     {| World.sent := World.sent w;
        World.attachments := World.attachments w;
        World.moves := World.moves w;
        World.messages := World.messages w;
        World.commits := S (World.commits w) |}).
End WithFloat.
End Orm.

(** ** [account_edi_format.py]: class [AccountEdiFormat] *)
(** ** A file object ([tempfile.NamedTemporaryFile]): its content and the
    position at which the next read or write takes place *)
Module TempFile.
Local Open Scope string_scope.

Record t : Type := { content : string; position : nat }.

(** A temporary file that was just created. *)
Definition empty : t := {| content := ""; position := 0 |}.

(** [f.write(data)]: the data replace what lies at the position, which
    moves past them.  [zipfile.ZipFile(f, 'w')] leaves the file so when it
    is closed, [data] being the archive. *)
Definition write (data : string) (f : t) : t :=
  let after := position f + String.length data in
  {| content := substring 0 (position f) (content f) ++ data
                ++ substring after (String.length (content f) - after) (content f);
     position := after |}.

(** [f.seek(n)] *)
Definition seek (n : nat) (f : t) : t := {| content := content f; position := n |}.

(** [f.read()]: what lies between the position and the end of the file,
    and the file with its position at the end. *)
Definition read (f : t) : string * t :=
  (substring (position f) (String.length (content f) - position f) (content f),
   {| content := content f;
      position := Nat.max (position f) (String.length (content f)) |}).
End TempFile.

Module AccountEdiFormat.
Import Py.
Local Open Scope string_scope.
Local Open Scope py_scope.

(** [vat_number_in_finnish_format], local to [_export_finvoice].  The
    slice and the index count characters; a VAT number that is not set
    reads [False], which cannot be sliced. *)
Definition vat_number_in_finnish_format (vat_number : value) : result string :=
  match vat_number with
  | None => Raise (TypeError "'bool' object is not subscriptable")
  | Some vat_number =>
      let beginning := str_slice 2 (-1) vat_number in
      end_ <~ str_index (-1) vat_number ;;
      Ok (beginning ++ "-" ++ end_)
  end.

(** [format_monetary], local to [_export_finvoice] *)
Definition format_monetary (number : Float.t) (currency : ResCurrency.t) : string :=
  replace "." "," (Float.float_repr number (ResCurrency.decimal_places currency)).

Definition fail_if (missing : bool) (msg : string) : result unit :=
  if missing then Raise (FinvoiceGenerationException msg) else Ok tt.

Section WithEnv.
Context {F : Type} {PF : PyFloat F}.
Variable env : Env.t F.

Definition _apix_env : string :=
  Env.get_param env "ahkio_finvoice.apix_env" "production".

(** ['partner_shipping_id' in invoice._fields and
    invoice.partner_shipping_id and not invoice.partner_shipping_id.f] *)
Definition shipping_lacks (f : ResPartner.t -> value) (invoice : AccountMove.t F) : bool :=
  match AccountMove.partner_shipping_id invoice with
  | AccountMove.ShippingField (Some p) => negb (truthy (f p))
  | AccountMove.ShippingField None => false
  | AccountMove.NoShippingField => false
  end.

Definition _validate_required_fields (invoice : AccountMove.t F) : result unit :=
  let company := AccountMove.company_id invoice in
  let sender := ResCompany.partner_id company in
  let recipient := AccountMove.commercial_partner_id invoice in
  _ <~ fail_if (negb (truthy (ResCompany.company_registry company)))
         "Company registry (y-tunnus) missing from sender." ;;
  _ <~ fail_if (negb (truthy (field ResPartner.ahkio_company_registry recipient)))
         "Company registry (y-tunnus) missing from recipient." ;;
  _ <~ fail_if (shipping_lacks ResPartner.ahkio_company_registry invoice)
         "Company registry (y-tunnus) missing from shipping contact." ;;
  _ <~ fail_if (match ResPartner.bank_ids sender with [] => true | _ :: _ => false end)
         "No bank accounts configured for sender." ;;
  _ <~ fail_if (negb (truthy (ResCompany.ahkio_apix_transfer_id company)))
         "Apix transfer id missing from company config." ;;
  _ <~ fail_if (negb (truthy (ResCompany.ahkio_apix_transfer_key company)))
         "Apix transfer key missing from company config." ;;
  _ <~ fail_if (negb (truthy (ResPartner.ahkio_organisation_unit_number sender)))
         "Organisation unit number (OVT) missing from sender." ;;
  _ <~ fail_if (negb (truthy (field ResPartner.ahkio_organisation_unit_number recipient)))
         "Organisation unit number (OVT) missing from recipient." ;;
  _ <~ fail_if (shipping_lacks ResPartner.ahkio_organisation_unit_number invoice)
         "Organisation unit number (OVT) missing from shipping contact." ;;
  _ <~ fail_if (negb (truthy (ResPartner.ahkio_e_invoice_address sender)))
         "E-invoice address missing from sender." ;;
  _ <~ fail_if (negb (truthy (field ResPartner.ahkio_e_invoice_address recipient)))
         "E-invoice address missing from recipient." ;;
  _ <~ fail_if (negb (truthy (ResPartner.ahkio_e_invoice_intermediator sender)))
         "E-invoice intermediator missing from sender." ;;
  fail_if (negb (truthy (field ResPartner.ahkio_e_invoice_intermediator recipient)))
    "E-invoice intermediator missing from recipient.".

(** *** Tax lines *)

(** [invoice.line_ids.filtered('tax_line_id')], each line with the id of
    its tax. *)
Definition tax_lines (invoice : AccountMove.t F) : list (Z * AccountMoveLine.t F) :=
  flat_map (fun line => match AccountMoveLine.tax_line_id line with
                        | Some tax => [(AccountTax.id tax, line)]
                        | None => []
                        end)
           (AccountMove.line_ids invoice).

Definition tax_line_entry (line : AccountMoveLine.t F) : Tax.aggregated F :=
  {| Tax.agg_line := line;
     Tax.agg_tax_amount :=
       match AccountMoveLine.currency_id line with
       | Some _ => f_neg (AccountMoveLine.amount_currency line)
       | None => f_neg (AccountMoveLine.balance line)
       end;
     Tax.agg_tax_base_amount := f_zero |}.

(** The dict comprehension that seeds [aggregated_taxes_details]. *)
Definition initial_taxes_details (invoice : AccountMove.t F)
  : dict Z (Tax.aggregated F) :=
  fold_left (fun d kl => dict_set Z.eqb (fst kl) (tax_line_entry (snd kl)) d)
            (tax_lines invoice) [].

(** *** Invoice lines *)

(** [invoice.invoice_line_ids.filtered(lambda l: not l.display_type)] *)
Definition product_lines (invoice : AccountMove.t F) : list (AccountMoveLine.t F) :=
  filter (fun l => negb (truthy (AccountMoveLine.display_type l)))
         (AccountMove.invoice_line_ids invoice).

Definition line_taxes_res (invoice : AccountMove.t F) (line : AccountMoveLine.t F)
  : Tax.all F :=
  let price_unit_with_discount :=
    f_mul (AccountMoveLine.price_unit line)
          (f_sub f_one (f_div (AccountMoveLine.discount line) f_hundred)) in
  Env.compute_all env
    {| Tax.arg_taxes := AccountMoveLine.tax_ids line;
       Tax.arg_force_sign := Env.get_tax_force_sign env invoice;
       Tax.arg_price_unit := price_unit_with_discount;
       Tax.arg_currency := AccountMoveLine.currency_id line;
       Tax.arg_quantity := AccountMoveLine.quantity line;
       Tax.arg_product := AccountMoveLine.product_id line;
       Tax.arg_partner := AccountMove.partner_id invoice;
       Tax.arg_is_refund :=
         (AccountMove.move_type invoice =? "in_refund")
         || (AccountMove.move_type invoice =? "out_refund") |}.

(** [aggregated_taxes_details[tax.id]['tax_base_amount'] += base], when
    [tax.id in aggregated_taxes_details]. *)
Definition add_base (d : dict Z (Tax.aggregated F)) (tax_res : Tax.res F)
  : dict Z (Tax.aggregated F) :=
  match dict_get Z.eqb (Tax.id tax_res) d with
  | Some e =>
      dict_set Z.eqb (Tax.id tax_res)
        {| Tax.agg_line := Tax.agg_line e;
           Tax.agg_tax_amount := Tax.agg_tax_amount e;
           Tax.agg_tax_base_amount := f_add (Tax.agg_tax_base_amount e) (Tax.base tax_res) |}
        d
  | None => d
  end.

Definition detail_of (tax_res : Tax.res F) : Tax.detail F :=
  {| Tax.tax := Tax.id tax_res;
     Tax.tax_amount := Tax.amount tax_res;
     Tax.tax_base_amount := Tax.base tax_res |}.

(** One turn of the loop over the invoice lines; [i] is the line's
    position from 0. *)
Definition export_line (invoice : AccountMove.t F)
    (st : dict Z (Tax.aggregated F) * list (Template.line_values F))
    (il : nat * AccountMoveLine.t F)
  : dict Z (Tax.aggregated F) * list (Template.line_values F) :=
  let taxes_res := line_taxes_res invoice (snd il) in
  let line_template_values :=
    {| Template.line := snd il;
       Template.index := fst il + 1;
       Template.line_tax_details := map detail_of (Tax.taxes taxes_res);
       Template.net_price_subtotal := Tax.total_excluded taxes_res |} in
  (fold_left add_base (Tax.taxes taxes_res) (fst st),
   (snd st ++ [line_template_values])%list).

Definition enumerate {A : Type} (l : list A) : list (nat * A) :=
  combine (seq 0 (List.length l)) l.

Definition export_lines (invoice : AccountMove.t F)
  : dict Z (Tax.aggregated F) * list (Template.line_values F) :=
  fold_left (export_line invoice) (enumerate (product_lines invoice))
            (initial_taxes_details invoice, []).

(** [template_values['tax_details']] *)
Definition aggregated_taxes_details (invoice : AccountMove.t F)
  : list (Tax.aggregated F) :=
  dict_values (fst (export_lines invoice)).

Definition template_values (invoice : AccountMove.t F) (pdf_name : string)
  : Template.values F :=
  {| Template.record := invoice;
     Template.invoice_line_values := snd (export_lines invoice);
     Template.message_identifier := Env.now_stamp env ++ "-" ++ AccountMove.name invoice;
     Template.message_timestamp := Env.now_iso env;
     Template.tax_details := aggregated_taxes_details invoice;
     Template.pdf_name := "file://" ++ pdf_name |}.

(** *** The upload *)

(** The parameters of the upload before the digest is added. *)
Definition upload_params (invoice : AccountMove.t F) : sdict value :=
  [("soft", Some "Ahkio");
   ("ver", Some "2.0");
   ("TraID", ResCompany.ahkio_apix_transfer_id (AccountMove.company_id invoice));
   ("t", Some (Env.now_stamp env))].

(** [_export_finvoice]; [self] is the one record of the format
    ([self.ensure_one()]), and the clock is read once for the whole export. *)
Definition _export_finvoice (invoice : AccountMove.t F) : M F IrAttachment.t :=
  _ <- lift (_validate_required_fields invoice) ;;
  let invoice_name_safe := replace "/" "_" (AccountMove.name invoice) in
  let pdf := Env.render_pdf env (AccountMove.id invoice) in
  let pdf_name := invoice_name_safe ++ "_finvoice.pdf" in
  let xml_content :=
    "<?xml version=" ++ dquote ++ "1.0" ++ dquote
    ++ " encoding=" ++ dquote ++ "UTF-8" ++ dquote ++ "?>"
    ++ Env.render_template env (template_values invoice pdf_name) in
  let xml_name := invoice_name_safe ++ "_finvoice.xml" in
  let params := upload_params invoice in
  let digest_params :=
    (dict_values params
     ++ [ResCompany.ahkio_apix_transfer_key (AccountMove.company_id invoice)])%list in
  digest <- lift (join "+" digest_params) ;;
  let digest := Sha256.hexdigest (Sha256.encode digest) in
  let params := sset "d" (Some ("SHA-256:" ++ digest)) params in
  let temp_zip_name :=
    Env.temp_name env ("apix_invoice_" ++ invoice_name_safe ++ "_") ".zip" in
  let temp_zip_file :=
    TempFile.write (Env.zip_write env [(xml_name, xml_content); (pdf_name, pdf)])
                   TempFile.empty in
  let temp_zip_file := TempFile.seek 0 temp_zip_file in
  let url := if _apix_env =? "test"
             then "https://test-api.apix.fi/invoices"
             else "https://api.apix.fi/invoices" in
  let uploaded := TempFile.read temp_zip_file in
  response <- Orm.request env "PUT" url (fst uploaded) params ;;
  response_body_xml <- lift (Env.etree_fromstring env (Http.text response)) ;;
  status <- lift (first (Xml.absolute ["Response"; "Status"] response_body_xml)) ;;
  if match Xml.text status with Some "OK" => false | _ => true end
  then raise (FinvoiceGenerationException (Http.text response))
  else
    (* [datas] is the base64 text of what the file gives when it is read
       again; the attachment holds the bytes *)
    Orm.create_attachment
      {| IrAttachment.name := temp_zip_name;
         IrAttachment.raw := fst (TempFile.read (snd uploaded));
         IrAttachment.res_model := None;
         IrAttachment.res_id := None;
         IrAttachment.mimetype := Some "application/zip" |}.

(** *** Import *)

(** [elements and search([(field, '=', elements[0].text)], limit=1)] *)
Definition search_by {R : Type} (table : list R) (f : R -> value)
    (elements : list Xml.node) : option R :=
  match elements with
  | [] => None
  | e :: _ =>
      find (fun r => match f r, Xml.text e with
                     | Some a, Some b => a =? b
                     | None, None => true
                     | _, _ => false
                     end) table
  end.

(** [a or b] on lists *)
Definition or_else {A : Type} (a b : list A) : list A :=
  match a with
  | [] => b
  | _ :: _ => a
  end.

(** The recipient company named by the document, if any. *)
Definition resolve_company (tree : Xml.node) : option ResCompany.t :=
  let company :=
    search_by (Env.companies env)
      (fun c => ResPartner.ahkio_organisation_unit_number (ResCompany.partner_id c))
      (or_else (Xml.anywhere "InvoiceRecipientOrganisationUnitNumber" tree)
               (Xml.anywhere "BuyerOrganisationUnitNumber" tree)) in
  let company :=
    match company with
    | Some _ => company
    | None => search_by (Env.companies env) ResCompany.company_registry
                (Xml.anywhere "BuyerPartyIdentifier" tree)
    end in
  match company with
  | Some _ => company
  | None => search_by (Env.companies env) ResCompany.vat
              (Xml.anywhere "BuyerOrganisationTaxCode" tree)
  end.

(** The company the import goes to: the resolved one, or the caller's. *)
Definition import_company (tree : Xml.node) : ResCompany.t :=
  match resolve_company tree with
  | Some company => company
  | None => Env.company env
  end.

Definition company_error : exn :=
  UserError ("You can only import invoices to your company: "
             ++ ResCompany.display_name (Env.company env)).

Definition check_company (company : ResCompany.t) : result unit :=
  if negb (Env.is_superuser env)
  then if negb (ResCompany.eqb (Env.company env) company)
       then Raise company_error
       else Ok tt
  else Ok tt.

(** [float(text.replace(',', '.'))] *)
Definition parse_float (text : value) : result F :=
  match text with
  | None => Raise (AttributeError "'NoneType' object has no attribute 'replace'")
  | Some s =>
      match f_parse (replace "," "." s) with
      | Some x => Ok x
      | None => Raise (ValueError "could not convert string to float")
      end
  end.

Definition total_amount (tree : Xml.node) : result F :=
  match Xml.anywhere "InvoiceTotalVatIncludedAmount" tree with
  | [] => Ok f_zero
  | e :: _ => parse_float (Xml.text e)
  end.

Definition resolve_partner (tree : Xml.node) : option ResPartner.t :=
  let partner :=
    search_by (Env.partners env) ResPartner.ahkio_organisation_unit_number
      (Xml.anywhere "SellerOrganisationUnitNumber" tree) in
  let partner :=
    match partner with
    | Some _ => partner
    | None => search_by (Env.partners env) ResPartner.ahkio_company_registry
                (Xml.anywhere "SellerPartyIdentifier" tree)
    end in
  match partner with
  | Some _ => partner
  | None => search_by (Env.partners env) ResPartner.vat
              (Xml.anywhere "SellerOrganisationTaxCode" tree)
  end.

Definition newline : string := String (ascii_of_N 10) EmptyString.

(** [a + b] where [b] must be a [str]. *)
Definition concat_str (a : string) (b : value) : result string :=
  match b with
  | Some s => Ok (a ++ s)
  | None => Raise (TypeError "can only concatenate str (not NoneType) to str")
  end.

Definition narration (tree : Xml.node) : result string :=
  let original :=
    match Xml.anywhere "InvoiceTotalVatIncludedAmount" tree with
    | [] => []
    | e :: _ =>
        let amount := fmt (Xml.text e) ++ " "
                      ++ fmt (Xml.get "AmountCurrencyIdentifier" e) in
        [Some ("Original amount from invoice" ++ ": " ++ amount)]
    end in
  accounts <~
    match Xml.anywhere "SellerAccountID" tree with
    | [] => Ok []
    | elements =>
        let title := match elements with
                     | [_] => "Account number from invoice"
                     | _ => "Account numbers from invoice"
                     end in
        account_details <~
          fold_left (fun acc el => a <~ acc ;; concat_str (a ++ newline) (Xml.text el))
                    elements (Ok (title ++ ":")) ;;
        Ok [Some account_details]
    end ;;
  let free :=
    match Xml.anywhere "InvoiceFreeText" tree with
    | [] => []
    | e :: _ => [Xml.text e]
    end in
  join (newline ++ newline) (original ++ accounts ++ free)%list.

(** The currency the form is set to, if it is set at all. *)
Definition import_currency (tree : Xml.node) : result (option ResCurrency.t) :=
  match Xml.anywhere "InvoiceTotalVatIncludedAmount" tree with
  | [] => Ok None
  | e :: _ =>
      if truthy (Xml.get "AmountCurrencyIdentifier" e)
      then
        let currency_str := fmt (Xml.get "AmountCurrencyIdentifier" e) in
        match Env.ref env ("base." ++ upper currency_str) with
        | None => Raise (AttributeError "'NoneType' object has no attribute 'active'")
        | Some currency =>
            if negb (ResCurrency.eqb currency (ResCompany.currency_id (Env.company env)))
               && ResCurrency.active currency
            then Ok (Some currency)
            else Ok None
        end
      else Ok None
  end.

Definition import_date (t : string) (tree : Xml.node) : result value :=
  match Xml.anywhere t tree with
  | [] => Ok None
  | e :: _ =>
      match Xml.text e with
      | None => Raise (TypeError "strptime() argument 1 must be str, not None")
      | Some date_str =>
          match Env.reformat_date env date_str with
          | Some d => Ok (Some d)
          | None => Raise (ValueError "time data does not match format '%Y%m%d'")
          end
      end
  end.

Definition optional_float (elements : list Xml.node) : result (option F) :=
  match elements with
  | [] => Ok None
  | e :: _ => x <~ parse_float (Xml.text e) ;; Ok (Some x)
  end.

Definition search_tax (percentage : F) : option (AccountTax.t F) :=
  find (fun t => (AccountTax.company_id t =? Env.form_company_id env)%Z
                 && (AccountTax.amount_type t =? "percent")
                 && (AccountTax.type_tax_use t =? Env.form_journal_type env)
                 && f_eqb (AccountTax.amount t) percentage)
       (Env.taxes env).

Definition import_line (element : Xml.node) : result (Form.line F) :=
  let name := match Xml.descendants "ArticleName" element with
              | [] => None
              | e :: _ => Xml.text e
              end in
  quantity <~ optional_float (Xml.descendants "DeliveredQuantity" element) ;;
  price_unit <~ optional_float (Xml.descendants "UnitPriceAmount" element) ;;
  discount <~ optional_float (Xml.descendants "RowDiscountPercent" element) ;;
  tax_ids <~
    fold_left (fun acc tax_element =>
                 ids <~ acc ;;
                 percentage <~ parse_float (Xml.text tax_element) ;;
                 match search_tax percentage with
                 | Some tax => Ok (ids ++ [tax])%list
                 | None => Ok ids
                 end)
              (Xml.descendants "RowVatRatePercent" element) (Ok []) ;;
  Ok {| Form.name := name; Form.quantity := quantity; Form.price_unit := price_unit;
        Form.discount := discount; Form.tax_ids := tax_ids |}.

Definition import_lines (tree : Xml.node) : result (list (Form.line F)) :=
  fold_left (fun acc element =>
               ls <~ acc ;; l <~ import_line element ;; Ok (ls ++ [l])%list)
            (Xml.anywhere "InvoiceRow" tree) (Ok []).

Definition first_text (t : string) (tree : Xml.node) : value :=
  match Xml.anywhere t tree with
  | [] => None
  | e :: _ => Xml.text e
  end.

(** The form as [_import_finvoice] fills it in, before it is saved. *)
Definition import_form (tree : Xml.node) : result (Form.t F) :=
  _ <~ check_company (import_company tree) ;;
  total <~ total_amount tree ;;
  let default_move_type := if f_ltb total f_zero then "in_refund" else "in_invoice" in
  narration_text <~ narration tree ;;
  currency <~ import_currency tree ;;
  invoice_date <~ import_date "InvoiceDate" tree ;;
  invoice_date_due <~ import_date "InvoiceDueDate" tree ;;
  lines <~ import_lines tree ;;
  Ok {| Form.context_company_id := option_map ResCompany.id (resolve_company tree);
        Form.default_move_type := default_move_type;
        Form.partner_id := resolve_partner tree;
        Form.ref := first_text "InvoiceNumber" tree;
        Form.payment_reference := first_text "EpiReference" tree;
        Form.narration := narration_text;
        Form.currency_id := currency;
        Form.invoice_date := invoice_date;
        Form.invoice_date_due := invoice_date_due;
        Form.invoice_line_ids := lines |}.

Definition _import_finvoice (tree : Xml.node) : M F (Z * Form.t F) :=
  form <- lift (import_form tree) ;;
  Orm.save form.

(** [_create_invoice_from_xml_tree] for the format [finvoice_3_0] *)
Definition _create_invoice_from_xml_tree (filename : string) (tree : Xml.node)
  : M F (Z * Form.t F) :=
  _import_finvoice tree.
End WithEnv.

(** *** The batch *)

(** What [_post_invoice_edi] records for an invoice:
    [{'success': True, 'attachment': attachment}] or [{'error': err}]. *)
Inductive outcome : Type :=
| Success (attachment : IrAttachment.t)
| Error (err : exn).

Section Batch.
Context {F : Type} {PF : PyFloat F}.
Variable env : Env.t F.

(** One turn of the loop of [_post_invoice_edi]: the [try] around the
    export catches [FinvoiceGenerationException] and nothing else.  [res] is
    keyed by the invoice, a record, that is by its id. *)
Definition post_one (res : dict Z outcome) (invoice : AccountMove.t F)
  : M F (dict Z outcome) :=
  fun w =>
    match _export_finvoice env invoice w with
    | (Ok attachment, w') =>
        (Ok (dict_set Z.eqb (AccountMove.id invoice) (Success attachment) res), w')
    | (Raise (FinvoiceGenerationException msg), w') =>
        (Ok (dict_set Z.eqb (AccountMove.id invoice)
               (Error (FinvoiceGenerationException msg)) res), w')
    | (Raise e, w') => (Raise e, w')
    end.

(** [_post_invoice_edi] of the format whose code is [code]; [super_post] is
    the method of the parent class, for the other formats. *)
Definition _post_invoice_edi (code : string)
    (super_post : list (AccountMove.t F) -> M F (dict Z outcome))
    (invoices : list (AccountMove.t F)) : M F (dict Z outcome) :=
  if negb (code =? "finvoice_3_0") then super_post invoices
  else fold_left (fun acc invoice => res <- acc ;; post_one res invoice) invoices (ret []).

(** [_needs_web_services]; [super_needs] is the answer of the parent class. *)
Definition _needs_web_services (code : string) (super_needs : bool) : bool :=
  if negb (code =? "finvoice_3_0") then super_needs else true.
End Batch.
End AccountEdiFormat.

(** ** [ahkio_apix.py]: class [AhkioApix] *)
Module AhkioApix.
Import Py.
Local Open Scope string_scope.
Local Open Scope py_scope.

Definition _calculate_digest (params : sdict value) (key : value) : result string :=
  let digest_params := (dict_values params ++ [key])%list in
  digest <~ join "+" digest_params ;;
  Ok ("SHA-256:" ++ Sha256.hexdigest (Sha256.encode digest)).

(** [extract_content_from_group], local to [list_invoice_zips] *)
Definition extract_content_from_group (group : Xml.node) : result (sdict string) :=
  fold_left (fun acc value =>
               file <~ acc ;;
               v <~ first (Xml.text_nodes value) ;;
               k <~ first (Xml.attribute "type" value) ;;
               Ok (sset k v file))
            (Xml.child_elements "Value" group) (Ok []).

(** [list(map(f, l))] for an [f] that may raise. *)
Fixpoint map_result {A B : Type} (f : A -> result B) (l : list A) : result (list B) :=
  match l with
  | [] => Ok []
  | x :: l' => y <~ f x ;; ys <~ map_result f l' ;; Ok (y :: ys)
  end.

(** [re.match(r'^file:\/\/(?P<filename>.+)$', s)]: the group, when the
    string is [file://] and then one character or more, none of them a
    line feed but possibly a last one, which the group leaves out. *)
Fixpoint has_char (c : ascii) (s : string) : bool :=
  match s with
  | EmptyString => false
  | String c' s' => Ascii.eqb c c' || has_char c s'
  end.

Definition match_file_uri (filename_uri : string) : option string :=
  if prefix "file://" filename_uri
  then
    let rest := slice_from 7 filename_uri in
    let body := if slice_from (-1) rest =? String (ascii_of_N 10) EmptyString
                then slice 0 (-1) rest
                else rest in
    if (body =? "") || has_char (ascii_of_N 10) body then None else Some body
  else None.

Section WithEnv.
Context {F : Type} {PF : PyFloat F}.
Variable env : Env.t F.

Definition _apix_env : string :=
  Env.get_param env "ahkio_finvoice.apix_env" "production".

Definition list_invoice_zips (company : ResCompany.t) : M F (list (sdict string)) :=
  let params := [("TraID", ResCompany.ahkio_apix_transfer_id company);
                 ("t", Some (Env.now_stamp env))] in
  d <- lift (_calculate_digest params (ResCompany.ahkio_apix_transfer_key company)) ;;
  let params := sset "d" (Some d) params in
  let url := if _apix_env =? "test"
             then "https://test-terminal.apix.fi/list2"
             else "https://terminal.apix.fi/list2" in
  response <- Orm.request env "GET" url "" params ;;
  response_body_xml <- lift (Env.etree_fromstring env (Http.text response)) ;;
  status <- lift (first (Xml.absolute ["Response"; "Status"] response_body_xml)) ;;
  if match Xml.text status with Some "OK" => false | _ => true end
  then
    (* [raise response.text]: a [str] cannot be raised *)
    raise (TypeError "exceptions must derive from BaseException")
  else
    let files := Xml.absolute ["Response"; "Content"; "Group"] response_body_xml in
    lift (map_result extract_content_from_group files).

(** The loop of [download] over the [InvoiceUrlText] elements; the state
    is the variable [filename] and the dict [attachment_files]. *)
Definition read_attachment (file zip_file : sdict string)
    (st : result (string * sdict string)) (apix_attachment : Xml.node)
  : result (string * sdict string) :=
  s <~ st ;;
  match Xml.text apix_attachment with
  | None => Raise (TypeError "expected string or bytes-like object")
  | Some filename_uri =>
      match match_file_uri filename_uri with
      | None => _ <~ item "DocumentID" file ;; Ok s
      | Some filename =>
          match sget filename zip_file with
          | Some content => Ok (filename, sset filename content (snd s))
          | None => Ok (filename, snd s)
          end
      end
  end.

Definition create_invoice_attachments (invoice_id : Z) (files : sdict string)
  : M F (list string) :=
  fold_left (fun acc nf =>
               ids <- acc ;;
               a <- Orm.create_attachment
                      {| IrAttachment.name := fst nf;
                         IrAttachment.raw := snd nf;
                         IrAttachment.res_model := Some "account.move";
                         IrAttachment.res_id := Some invoice_id;
                         IrAttachment.mimetype := None |} ;;
               ret (ids ++ [IrAttachment.name a])%list)
            files (ret []).

(** [download(file, storage_status)]; the empty recordset
    [self.env['account.move']] is [None]. *)
Definition download (file : sdict string) (storage_status : value)
  : M F (option (Z * Form.t F)) :=
  status <- lift (item "StorageStatus" file) ;;
  if status =? "NEW" then ret None
  else if truthy storage_status && negb (status =? fmt storage_status) then ret None
  else
    storage_id <- lift (item "StorageID" file) ;;
    let filename := "apix_in_invoice_" ++ storage_id in
    existing <- Orm.search_attachment (filename ++ ".zip") "account.move" ;;
    match existing with
    | Some _ => ret None
    | None =>
        let params := [("markreceived", Some "yes");
                       ("SID", Some storage_id);
                       ("t", Some (Env.now_stamp env))] in
        storage_key <- lift (item "StorageKey" file) ;;
        d <- lift (_calculate_digest params (Some storage_key)) ;;
        let params := sset "d" (Some d) params in
        let url := if _apix_env =? "test"
                   then "https://test-terminal.apix.fi/download"
                   else "https://terminal.apix.fi/download" in
        response <- Orm.request env "GET" url "" params ;;
        _ <- (if (Http.status_code response =? 200)%Z then ret ""
              else lift (item "DocumentID" file)) ;;
        attachment <- Orm.create_attachment
                        {| IrAttachment.name := filename ++ ".zip";
                           IrAttachment.raw := Http.content response;
                           IrAttachment.res_model := Some "account.move";
                           IrAttachment.res_id := None;
                           IrAttachment.mimetype := None |} ;;
        zip_file <- match Env.zip_read env (Http.content response) with
                    | Some z => ret z
                    | None => raise (BadZipFile "File is not a zip file")
                    end ;;
        document_name <- lift (item "DocumentName" file) ;;
        xml_doc <- match sget document_name zip_file with
                   | Some doc => ret doc
                   | None => raise (KeyError document_name)
                   end ;;
        match Env.etree_fromstring env xml_doc with
        | Raise _ => _ <- lift (item "DocumentID" file) ;; ret None
        | Ok tree =>
            st <- lift (fold_left (read_attachment file zip_file)
                                  (Xml.anywhere "InvoiceUrlText" tree)
                                  (Ok (filename, []))) ;;
            invoice <- AccountEdiFormat._create_invoice_from_xml_tree
                         env (fst st ++ ".xml") tree ;;
            _ <- Orm.set_res_id (IrAttachment.name attachment) "account.move"
                                (fst invoice) ;;
            _ <- Orm.message_post "Apix invoice zip" [IrAttachment.name attachment] ;;
            invoice_attachment_ids <- create_invoice_attachments (fst invoice) (snd st) ;;
            _ <- match invoice_attachment_ids with
                 | [] => ret tt
                 | _ :: _ => Orm.message_post "Invoice attachments" invoice_attachment_ids
                 end ;;
            _ <- Orm.commit ;;
            ret (Some invoice)
        end
    end.

Definition fetch_invoice_zips_for_company (company : ResCompany.t) : M F unit :=
  files <- list_invoice_zips company ;;
  fold_left (fun acc file =>
               _ <- acc ;;
               r <- download file (Some "UNRECEIVED") ;;
               match r with
               | Some _ => _ <- lift (item "DocumentID" file) ;; ret tt
               | None => ret tt
               end)
            files (ret tt).

Definition fetch_invoice_zips : M F unit :=
  fold_left (fun acc company => _ <- acc ;; fetch_invoice_zips_for_company company)
            (filter (fun c => truthy (ResCompany.ahkio_apix_transfer_id c)
                              && truthy (ResCompany.ahkio_apix_transfer_key c))
                    (Env.companies env))
            (ret tt).
End WithEnv.
End AhkioApix.

(** ** Decimal numerals: the vocabulary in which a rendering is stated *)
Module Numeral.
Local Open Scope Z_scope.

Definition is_digit (c : ascii) : bool :=
  let n := Z.of_N (N_of_ascii c) in (48 <=? n) && (n <=? 57).

Fixpoint all_digits (s : string) : bool :=
  match s with
  | EmptyString => true
  | String c s' => is_digit c && all_digits s'
  end.

(** The number a string of digits denotes, after the number [acc] of the
    digits before it. *)
Fixpoint number_from (acc : Z) (s : string) : Z :=
  match s with
  | EmptyString => acc
  | String c s' => number_from (acc * 10 + (Z.of_N (N_of_ascii c) - 48)) s'
  end.

Definition number (s : string) : Z := number_from 0 s.
End Numeral.

(** ** What the aggregated tax details are made of

    The vocabulary in which the result of the aggregation is stated: the
    taxes of the journal's tax lines in the order in which they are first
    seen, the last tax line of a tax, and the bases the tax engine returns
    for a tax over the invoice lines, in order. *)
Module Aggregation.
Import Py.

Definition see (seen : list Z) (k : Z) : list Z :=
  if existsb (Z.eqb k) seen then seen else (seen ++ [k])%list.

(** The elements of a list in the order of their first occurrence. *)
Definition first_seen (l : list Z) : list Z := fold_left see l [].

Section WithEnv.
Context {F : Type} {PF : PyFloat F}.
Variable env : Env.t F.

(** The id of the tax a journal item is the tax line of. *)
Definition tax_key (line : AccountMoveLine.t F) : Z :=
  match AccountMoveLine.tax_line_id line with
  | Some tax => AccountTax.id tax
  | None => 0
  end.

(** The last tax line of the journal for the tax [k]. *)
Definition last_tax_line (invoice : AccountMove.t F) (k : Z)
  : option (AccountMoveLine.t F) :=
  option_map snd
    (find (fun kl => (k =? fst kl)%Z) (rev (AccountEdiFormat.tax_lines invoice))).

(** What the tax engine returns over the invoice lines, in order. *)
Definition tax_results (invoice : AccountMove.t F) : list (Tax.res F) :=
  flat_map (fun line => Tax.taxes (AccountEdiFormat.line_taxes_res env invoice line))
           (AccountEdiFormat.product_lines invoice).

(** The bases of the tax [k] over the invoice lines, in order. *)
Definition bases (invoice : AccountMove.t F) (k : Z) : list F :=
  map (@Tax.base F) (filter (fun r => (k =? Tax.id r)%Z) (tax_results invoice)).

(** The sum as the code computes it: from [0.0], adding in order. *)
Definition total (amounts : list F) : F := fold_left f_add amounts f_zero.
End WithEnv.
End Aggregation.

(** ** Exact amounts: rationals as an instance of the float operations,
    used to run the model on concrete invoices *)
Module Exact.
Import QArith.
Local Open Scope Z_scope.

(** The digits of a string as a number, or [None] if one is not a digit. *)
Fixpoint number (acc : Z) (s : string) : option Z :=
  match s with
  | EmptyString => Some acc
  | String c s' =>
      let n := Z.of_N (N_of_ascii c) in
      if (48 <=? n) && (n <=? 57) then number (acc * 10 + (n - 48)) s' else None
  end.

Fixpoint split_at (c : ascii) (s : string) : string * option string :=
  match s with
  | EmptyString => (EmptyString, None)
  | String c' s' =>
      if Ascii.eqb c c' then (EmptyString, Some s')
      else let '(a, b) := split_at c s' in (String c' a, b)
  end.

(** Plain decimal numerals: an optional sign, digits, and optionally a
    point and more digits. *)
Definition parse_unsigned (s : string) : option Q :=
  let '(ip, fp) := split_at "."%char s in
  match ip, number 0 ip, fp with
  | EmptyString, _, _ | _, None, _ => None
  | _, Some i, None => Some (inject_Z i)
  | _, Some i, Some f =>
      match number 0 f with
      | Some n => Some (Qred (Qmake (i * 10 ^ Z.of_nat (String.length f) + n)
                                    (Z.to_pos (10 ^ Z.of_nat (String.length f)))))
      | None => None
      end
  end.

Definition parse (s : string) : option Q :=
  match s with
  | String "-"%char s' => option_map (fun q => Qred (Qopp q)) (parse_unsigned s')
  | _ => parse_unsigned s
  end.

#[global] Instance float : PyFloat Q := {|
  f_zero := 0%Q;
  f_one := 1%Q;
  f_hundred := inject_Z 100;
  f_add := fun a b => Qred (Qplus a b);
  f_sub := fun a b => Qred (Qminus a b);
  f_mul := fun a b => Qred (Qmult a b);
  f_div := fun a b => Qred (Qdiv a b);
  f_neg := fun a => Qred (Qopp a);
  f_ltb := fun a b => negb (Qle_bool b a);
  f_eqb := Qeq_bool;
  f_parse := parse
|}.
End Exact.

(** ** The mandatory fields, in the words of the specification

    The thirteen checks in the order the specification lists them; a field of
    the shipping contact is missing only if a shipping contact exists. *)
Module Mandatory.
Import Py.
Local Open Scope string_scope.

Inductive field_name : Type :=
| SenderCompanyRegistry
| RecipientRegistry
| ShippingContactRegistry
| SenderBankAccount
| TransferId
| TransferKey
| SenderOvt
| RecipientOvt
| ShippingContactOvt
| SenderEInvoiceAddress
| RecipientEInvoiceAddress
| SenderEInvoiceIntermediator
| RecipientEInvoiceIntermediator.

Definition check_order : list field_name :=
  [SenderCompanyRegistry; RecipientRegistry; ShippingContactRegistry;
   SenderBankAccount; TransferId; TransferKey;
   SenderOvt; RecipientOvt; ShippingContactOvt;
   SenderEInvoiceAddress; RecipientEInvoiceAddress;
   SenderEInvoiceIntermediator; RecipientEInvoiceIntermediator].

Section WithFloat.
Context {F : Type}.

Definition sender (invoice : AccountMove.t F) : ResPartner.t :=
  ResCompany.partner_id (AccountMove.company_id invoice).

Definition empty (v : value) : bool := negb (truthy v).

(** The shipping contact, if the invoice has one. *)
Definition shipping_contact (invoice : AccountMove.t F) : option ResPartner.t :=
  match AccountMove.partner_shipping_id invoice with
  | AccountMove.ShippingField p => p
  | AccountMove.NoShippingField => None
  end.

Definition missing (invoice : AccountMove.t F) (f : field_name) : bool :=
  let recipient := AccountMove.commercial_partner_id invoice in
  match f with
  | SenderCompanyRegistry =>
      empty (ResCompany.company_registry (AccountMove.company_id invoice))
  | RecipientRegistry => empty (field ResPartner.ahkio_company_registry recipient)
  | ShippingContactRegistry =>
      match shipping_contact invoice with
      | Some p => empty (ResPartner.ahkio_company_registry p)
      | None => false
      end
  | SenderBankAccount => (List.length (ResPartner.bank_ids (sender invoice)) =? 0)%nat
  | TransferId => empty (ResCompany.ahkio_apix_transfer_id (AccountMove.company_id invoice))
  | TransferKey => empty (ResCompany.ahkio_apix_transfer_key (AccountMove.company_id invoice))
  | SenderOvt => empty (ResPartner.ahkio_organisation_unit_number (sender invoice))
  | RecipientOvt => empty (field ResPartner.ahkio_organisation_unit_number recipient)
  | ShippingContactOvt =>
      match shipping_contact invoice with
      | Some p => empty (ResPartner.ahkio_organisation_unit_number p)
      | None => false
      end
  | SenderEInvoiceAddress => empty (ResPartner.ahkio_e_invoice_address (sender invoice))
  | RecipientEInvoiceAddress => empty (field ResPartner.ahkio_e_invoice_address recipient)
  | SenderEInvoiceIntermediator =>
      empty (ResPartner.ahkio_e_invoice_intermediator (sender invoice))
  | RecipientEInvoiceIntermediator =>
      empty (field ResPartner.ahkio_e_invoice_intermediator recipient)
  end.

(** The first missing field in the order of the checks. *)
Definition first_missing (invoice : AccountMove.t F) : option field_name :=
  find (missing invoice) check_order.
End WithFloat.

(** The message that names a field. *)
Definition message (f : field_name) : string :=
  match f with
  | SenderCompanyRegistry => "Company registry (y-tunnus) missing from sender."
  | RecipientRegistry => "Company registry (y-tunnus) missing from recipient."
  | ShippingContactRegistry => "Company registry (y-tunnus) missing from shipping contact."
  | SenderBankAccount => "No bank accounts configured for sender."
  | TransferId => "Apix transfer id missing from company config."
  | TransferKey => "Apix transfer key missing from company config."
  | SenderOvt => "Organisation unit number (OVT) missing from sender."
  | RecipientOvt => "Organisation unit number (OVT) missing from recipient."
  | ShippingContactOvt => "Organisation unit number (OVT) missing from shipping contact."
  | SenderEInvoiceAddress => "E-invoice address missing from sender."
  | RecipientEInvoiceAddress => "E-invoice address missing from recipient."
  | SenderEInvoiceIntermediator => "E-invoice intermediator missing from sender."
  | RecipientEInvoiceIntermediator => "E-invoice intermediator missing from recipient."
  end.
End Mandatory.

(** ** A concrete company, its invoices and an Apix that answers *)
Module Sample.
Import Py.
Import QArith.
Local Open Scope string_scope.
Local Open Scope Z_scope.

Definition eur : ResCurrency.t :=
  {| ResCurrency.id := 1; ResCurrency.name := "EUR"; ResCurrency.active := true;
     ResCurrency.decimal_places := 2 |}.
Definition usd : ResCurrency.t :=
  {| ResCurrency.id := 2; ResCurrency.name := "USD"; ResCurrency.active := true;
     ResCurrency.decimal_places := 2 |}.
Definition sek : ResCurrency.t :=
  {| ResCurrency.id := 3; ResCurrency.name := "SEK"; ResCurrency.active := false;
     ResCurrency.decimal_places := 2 |}.

Definition sender_partner : ResPartner.t :=
  {| ResPartner.id := 1;
     ResPartner.vat := Some "FI12345678";
     ResPartner.ahkio_company_registry := Some "1234567-8";
     ResPartner.ahkio_organisation_unit_number := Some "003712345678";
     ResPartner.ahkio_e_invoice_address := Some "003712345678";
     ResPartner.ahkio_e_invoice_intermediator := Some "003723327487";
     ResPartner.bank_ids := [1] |}.

Definition sender : ResCompany.t :=
  {| ResCompany.id := 1;
     ResCompany.name := "Sender Oy";
     ResCompany.display_name := "Sender Oy";
     ResCompany.company_registry := Some "1234567-8";
     ResCompany.vat := Some "FI12345678";
     ResCompany.partner_id := sender_partner;
     ResCompany.currency_id := eur;
     ResCompany.ahkio_apix_transfer_id := Some "TRA1";
     ResCompany.ahkio_apix_transfer_key := Some "secret" |}.

Definition other_partner : ResPartner.t :=
  {| ResPartner.id := 2;
     ResPartner.vat := Some "FI22222222";
     ResPartner.ahkio_company_registry := Some "2222222-2";
     ResPartner.ahkio_organisation_unit_number := Some "003722222222";
     ResPartner.ahkio_e_invoice_address := Some "003722222222";
     ResPartner.ahkio_e_invoice_intermediator := Some "003723327487";
     ResPartner.bank_ids := [2] |}.

Definition other : ResCompany.t :=
  {| ResCompany.id := 2;
     ResCompany.name := "Other Oy";
     ResCompany.display_name := "Other Oy";
     ResCompany.company_registry := Some "2222222-2";
     ResCompany.vat := Some "FI22222222";
     ResCompany.partner_id := other_partner;
     ResCompany.currency_id := eur;
     ResCompany.ahkio_apix_transfer_id := Some "TRA2";
     ResCompany.ahkio_apix_transfer_key := Some "hidden" |}.

Definition recipient : ResPartner.t :=
  {| ResPartner.id := 3;
     ResPartner.vat := Some "FI87654321";
     ResPartner.ahkio_company_registry := Some "8765432-1";
     ResPartner.ahkio_organisation_unit_number := Some "003787654321";
     ResPartner.ahkio_e_invoice_address := Some "003787654321";
     ResPartner.ahkio_e_invoice_intermediator := Some "003723327487";
     ResPartner.bank_ids := [] |}.

(** A recipient with no OVT number and no e-invoice address. *)
Definition bare_recipient : ResPartner.t :=
  {| ResPartner.id := 4;
     ResPartner.vat := None;
     ResPartner.ahkio_company_registry := Some "7777777-7";
     ResPartner.ahkio_organisation_unit_number := None;
     ResPartner.ahkio_e_invoice_address := Some "";
     ResPartner.ahkio_e_invoice_intermediator := Some "003723327487";
     ResPartner.bank_ids := [] |}.

Definition vat24 : AccountTax.t Q :=
  {| AccountTax.id := 24; AccountTax.company_id := 1; AccountTax.amount_type := "percent";
     AccountTax.type_tax_use := "purchase"; AccountTax.amount := inject_Z 24 |}.
Definition vat0 : AccountTax.t Q :=
  {| AccountTax.id := 100; AccountTax.company_id := 1; AccountTax.amount_type := "percent";
     AccountTax.type_tax_use := "purchase"; AccountTax.amount := inject_Z 0 |}.

(** A product line: price, quantity, one tax. *)
Definition product_line (id price quantity : Z) (tax : AccountTax.t Q)
  : AccountMoveLine.t Q :=
  {| AccountMoveLine.id := id;
     AccountMoveLine.tax_line_id := None;
     AccountMoveLine.currency_id := None;
     AccountMoveLine.amount_currency := 0%Q;
     AccountMoveLine.balance := inject_Z (- (price * quantity));
     AccountMoveLine.display_type := None;
     AccountMoveLine.price_unit := inject_Z price;
     AccountMoveLine.discount := 0%Q;
     AccountMoveLine.quantity := inject_Z quantity;
     AccountMoveLine.tax_ids := [tax];
     AccountMoveLine.product_id := None |}.

(** The journal item of a tax, with its balance. *)
Definition tax_line (id : Z) (tax : AccountTax.t Q) (balance : Q) : AccountMoveLine.t Q :=
  {| AccountMoveLine.id := id;
     AccountMoveLine.tax_line_id := Some tax;
     AccountMoveLine.currency_id := None;
     AccountMoveLine.amount_currency := 0%Q;
     AccountMoveLine.balance := balance;
     AccountMoveLine.display_type := None;
     AccountMoveLine.price_unit := 0%Q;
     AccountMoveLine.discount := 0%Q;
     AccountMoveLine.quantity := 1%Q;
     AccountMoveLine.tax_ids := [];
     AccountMoveLine.product_id := None |}.

(** Two lines at 24 % and one at 0 %.  The journal holds a tax line for
    the 24 % tax only: a tax of amount zero gets no journal item. *)
Definition lines : list (AccountMoveLine.t Q) :=
  [product_line 1 100 1 vat24; product_line 2 50 2 vat24; product_line 3 30 1 vat0].

Definition invoice_with (partner : ResPartner.t) (tax_balance : Z) : AccountMove.t Q :=
  {| AccountMove.id := 7;
     AccountMove.name := "INV/2023/0001";
     AccountMove.move_type := "out_invoice";
     AccountMove.company_id := sender;
     AccountMove.partner_id := Some partner;
     AccountMove.commercial_partner_id := Some partner;
     AccountMove.partner_shipping_id := AccountMove.NoShippingField;
     AccountMove.line_ids := (lines ++ [tax_line 4 vat24 (inject_Z tax_balance)])%list;
     AccountMove.invoice_line_ids := lines |}.

Definition invoice : AccountMove.t Q := invoice_with recipient (-48).
Definition incomplete_invoice : AccountMove.t Q := invoice_with bare_recipient (-48).

(** The same invoice after the amount of its tax line was set by hand. *)
Definition adjusted_invoice : AccountMove.t Q := invoice_with recipient (-47).

(** The same invoice with the tax at 24 % booked on two journal items. *)
Definition split_invoice : AccountMove.t Q :=
  {| AccountMove.id := 8;
     AccountMove.name := "INV/2023/0002";
     AccountMove.move_type := "out_invoice";
     AccountMove.company_id := sender;
     AccountMove.partner_id := Some recipient;
     AccountMove.commercial_partner_id := Some recipient;
     AccountMove.partner_shipping_id := AccountMove.NoShippingField;
     AccountMove.line_ids :=
       (lines ++ [tax_line 4 vat24 (inject_Z (-30)); tax_line 5 vat24 (inject_Z (-18))])%list;
     AccountMove.invoice_line_ids := lines |}.

(** The tax engine on one percentage tax per line. *)
Definition compute_all (a : Tax.args Q) : Tax.all Q :=
  let base := Qred (Qmult (Tax.arg_price_unit a) (Tax.arg_quantity a)) in
  {| Tax.total_excluded := base;
     Tax.taxes :=
       map (fun t => {| Tax.id := AccountTax.id t;
                        Tax.amount := Qred (Qdiv (Qmult base (AccountTax.amount t))
                                                 (inject_Z 100));
                        Tax.base := base |})
           (Tax.arg_taxes a) |}.

Definition ok_text : string := "<Response><Status>OK</Status></Response>".
Definition ok_tree : Xml.node :=
  Xml.Element "Response" [] [Xml.Element "Status" [] [Xml.Text "OK"]].

Definition fail_text : string :=
  "<Response><Status>ERR</Status><StatusCode>-1</StatusCode></Response>".
Definition fail_tree : Xml.node :=
  Xml.Element "Response" []
    [Xml.Element "Status" [] [Xml.Text "ERR"];
     Xml.Element "StatusCode" [] [Xml.Text "-1"]].

Definition value_element (type text : string) : Xml.node :=
  Xml.Element "Value" [("type", type)] [Xml.Text text].

Definition group (storage_id status : string) : Xml.node :=
  Xml.Element "Group" []
    [value_element "StorageID" storage_id;
     value_element "StorageKey" "k9";
     value_element "StorageStatus" status;
     value_element "DocumentID" "doc1";
     value_element "DocumentName" "invoice.xml"].

Definition list_text : string := "<Response><Status>OK</Status><Content>...</Content></Response>".
Definition list_tree : Xml.node :=
  Xml.Element "Response" []
    [Xml.Element "Status" [] [Xml.Text "OK"];
     Xml.Element "Content" [] [group "S1" "UNRECEIVED"; group "S2" "NEW"]].

(** A [Value] with no text. *)
Definition hollow_text : string :=
  "<Response><Status>OK</Status><Content><Group><Value type='StorageID'/></Group></Content></Response>".
Definition hollow_tree : Xml.node :=
  Xml.Element "Response" []
    [Xml.Element "Status" [] [Xml.Text "OK"];
     Xml.Element "Content" []
       [Xml.Element "Group" [] [Xml.Element "Value" [("type", "StorageID")] []]]].

(** A file descriptor as [list_invoice_zips] builds it. *)
Definition file (storage_id status : string) : sdict string :=
  [("StorageID", storage_id); ("StorageKey", "k9"); ("StorageStatus", status);
   ("DocumentID", "doc1"); ("DocumentName", "invoice.xml")].

(** An inbound invoice addressed to the company with OVT number [ovt], its
    total in the currency [currency] if one is given. *)
Definition finvoice (ovt : string) (currency : option string) : Xml.node :=
  Xml.Element "Finvoice" [("Version", "3.0")]
    [Xml.Element "SellerPartyDetails" []
       [Xml.Element "SellerPartyIdentifier" [] [Xml.Text "8765432-1"]];
     Xml.Element "BuyerOrganisationUnitNumber" [] [Xml.Text ovt];
     Xml.Element "InvoiceDetails" []
       [Xml.Element "InvoiceNumber" [] [Xml.Text "42"];
        Xml.Element "InvoiceDate" [("Format", "CCYYMMDD")] [Xml.Text "20230115"];
        Xml.Element "InvoiceTotalVatIncludedAmount"
          match currency with
          | Some c => [("AmountCurrencyIdentifier", c)]
          | None => []
          end
          [Xml.Text "124,00"]];
     Xml.Element "InvoiceUrlText" [] [Xml.Text "file://scan.pdf"];
     Xml.Element "InvoiceRow" []
       [Xml.Element "ArticleName" [] [Xml.Text "Service"];
        Xml.Element "DeliveredQuantity" [] [Xml.Text "1,00"];
        Xml.Element "UnitPriceAmount" [] [Xml.Text "100,00"];
        Xml.Element "RowVatRatePercent" [] [Xml.Text "24"]]].

(** The package Apix returns for a download: the invoice and a scan. *)
Definition package : string := "PK-invoice-S1".
Definition invoice_xml : string := "<Finvoice Version='3.0'>...</Finvoice>".

(** The parser on the documents of this module. *)
Definition parse (documents : list (string * Xml.node)) (text : string)
  : result Xml.node :=
  match sget text documents with
  | Some tree => Ok tree
  | None => Raise (XMLSyntaxError "Document is empty")
  end.

(** An environment in which every request is answered by [answer]. *)
Definition env_with (superuser : bool) (answer : string) : Env.t Q :=
  {| Env.is_superuser := superuser;
     Env.company := sender;
     Env.config_parameter := [("ahkio_finvoice.apix_env", "test")];
     Env.companies := [sender; other];
     Env.partners := [recipient];
     Env.taxes := [vat24; vat0];
     Env.currencies := [("base.EUR", eur); ("base.USD", usd); ("base.SEK", sek)];
     Env.form_company_id := 1;
     Env.form_journal_type := "purchase";
     Env.now_stamp := "20230115103000";
     Env.now_iso := "2023-01-15T10:30:00+02:00";
     Env.reformat_date := fun s =>
       if (String.length s =? 8)%nat
       then Some (substring 0 4 s ++ "-" ++ substring 4 2 s ++ "-" ++ substring 6 2 s)
       else None;
     Env.get_tax_force_sign := fun _ => -1;
     Env.compute_all := compute_all;
     Env.render_pdf := fun _ => "%PDF";
     Env.render_template := fun _ => "<Finvoice/>";
     Env.temp_name := fun prefix suffix => prefix ++ "x1" ++ suffix;
     Env.zip_write := fun entries => "PK";
     Env.zip_read := fun content =>
       if (content =? package)%string
       then Some [("invoice.xml", invoice_xml); ("scan.pdf", "%PDF")]
       else None;
     Env.etree_fromstring :=
       parse [(ok_text, ok_tree); (fail_text, fail_tree); (list_text, list_tree);
              (hollow_text, hollow_tree);
              (invoice_xml, finvoice "003712345678" (Some "EUR"))];
     Env.send := fun _ => {| Http.status_code := 200; Http.text := answer;
                             Http.content := answer |} |}.


Definition env : Env.t Q := env_with false ok_text.

Definition world_with (attachments : list IrAttachment.t) : World.t Q :=
  {| World.sent := []; World.attachments := attachments; World.moves := [];
     World.messages := []; World.commits := 0 |}.

Definition world : World.t Q := world_with [].

(** A company that has no Apix credentials. *)
Definition idle : ResCompany.t :=
  {| ResCompany.id := 3;
     ResCompany.name := "Idle Oy";
     ResCompany.display_name := "Idle Oy";
     ResCompany.company_registry := Some "3333333-3";
     ResCompany.vat := None;
     ResCompany.partner_id := other_partner;
     ResCompany.currency_id := eur;
     ResCompany.ahkio_apix_transfer_id := None;
     ResCompany.ahkio_apix_transfer_key := Some "" |}.

(** A list in which no file waits to be received. *)
Definition received_text : string :=
  "<Response><Status>OK</Status><Content>received</Content></Response>".
Definition received_tree : Xml.node :=
  Xml.Element "Response" []
    [Xml.Element "Status" [] [Xml.Text "OK"];
     Xml.Element "Content" [] [group "S3" "RECEIVED"; group "S2" "NEW"]].

(** The environment [env_with true answer] with other companies and
    another parser. *)
Definition env_among (companies : list ResCompany.t)
    (documents : list (string * Xml.node)) (answer : string) : Env.t Q :=
  let e := env_with true answer in
  {| Env.is_superuser := Env.is_superuser e;
     Env.company := Env.company e;
     Env.config_parameter := Env.config_parameter e;
     Env.companies := companies;
     Env.partners := Env.partners e;
     Env.taxes := Env.taxes e;
     Env.currencies := Env.currencies e;
     Env.form_company_id := Env.form_company_id e;
     Env.form_journal_type := Env.form_journal_type e;
     Env.now_stamp := Env.now_stamp e;
     Env.now_iso := Env.now_iso e;
     Env.reformat_date := Env.reformat_date e;
     Env.get_tax_force_sign := Env.get_tax_force_sign e;
     Env.compute_all := Env.compute_all e;
     Env.render_pdf := Env.render_pdf e;
     Env.render_template := Env.render_template e;
     Env.temp_name := Env.temp_name e;
     Env.zip_write := Env.zip_write e;
     Env.zip_read := Env.zip_read e;
     Env.etree_fromstring := parse documents;
     Env.send := Env.send e |}.

(** The zip of the file [S1], as [download] stores it, and a file of the
    same name attached to a partner. *)
Definition stored (res_model : string) : IrAttachment.t :=
  {| IrAttachment.name := "apix_in_invoice_S1.zip";
     IrAttachment.raw := "PK";
     IrAttachment.res_model := Some res_model;
     IrAttachment.res_id := Some 1;
     IrAttachment.mimetype := None |}.
End Sample.

(** ** The vocabulary of the statements *)
Module Statement.
Import Py.
Local Open Scope string_scope.

(** A result that is not a [UserError]. *)
Definition no_user_error {A : Type} (r : result A) : Prop :=
  match r with
  | Raise (UserError _) => False
  | _ => True
  end.

(** The text that is hashed: the values in order, then the key, joined by
    [+]. *)
Definition signed_text (values : list string) (key : string) : string :=
  String.concat "+" (values ++ [key]).

Definition signature (values : list string) (key : string) : string :=
  "SHA-256:" ++ Sha256.hexdigest (Sha256.encode (signed_text values key)).

(** The parameters of a request whose values are all strings. *)
Definition str_params (params : sdict string) : sdict value :=
  map (fun kv => (fst kv, Some (snd kv))) params.

(** Public parameters, signed: the parameters as they are, then [d], the
    digest of their values and the key. *)
Definition signed (public : sdict string) (key : string) : sdict value :=
  (str_params public ++ [("d", Some (signature (dict_values public) key))])%list.

(** The name under which [download] stores the zip of a file. *)
Definition stored_name (storage_id : string) : string :=
  ("apix_in_invoice_" ++ storage_id) ++ ".zip".



Section WithEnv.
Context {F : Type} {PF : PyFloat F}.
Variable env : Env.t F.

(** The request of [list_invoice_zips] for a company with credentials. *)
Definition list_request (transfer_id key : string) : Http.request :=
  {| Http.method := "GET";
     Http.url := if AhkioApix._apix_env env =? "test"
                 then "https://test-terminal.apix.fi/list2"
                 else "https://terminal.apix.fi/list2";
     Http.params := signed [("TraID", transfer_id); ("t", Env.now_stamp env)] key;
     Http.data := "" |}.

Definition upload_url : string :=
  if AccountEdiFormat._apix_env env =? "test"
  then "https://test-api.apix.fi/invoices"
  else "https://api.apix.fi/invoices".

(** The world after one more request. *)
Definition sent_one (w : World.t F) (rq : Http.request) : World.t F :=
  {| World.sent := (World.sent w ++ [rq])%list;
     World.attachments := World.attachments w;
     World.moves := World.moves w;
     World.messages := World.messages w;
     World.commits := World.commits w |}.

(** One step of the dict comprehension over the tax lines. *)
Definition seed (d : dict Z (Tax.aggregated F)) (kl : Z * AccountMoveLine.t F)
  : dict Z (Tax.aggregated F) :=
  dict_set Z.eqb (fst kl) (AccountEdiFormat.tax_line_entry (snd kl)) d.

(** An entry whose base has grown by the bases of [k] among [rs]. *)
Definition grown (k : Z) (rs : list (Tax.res F)) (e : Tax.aggregated F)
  : Tax.aggregated F :=
  {| Tax.agg_line := Tax.agg_line e;
     Tax.agg_tax_amount := Tax.agg_tax_amount e;
     Tax.agg_tax_base_amount :=
       fold_left f_add (map (@Tax.base F) (filter (fun r => (k =? Tax.id r)%Z) rs))
                 (Tax.agg_tax_base_amount e) |}.
End WithEnv.
End Statement.

(** ** More vocabulary: descriptors as XML, hexadecimal text *)
Module Coverage.
Import Py.
Import Statement.
Local Open Scope string_scope.

(** A file descriptor written as Apix writes it: one [Value] per field,
    the field's name in the attribute [type].  The parser gives an element
    with an empty value no text node: it has no child. *)
Definition value_node (kv : string * string) : Xml.node :=
  Xml.Element "Value" [("type", fst kv)]
    match snd kv with
    | EmptyString => []
    | String _ _ => [Xml.Text (snd kv)]
    end.

Definition descriptor_group (file : sdict string) : Xml.node :=
  Xml.Element "Group" [] (map value_node file).

(** The descriptor read from pairs in order: a later pair replaces the
    value of an earlier one with the same name. *)
Definition descriptor_of (pairs : list (string * string)) : sdict string :=
  fold_left (fun d kv => sset (fst kv) (snd kv) d) pairs [].

Definition is_hex (c : ascii) : bool :=
  let n := N_of_ascii c in
  (((48 <=? n) && (n <=? 57)) || ((97 <=? n) && (n <=? 102)))%N.

Fixpoint all_hex (s : string) : bool :=
  match s with
  | EmptyString => true
  | String c s' => is_hex c && all_hex s'
  end.

(** Every value of the parameters and the key are strings. *)
Definition all_strings (params : sdict value) (key : value) : bool :=
  forallb (fun v => match v with Some _ => true | None => false end)
          (dict_values params ++ [key]).




Section WithEnv.
Context {F : Type} {PF : PyFloat F}.
Variable env : Env.t F.

(** [invoice_name_safe] *)
Definition safe_name (invoice : AccountMove.t F) : string :=
  replace "/" "_" (AccountMove.name invoice).


(** The document and the rendering that an export puts in the zip. *)
Definition export_xml (invoice : AccountMove.t F) : string :=
  "<?xml version=" ++ dquote ++ "1.0" ++ dquote
  ++ " encoding=" ++ dquote ++ "UTF-8" ++ dquote ++ "?>"
  ++ Env.render_template env
       (AccountEdiFormat.template_values env invoice (safe_name invoice ++ "_finvoice.pdf")).

Definition export_pdf (invoice : AccountMove.t F) : string :=
  Env.render_pdf env (AccountMove.id invoice).

(** The request of an upload: the signed parameters and the zip of the
    document [xml] and the rendering [pdf]. *)
Definition upload_request (invoice : AccountMove.t F) (transfer_id key xml pdf : string)
  : Http.request :=
  {| Http.method := "PUT";
     Http.url := upload_url env;
     Http.params :=
       signed [("soft", "Ahkio"); ("ver", "2.0"); ("TraID", transfer_id);
               ("t", Env.now_stamp env)] key;
     Http.data :=
       Env.zip_write env [(safe_name invoice ++ "_finvoice.xml", xml);
                          (safe_name invoice ++ "_finvoice.pdf", pdf)] |}.

(** The attachment an accepted upload leaves. *)
Definition upload_receipt (invoice : AccountMove.t F) : IrAttachment.t :=
  {| IrAttachment.name :=
       Env.temp_name env ("apix_invoice_" ++ safe_name invoice ++ "_") ".zip";
     IrAttachment.raw := "";
     IrAttachment.res_model := None;
     IrAttachment.res_id := None;
     IrAttachment.mimetype := Some "application/zip" |}.

(** The world with one more attachment. *)
Definition attached (w : World.t F) (a : IrAttachment.t) : World.t F :=
  {| World.sent := World.sent w;
     World.attachments := (World.attachments w ++ [a])%list;
     World.moves := World.moves w;
     World.messages := World.messages w;
     World.commits := World.commits w |}.

(** The exceptions [_post_invoice_edi] catches. *)
Definition generation_error (e : exn) : bool :=
  match e with
  | FinvoiceGenerationException _ => true
  | _ => false
  end.

(** The loop of [_post_invoice_edi] from a result [m]. *)
Definition post_loop (invoices : list (AccountMove.t F))
    (m : M F (dict Z AccountEdiFormat.outcome)) : M F (dict Z AccountEdiFormat.outcome) :=
  fold_left (fun acc invoice => bindM acc (fun res => AccountEdiFormat.post_one env res invoice))
            invoices m.

(** The values the export gives the template for the line at position
    [i], from 0. *)
Definition line_values_of (invoice : AccountMove.t F) (il : nat * AccountMoveLine.t F)
  : Template.line_values F :=
  let taxes_res := AccountEdiFormat.line_taxes_res env invoice (snd il) in
  {| Template.line := snd il;
     Template.index := fst il + 1;
     Template.line_tax_details := map AccountEdiFormat.detail_of (Tax.taxes taxes_res);
     Template.net_price_subtotal := Tax.total_excluded taxes_res |}.





(** What the batch records for an invoice that the checks refuse. *)
Definition refusal (invoice : AccountMove.t F) : AccountEdiFormat.outcome :=
  AccountEdiFormat.Error
    (FinvoiceGenerationException
       match Mandatory.first_missing invoice with
       | Some f => Mandatory.message f
       | None => ""
       end).
End WithEnv.

(** The attachment [download] stores for a file. *)
Definition package (storage_id content : string) (a : IrAttachment.t) : Prop :=
  IrAttachment.name a = ("apix_in_invoice_" ++ storage_id) ++ ".zip"
  /\ IrAttachment.raw a = content
  /\ IrAttachment.res_model a = Some "account.move".

(** The record [download] creates for the zip of a file. *)
Definition package_of (storage_id content : string) : IrAttachment.t :=
  {| IrAttachment.name := ("apix_in_invoice_" ++ storage_id) ++ ".zip";
     IrAttachment.raw := content;
     IrAttachment.res_model := Some "account.move";
     IrAttachment.res_id := None;
     IrAttachment.mimetype := None |}.

(** The search of [download] for the zip of a file finds something. *)
Definition is_stored {F : Type} (w : World.t F) (storage_id : string) : bool :=
  existsb (fun a => (IrAttachment.name a =? stored_name storage_id)
                    && match IrAttachment.res_model a with
                       | Some m => m =? "account.move"
                       | None => false
                       end)
          (World.attachments w).

(** The world holds the zip of a file with that content. *)
Definition stores {F : Type} (w : World.t F) (storage_id content : string) : Prop :=
  exists a, In a (World.attachments w) /\ package storage_id content a.

(** The records [download] creates for the attachments of an invoice. *)
Definition filed (invoice_id : Z) (files : sdict string) : list IrAttachment.t :=
  map (fun nf => {| IrAttachment.name := fst nf;
                    IrAttachment.raw := snd nf;
                    IrAttachment.res_model := Some "account.move";
                    IrAttachment.res_id := Some invoice_id;
                    IrAttachment.mimetype := None |})
      files.

Section Unpack.
Context {F : Type} {PF : PyFloat F}.
Variable env : Env.t F.
Local Open Scope py_scope.

(** The request of [download] for a file. *)
Definition download_request (storage_id key : string) : Http.request :=
  {| Http.method := "GET";
     Http.url := if AhkioApix._apix_env env =? "test"
                 then "https://test-terminal.apix.fi/download"
                 else "https://terminal.apix.fi/download";
     Http.params :=
       signed [("markreceived", "yes"); ("SID", storage_id); ("t", Env.now_stamp env)] key;
     Http.data := "" |}.

(** The end of [download], once the invoice is created: the zip is linked
    to it and the attachments are filed. *)
Definition file_invoice (attachment : IrAttachment.t) (files : sdict string)
    (invoice : Z * Form.t F) : M F (option (Z * Form.t F)) :=
  _ <- Orm.set_res_id (IrAttachment.name attachment) "account.move" (fst invoice) ;;
  _ <- Orm.message_post "Apix invoice zip" [IrAttachment.name attachment] ;;
  invoice_attachment_ids <- AhkioApix.create_invoice_attachments (fst invoice) files ;;
  _ <- match invoice_attachment_ids with
       | [] => ret tt
       | _ :: _ => Orm.message_post "Invoice attachments" invoice_attachment_ids
       end ;;
  _ <- Orm.commit ;;
  ret (Some invoice).

(** What [download] does after it has stored the zip. *)
Definition unpack (file : sdict string) (filename : string) (attachment : IrAttachment.t)
    (content : string) : M F (option (Z * Form.t F)) :=
  zip_file <- match Env.zip_read env content with
              | Some z => ret z
              | None => raise (BadZipFile "File is not a zip file")
              end ;;
  document_name <- lift (item "DocumentName" file) ;;
  xml_doc <- match sget document_name zip_file with
             | Some doc => ret doc
             | None => raise (KeyError document_name)
             end ;;
  match Env.etree_fromstring env xml_doc with
  | Raise _ => _ <- lift (item "DocumentID" file) ;; ret None
  | Ok tree =>
      st <- lift (fold_left (AhkioApix.read_attachment file zip_file)
                            (Xml.anywhere "InvoiceUrlText" tree)
                            (Ok (filename, []))) ;;
      invoice <- AccountEdiFormat._create_invoice_from_xml_tree
                   env (fst st ++ ".xml") tree ;;
      file_invoice attachment (snd st) invoice
  end.

(** The world once [file_invoice] is done, from the world [w] in which the
    invoice was created. *)
Definition filed_world (attachment : IrAttachment.t) (files : sdict string)
    (invoice_id : Z) (w : World.t F) : World.t F :=
  {| World.sent := World.sent w;
     World.attachments :=
       (World.attachments
          (snd (Orm.set_res_id (IrAttachment.name attachment) "account.move" invoice_id w))
        ++ filed invoice_id files)%list;
     World.moves := World.moves w;
     World.messages :=
       (World.messages w
        ++ ("Apix invoice zip", [IrAttachment.name attachment])
        :: match files with
           | [] => []
           | _ :: _ => [("Invoice attachments", dict_keys files)]
           end)%list;
     World.commits := S (World.commits w) |}.
End Unpack.
End Coverage.

(** * Properties *)

Import Statement.
Import Coverage.

(** ** The models against known values *)

Example sha256_abc :
  Sha256.hexdigest (Sha256.encode "abc")
  = "ba7816bf8f01cfea414140de5dae2223b00361a396177a9cb410ff61f20015ad"%string.
Proof. vm_compute. reflexivity. Qed.

Example sha256_empty :
  Sha256.hexdigest (Sha256.encode "")
  = "e3b0c44298fc1c149afbf4c8996fb92427ae41e4649b934ca495991b7852b855"%string.
Proof. vm_compute. reflexivity. Qed.

Example sha256_two_blocks :
  Sha256.hexdigest
    (Sha256.encode "abcdbcdecdefdefgefghfghighijhijkijkljklmklmnlmnomnopnopq")
  = "248d6a61d20638b8e5c026930c3e6039a33ce45964ff2167f6ecedd419db06c1"%string.
Proof. vm_compute. reflexivity. Qed.

Example format_monetary_1234_5 :
  AccountEdiFormat.format_monetary
    {| Float.sign := false; Float.mant := 2469; Float.expo := -1 |}
    {| ResCurrency.id := 1; ResCurrency.name := "EUR"; ResCurrency.active := true;
       ResCurrency.decimal_places := 2 |}
  = "1234,50"%string.
Proof. vm_compute. reflexivity. Qed.

Example format_monetary_90_85 :
  AccountEdiFormat.format_monetary
    {| Float.sign := false; Float.mant := 6393000408540775; Float.expo := -46 |}
    {| ResCurrency.id := 1; ResCurrency.name := "EUR"; ResCurrency.active := true;
       ResCurrency.decimal_places := 2 |}
  = "90,85"%string.
Proof. vm_compute. reflexivity. Qed.

Example vat_FI12345678 :
  AccountEdiFormat.vat_number_in_finnish_format (Some "FI12345678"%string)
  = Py.Ok "1234567-8"%string.
Proof. vm_compute. reflexivity. Qed.

Example vat_F :
  AccountEdiFormat.vat_number_in_finnish_format (Some "F"%string) = Py.Ok "-F"%string.
Proof. vm_compute. reflexivity. Qed.

Example vat_empty :
  AccountEdiFormat.vat_number_in_finnish_format (Some ""%string)
  = Py.Raise (Py.IndexError "string index out of range").
Proof. vm_compute. reflexivity. Qed.

(** The prefix of an Aland number: its first character, A with a ring, is
    the two bytes 195 and 133 of the UTF-8 text and counts for one. *)
Example vat_two_byte_character :
  AccountEdiFormat.vat_number_in_finnish_format
    (Some (String (ascii_of_N 195) (String (ascii_of_N 133) "L12345678")))
  = Py.Ok "1234567-8"%string.
Proof. vm_compute. reflexivity. Qed.

Example vat_unset :
  AccountEdiFormat.vat_number_in_finnish_format None
  = Py.Raise (Py.TypeError "'bool' object is not subscriptable").
Proof. reflexivity. Qed.

(** ** [vat_number_in_finnish_format] *)
Section VatNumber.
Import Py.
Local Open Scope string_scope.

Lemma clamp_2 (len : Z) : (3 <= len)%Z -> clamp len 2 = 2%Z.
Proof. intros H. unfold clamp. change (2 <? 0)%Z with false. cbv iota. lia. Qed.

Lemma clamp_m1 (len : Z) : (1 <= len)%Z -> clamp len (-1) = (len - 1)%Z.
Proof. intros H. unfold clamp. change (-1 <? 0)%Z with true. cbv iota. lia. Qed.

Lemma clamp_range (len i : Z) : (0 <= len)%Z -> (0 <= clamp len i <= len)%Z.
Proof. intros H. unfold clamp. destruct (i <? 0)%Z; lia. Qed.

Lemma substring_0_length (s : string) (n : nat) : substring n 0 s = "".
Proof. revert n; induction s as [|a s IH]; intros [|n]; simpl; auto. Qed.

Lemma nth_error_last {A : Type} (l : list A) (d : A) :
  l <> [] -> nth_error l (List.length l - 1) = Some (last l d).
Proof.
  induction l as [|a l IH]; intros H; [contradiction H; reflexivity|].
  destruct l as [|b l]; [reflexivity|].
  replace (List.length (a :: b :: l) - 1)%nat with (S (List.length (b :: l) - 1))
    by (cbn [List.length]; lia).
  change (nth_error (b :: l) (List.length (b :: l) - 1) = Some (last (b :: l) d)).
  apply IH. discriminate.
Qed.

(** From the fourth character on: the slice [2:-1] leaves out the last
    character and the index [-1] is the last character. *)
Lemma seq_slice_2_m1 {A : Type} (a b c : A) (rest : list A) :
  seq_slice 2 (-1) (a :: b :: c :: rest) = removelast (c :: rest).
Proof.
  unfold seq_slice.
  rewrite clamp_2, clamp_m1 by (cbn [List.length]; lia).
  change (Z.to_nat 2) with 2%nat. cbn [skipn].
  rewrite removelast_firstn_len. f_equal. cbn [List.length]. lia.
Qed.

Lemma str_index_last (s : string) (a : string) (l : list string) :
  chars s = a :: l -> str_index (-1) s = Ok (last (a :: l) "").
Proof.
  intros E. unfold str_index. rewrite E. cbv zeta.
  change (-1 <? 0)%Z with true. cbv iota.
  replace ((0 <=? -1 + Z.of_nat (List.length (a :: l)))%Z
           && (-1 + Z.of_nat (List.length (a :: l)) <? Z.of_nat (List.length (a :: l)))%Z)
    with true
    by (symmetry; apply andb_true_iff; split;
        [apply Z.leb_le | apply Z.ltb_lt]; cbn [List.length]; lia).
  replace (Z.to_nat (-1 + Z.of_nat (List.length (a :: l))))
    with (List.length (a :: l) - 1)%nat by (cbn [List.length]; lia).
  rewrite (@nth_error_last _ (a :: l) ""); [reflexivity|discriminate].
Qed.

Lemma concat_empty_cons (c : string) (cs : list string) :
  String.concat "" (c :: cs) = c ++ String.concat "" cs.
Proof.
  destruct cs as [|d cs]; cbn [String.concat]; [|reflexivity].
  induction c as [|x c IH]; [reflexivity|]. cbn [append]. rewrite <- IH. reflexivity.
Qed.

(** The characters of a text, put together again, are the text. *)
Lemma chars_concat (s : string) : String.concat "" (chars s) = s.
Proof.
  unfold chars.
  assert (let (k, cs) := split_chars s in k ++ String.concat "" cs = s) as H.
  { induction s as [|c s IH]; [reflexivity|].
    cbn [split_chars]. destruct (split_chars s) as [k cs].
    destruct (is_continuation c).
    - cbn [append]. rewrite IH. reflexivity.
    - cbn [append]. rewrite concat_empty_cons. cbn [append]. rewrite IH. reflexivity. }
  destruct (split_chars s) as [k cs]. destruct k as [|x k].
  - exact H.
  - rewrite concat_empty_cons. exact H.
Qed.

(** In a text of ASCII bytes every byte is a character. *)
Lemma chars_ascii (s : string) :
  forallb (fun c => (N_of_ascii c <? 128)%N) (list_ascii_of_string s) = true ->
  chars s = map (fun c => String c "") (list_ascii_of_string s).
Proof.
  unfold chars.
  assert (forallb (fun c => (N_of_ascii c <? 128)%N) (list_ascii_of_string s) = true ->
          split_chars s = ("", map (fun c => String c "") (list_ascii_of_string s))) as H.
  { induction s as [|c s IH]; [reflexivity|].
    cbn [list_ascii_of_string forallb map split_chars]. intros H.
    apply andb_true_iff in H. destruct H as [Hc Hs]. rewrite (IH Hs).
    unfold is_continuation. cbv zeta.
    apply N.ltb_lt in Hc.
    replace (128 <=? N_of_ascii c)%N with false
      by (symmetry; apply N.leb_gt; exact Hc).
    reflexivity. }
  intros Ha. rewrite (H Ha). reflexivity.
Qed.

(** C8: on a text of three characters or more the result is the text
    without its first two characters and its last one, a hyphen, and the
    last character.  On the shorter inputs, which the specification leaves
    undefined, the code fails on the empty text only ([IndexError]) and
    gives a hyphen and the last character otherwise; a VAT number that is
    not set raises [TypeError].  Characters are code points, and on ASCII
    text they are the bytes. *)
Theorem vat_number_in_finnish_format_cases (vat_number : string) :
  AccountEdiFormat.vat_number_in_finnish_format (Some vat_number)
  = match chars vat_number with
    | [] => Raise (IndexError "string index out of range")
    | [a] => Ok ("-" ++ a)
    | [_; b] => Ok ("-" ++ b)
    | _ :: _ :: rest =>
        Ok (String.concat "" (removelast rest) ++ "-" ++ last rest "")
    end
  /\ String.concat "" (chars vat_number) = vat_number
  /\ (forallb (fun c => (N_of_ascii c <? 128)%N) (list_ascii_of_string vat_number) = true ->
      chars vat_number = map (fun c => String c "") (list_ascii_of_string vat_number))
  /\ AccountEdiFormat.vat_number_in_finnish_format None
     = Raise (TypeError "'bool' object is not subscriptable").
Proof.
  split; [|split; [apply chars_concat|split; [apply chars_ascii|reflexivity]]].
  unfold AccountEdiFormat.vat_number_in_finnish_format, str_slice.
  destruct (chars vat_number) as [|a [|b [|c rest]]] eqn:E.
  - unfold str_index. rewrite E. reflexivity.
  - rewrite (str_index_last vat_number E). reflexivity.
  - rewrite (str_index_last vat_number E). reflexivity.
  - rewrite (str_index_last vat_number E).
    rewrite seq_slice_2_m1. reflexivity.
Qed.
End VatNumber.

(** ** Export: the mandatory fields are checked first, in order *)
Section Validation.
Import Py.
Context {F : Type} {PF : PyFloat F}.
Variable env : Env.t F.

Lemma export_stops_at_validation (invoice : AccountMove.t F) (e : exn) (w : World.t F) :
  AccountEdiFormat._validate_required_fields invoice = Raise e ->
  AccountEdiFormat._export_finvoice env invoice w = (Raise e, w).
Proof.
  intros H. unfold AccountEdiFormat._export_finvoice, bindM, lift.
  rewrite H. reflexivity.
Qed.

Lemma shipping_lacks_missing (invoice : AccountMove.t F) (f : ResPartner.t -> value) :
  AccountEdiFormat.shipping_lacks f invoice
  = match Mandatory.shipping_contact invoice with
    | Some p => Mandatory.empty (f p)
    | None => false
    end.
Proof.
  unfold AccountEdiFormat.shipping_lacks, Mandatory.shipping_contact.
  destruct (AccountMove.partner_shipping_id invoice) as [|[p|]]; reflexivity.
Qed.

Lemma no_bank_account (l : list Z) :
  match l with [] => true | _ :: _ => false end = (List.length l =? 0)%nat.
Proof. destruct l; reflexivity. Qed.

(** The code's chain of checks is the search for the first missing field. *)
Lemma validate_first_missing (invoice : AccountMove.t F) :
  AccountEdiFormat._validate_required_fields invoice
  = match Mandatory.first_missing invoice with
    | Some f => Raise (FinvoiceGenerationException (Mandatory.message f))
    | None => Ok tt
    end.
Proof.
  unfold AccountEdiFormat._validate_required_fields, Mandatory.first_missing,
    Mandatory.check_order, AccountEdiFormat.fail_if.
  rewrite !shipping_lacks_missing, no_bank_account.
  cbn [find Mandatory.missing]. unfold Mandatory.empty, Mandatory.sender.
  repeat match goal with
         | |- context [bind (if ?b then _ else _) _] => destruct b; cbn [bind Mandatory.message]; try reflexivity
         end.
  match goal with |- context [if ?b then _ else _] => destruct b; reflexivity end.
Qed.

Lemma find_first {A : Type} (p : A -> bool) (l : list A) (x : A) :
  find p l = Some x ->
  exists before after,
    l = (before ++ x :: after)%list /\ p x = true /\ forall y, In y before -> p y = false.
Proof.
  induction l as [|a l IH]; simpl; [discriminate|].
  destruct (p a) eqn:Ha; intros H.
  - inversion H; subst. exists [], l. repeat split; auto. intros y [].
  - destruct (IH H) as (before & after & -> & Hx & Hb).
    exists (a :: before), after. repeat split; auto.
    intros y [<-|Hy]; auto.
Qed.

Lemma check_order_complete (f : Mandatory.field_name) : In f Mandatory.check_order.
Proof. destruct f; simpl; tauto. Qed.

(** C1: an invoice with a mandatory field missing is not exported: the
    export raises the exception whose message names the first missing
    field in the order of the checks (every field checked before it is
    present), and the world is left as it was, so that no request has been
    sent. *)
Theorem export_fails_on_first_missing_field (invoice : AccountMove.t F) (w : World.t F) :
  (exists f, Mandatory.missing invoice f = true) ->
  exists f before after,
    Mandatory.check_order = (before ++ f :: after)%list
    /\ Mandatory.missing invoice f = true
    /\ (forall g, In g before -> Mandatory.missing invoice g = false)
    /\ AccountEdiFormat._export_finvoice env invoice w
       = (Raise (FinvoiceGenerationException (Mandatory.message f)), w).
Proof.
  intros [f0 Hf0].
  destruct (Mandatory.first_missing invoice) as [f|] eqn:E.
  - destruct (find_first _ _ E) as (before & after & Hsplit & Hf & Hbefore).
    exists f, before, after. repeat split; auto.
    apply export_stops_at_validation.
    rewrite validate_first_missing, E. reflexivity.
  - unfold Mandatory.first_missing in E.
    pose proof (find_none _ _ E f0 (check_order_complete f0)) as H.
    congruence.
Qed.

(** With no field missing the checks pass. *)
Lemma validate_passes (invoice : AccountMove.t F) :
  (forall f, Mandatory.missing invoice f = false) ->
  AccountEdiFormat._validate_required_fields invoice = Ok tt.
Proof.
  intros H. rewrite validate_first_missing.
  destruct (Mandatory.first_missing invoice) as [f|] eqn:E; [|reflexivity].
  apply find_some in E. destruct E as [_ E]. rewrite H in E. discriminate.
Qed.
End Validation.

Lemma message_injective (f g : Mandatory.field_name) :
  Mandatory.message f = Mandatory.message g -> f = g.
Proof. destruct f, g; intros H; try reflexivity; discriminate H. Qed.

Example export_incomplete_invoice :
  AccountEdiFormat._export_finvoice Sample.env Sample.incomplete_invoice Sample.world
  = (Py.Raise (Py.FinvoiceGenerationException
                 "Organisation unit number (OVT) missing from recipient."),
     Sample.world).
Proof. vm_compute. reflexivity. Qed.

Lemma export_fails_on_first_missing_field_witness :
  exists f before after,
    Mandatory.check_order = (before ++ f :: after)%list
    /\ Mandatory.missing Sample.incomplete_invoice f = true
    /\ (forall g, In g before -> Mandatory.missing Sample.incomplete_invoice g = false)
    /\ AccountEdiFormat._export_finvoice Sample.env Sample.incomplete_invoice Sample.world
       = (Py.Raise (Py.FinvoiceGenerationException (Mandatory.message f)), Sample.world).
Proof.
  apply (export_fails_on_first_missing_field Sample.env Sample.incomplete_invoice Sample.world).
  exists Mandatory.RecipientEInvoiceAddress. reflexivity.
Defined.

(** ** Import: the company check and the currency *)
Section ImportChecks.
Import Py.
Context {F : Type} {PF : PyFloat F}.
Variable env : Env.t F.

Lemma no_user_error_bind {A B : Type} (r : result A) (k : A -> result B) :
  no_user_error r -> (forall a, no_user_error (k a)) -> no_user_error (bind r k).
Proof. destruct r as [a|e]; simpl; auto. Qed.

Lemma no_user_error_fold {A B : Type} (step : result B -> A -> result B) (l : list A) :
  (forall acc a, no_user_error acc -> no_user_error (step acc a)) ->
  forall acc, no_user_error acc -> no_user_error (fold_left step l acc).
Proof. intros Hs. induction l as [|a l IH]; simpl; auto. Qed.

Lemma no_user_error_join (sep : string) (items : list value) :
  no_user_error (join sep items).
Proof.
  induction items as [|[s|] items IH]; simpl; auto.
  destruct items; simpl; auto.
  apply no_user_error_bind; [exact IH | simpl; auto].
Qed.

Lemma no_user_error_parse_float (text : value) :
  no_user_error (AccountEdiFormat.parse_float text).
Proof.
  unfold AccountEdiFormat.parse_float.
  destruct text as [s|]; simpl; auto. destruct (f_parse _); simpl; auto.
Qed.

Ltac no_user_error :=
  repeat first
    [ apply no_user_error_parse_float
    | apply no_user_error_join
    | apply no_user_error_bind; [|intros ?]
    | apply no_user_error_fold; [intros ? ? ?|]
    | assumption
    | exact I
    | progress simpl
    | match goal with
      | |- no_user_error (match ?x with _ => _ end) => destruct x
      | |- no_user_error (if ?x then _ else _) => destruct x
      end ].

Lemma no_user_error_total_amount (tree : Xml.node) :
  no_user_error (AccountEdiFormat.total_amount tree).
Proof. unfold AccountEdiFormat.total_amount. no_user_error. Qed.

Lemma no_user_error_narration (tree : Xml.node) :
  no_user_error (AccountEdiFormat.narration tree).
Proof.
  unfold AccountEdiFormat.narration, AccountEdiFormat.concat_str. no_user_error.
Qed.

Lemma no_user_error_import_currency (tree : Xml.node) :
  no_user_error (AccountEdiFormat.import_currency env tree).
Proof. unfold AccountEdiFormat.import_currency. no_user_error. Qed.

Lemma no_user_error_import_date (t : string) (tree : Xml.node) :
  no_user_error (AccountEdiFormat.import_date env t tree).
Proof. unfold AccountEdiFormat.import_date. no_user_error. Qed.

Lemma no_user_error_import_lines (tree : Xml.node) :
  no_user_error (AccountEdiFormat.import_lines env tree).
Proof.
  unfold AccountEdiFormat.import_lines, AccountEdiFormat.import_line,
    AccountEdiFormat.optional_float.
  no_user_error.
Qed.

Lemma no_user_error_after_check (tree : Xml.node) :
  AccountEdiFormat.check_company env (AccountEdiFormat.import_company env tree) = Ok tt ->
  no_user_error (AccountEdiFormat.import_form env tree).
Proof.
  intros H. unfold AccountEdiFormat.import_form. rewrite H. cbn [bind].
  apply no_user_error_bind; [apply no_user_error_total_amount | intros total].
  apply no_user_error_bind; [apply no_user_error_narration | intros n].
  apply no_user_error_bind; [apply no_user_error_import_currency | intros c].
  apply no_user_error_bind; [apply no_user_error_import_date | intros d].
  apply no_user_error_bind; [apply no_user_error_import_date | intros d'].
  apply no_user_error_bind; [apply no_user_error_import_lines | intros ls].
  exact I.
Qed.

Lemma import_after_failed_check (tree : Xml.node) (e : exn) :
  AccountEdiFormat.check_company env (AccountEdiFormat.import_company env tree) = Raise e ->
  AccountEdiFormat.import_form env tree = Raise e.
Proof. intros H. unfold AccountEdiFormat.import_form. rewrite H. reflexivity. Qed.

(** What [_import_finvoice] returns is what filling in the form returns;
    an import that raises leaves the world as it was. *)
Lemma import_finvoice_result (tree : Xml.node) (w : World.t F) :
  AccountEdiFormat._import_finvoice env tree w
  = match AccountEdiFormat.import_form env tree with
    | Ok form => Orm.save form w
    | Raise e => (Raise e, w)
    end.
Proof.
  unfold AccountEdiFormat._import_finvoice, bindM, lift.
  destruct (AccountEdiFormat.import_form env tree); reflexivity.
Qed.

Lemma check_company_cases (company : ResCompany.t) :
  AccountEdiFormat.check_company env company
  = if negb (Env.is_superuser env)
       && negb (ResCompany.id (Env.company env) =? ResCompany.id company)%Z
    then Raise (AccountEdiFormat.company_error env)
    else Ok tt.
Proof.
  unfold AccountEdiFormat.check_company, ResCompany.eqb.
  destruct (Env.is_superuser env); simpl; [reflexivity|].
  destruct (ResCompany.id (Env.company env) =? ResCompany.id company)%Z; reflexivity.
Qed.

Lemma import_passes_check (tree : Xml.node) (w : World.t F) :
  AccountEdiFormat.check_company env (AccountEdiFormat.import_company env tree) = Ok tt ->
  forall msg, fst (AccountEdiFormat._import_finvoice env tree w) <> Raise (UserError msg).
Proof.
  intros H msg. rewrite import_finvoice_result.
  pose proof (no_user_error_after_check _ H) as Hn.
  destruct (AccountEdiFormat.import_form env tree) as [form|e]; simpl.
  - discriminate.
  - intros E. inversion E; subst. exact Hn.
Qed.

Lemma import_fails_check (tree : Xml.node) (w : World.t F) (e : exn) :
  AccountEdiFormat.check_company env (AccountEdiFormat.import_company env tree) = Raise e ->
  fst (AccountEdiFormat._import_finvoice env tree w) = Raise e.
Proof.
  intros H. rewrite import_finvoice_result, (import_after_failed_check _ H). reflexivity.
Qed.

(** C10: the import raises the error of the company check exactly when
    the caller is not the superuser and the company the import goes to
    (the one the document resolves to, else the caller's) is not the
    caller's company; no other step raises a [UserError], so a superuser's
    import never stops at the check, whatever the company. *)
Theorem import_company_check (tree : Xml.node) (w : World.t F) :
  let r := fst (AccountEdiFormat._import_finvoice env tree w) in
  let foreign :=
    ResCompany.id (Env.company env)
    <> ResCompany.id (AccountEdiFormat.import_company env tree) in
  (r = Raise (AccountEdiFormat.company_error env)
   <-> Env.is_superuser env = false /\ foreign)
  /\ ((exists msg, r = Raise (UserError msg))
      <-> Env.is_superuser env = false /\ foreign)
  /\ (Env.is_superuser env = true ->
      AccountEdiFormat.check_company env (AccountEdiFormat.import_company env tree) = Ok tt
      /\ forall msg, r <> Raise (UserError msg)).
Proof.
  cbv zeta.
  pose proof (import_passes_check tree w) as Hpass.
  pose proof (import_fails_check tree w) as Hfail.
  rewrite check_company_cases in Hpass, Hfail |- *.
  destruct (Env.is_superuser env) eqn:Hs; cbn [negb andb] in *.
  - specialize (Hpass eq_refl). clear Hfail.
    split; [|split].
    + split; [intros H; exfalso; exact (Hpass _ H) | intros [H _]; discriminate H].
    + split; [intros [msg H]; exfalso; exact (Hpass _ H) | intros [H _]; discriminate H].
    + intros _. split; [reflexivity | exact Hpass].
  - destruct (Z.eqb_spec (ResCompany.id (Env.company env))
                (ResCompany.id (AccountEdiFormat.import_company env tree))) as [E|E];
      cbn [negb] in *.
    + specialize (Hpass eq_refl). clear Hfail.
      split; [|split].
      * split; [intros H; exfalso; exact (Hpass _ H) | intros [_ H]; contradiction].
      * split; [intros [msg H]; exfalso; exact (Hpass _ H) | intros [_ H]; contradiction].
      * intros H; discriminate H.
    + specialize (Hfail _ eq_refl). clear Hpass.
      split; [|split].
      * split; [intros _; split; [reflexivity | exact E] | intros _; exact Hfail].
      * split; [intros _; split; [reflexivity | exact E] |].
        intros _. eexists. exact Hfail.
      * intros H; discriminate H.
Qed.
End ImportChecks.

Section Currency.
Import Py.
Local Open Scope string_scope.
Context {F : Type}.
Variable env : Env.t F.

(** The currency is set exactly when the first total carries a non-empty
    identifier that names a known, active currency other than the
    company's. *)
Lemma import_currency_set (tree : Xml.node) (currency : ResCurrency.t) :
  AccountEdiFormat.import_currency env tree = Ok (Some currency)
  <-> exists e rest identifier,
        Xml.anywhere "InvoiceTotalVatIncludedAmount" tree = e :: rest
        /\ Xml.get "AmountCurrencyIdentifier" e = Some identifier
        /\ identifier <> ""
        /\ Env.ref env ("base." ++ upper identifier) = Some currency
        /\ ResCurrency.id currency <> ResCurrency.id (ResCompany.currency_id (Env.company env))
        /\ ResCurrency.active currency = true.
Proof.
  unfold AccountEdiFormat.import_currency, ResCurrency.eqb, truthy.
  split.
  - destruct (Xml.anywhere _ tree) as [|e rest] eqn:Hw; [discriminate|].
    destruct (Xml.get _ e) as [identifier|] eqn:Hg; [|discriminate].
    destruct (String.eqb_spec identifier "") as [->|Hne]; [discriminate|].
    cbn [negb fmt].
    destruct (Env.ref env _) as [c|] eqn:Hr; [|discriminate].
    destruct (Z.eqb_spec (ResCurrency.id c)
                (ResCurrency.id (ResCompany.currency_id (Env.company env)))) as [E|E];
      [discriminate|].
    destruct (ResCurrency.active c) eqn:Ha; [|discriminate].
    intros H. inversion H; subst.
    exists e, rest, identifier. repeat split; auto.
  - intros (e & rest & identifier & -> & -> & Hne & Hr & Hid & Ha).
    destruct (String.eqb_spec identifier "") as [->|_]; [contradiction|].
    cbn [negb fmt]. rewrite Hr.
    destruct (Z.eqb_spec (ResCurrency.id currency)
                (ResCurrency.id (ResCompany.currency_id (Env.company env)))) as [E|E];
      [contradiction|].
    rewrite Ha. reflexivity.
Qed.

(** The currency is left alone when there is no total, when the total has
    no identifier or an empty one, and when the identifier names the
    company's currency or an inactive one. *)
Lemma import_currency_kept (tree : Xml.node) :
  (Xml.anywhere "InvoiceTotalVatIncludedAmount" tree = []
   \/ exists e rest,
        Xml.anywhere "InvoiceTotalVatIncludedAmount" tree = e :: rest
        /\ (truthy (Xml.get "AmountCurrencyIdentifier" e) = false
            \/ exists currency,
                 Env.ref env ("base." ++ upper (fmt (Xml.get "AmountCurrencyIdentifier" e)))
                 = Some currency
                 /\ (ResCurrency.id currency
                     = ResCurrency.id (ResCompany.currency_id (Env.company env))
                     \/ ResCurrency.active currency = false))) ->
  AccountEdiFormat.import_currency env tree = Ok None.
Proof.
  unfold AccountEdiFormat.import_currency, ResCurrency.eqb.
  intros [-> | (e & rest & -> & [-> | (c & Hr & Hc)])]; try reflexivity.
  destruct (truthy _); [|reflexivity].
  rewrite Hr.
  destruct Hc as [-> | ->]; [rewrite Z.eqb_refl; reflexivity|].
  rewrite andb_false_r. reflexivity.
Qed.

(** An identifier that names no currency makes the import of the currency
    raise: [None] has no attribute [active]. *)
Lemma import_currency_unknown (tree e : Xml.node) (rest : list Xml.node) :
  Xml.anywhere "InvoiceTotalVatIncludedAmount" tree = e :: rest ->
  truthy (Xml.get "AmountCurrencyIdentifier" e) = true ->
  Env.ref env ("base." ++ upper (fmt (Xml.get "AmountCurrencyIdentifier" e))) = None ->
  AccountEdiFormat.import_currency env tree
  = Raise (AttributeError "'NoneType' object has no attribute 'active'").
Proof.
  intros Ha Ht Hr. unfold AccountEdiFormat.import_currency.
  rewrite Ha, Ht, Hr. reflexivity.
Qed.
End Currency.

(** C6, where the code departs from it: an invoice whose total names the
    currency [XXX], which does not exist, is not imported with the default
    currency; the import raises [AttributeError] and creates nothing. *)
Theorem import_unknown_currency_raises :
  let tree := Sample.finvoice "003712345678" (Some "XXX"%string) in
  Env.ref Sample.env "base.XXX" = None
  /\ AccountEdiFormat.import_currency Sample.env tree
     = Py.Raise (Py.AttributeError "'NoneType' object has no attribute 'active'")
  /\ AccountEdiFormat._import_finvoice Sample.env tree Sample.world
     = (Py.Raise (Py.AttributeError "'NoneType' object has no attribute 'active'"),
        Sample.world).
Proof. vm_compute. repeat split; reflexivity. Qed.

Example import_other_currency :
  option_map (fun r => Form.currency_id (snd r))
    (match fst (AccountEdiFormat._import_finvoice Sample.env
                  (Sample.finvoice "003712345678" (Some "usd"%string)) Sample.world) with
     | Py.Ok r => Some r
     | Py.Raise _ => None
     end)
  = Some (Some Sample.usd).
Proof. vm_compute. reflexivity. Qed.

Example import_inactive_currency :
  option_map (fun r => Form.currency_id (snd r))
    (match fst (AccountEdiFormat._import_finvoice Sample.env
                  (Sample.finvoice "003712345678" (Some "SEK"%string)) Sample.world) with
     | Py.Ok r => Some r
     | Py.Raise _ => None
     end)
  = Some None.
Proof. vm_compute. reflexivity. Qed.

Example import_to_other_company_refused :
  AccountEdiFormat._import_finvoice Sample.env
    (Sample.finvoice "003722222222" None) Sample.world
  = (Py.Raise (Py.UserError "You can only import invoices to your company: Sender Oy"),
     Sample.world).
Proof. vm_compute. reflexivity. Qed.

Example import_to_other_company_as_superuser :
  option_map (fun r => Form.context_company_id (snd r))
    (match fst (AccountEdiFormat._import_finvoice (Sample.env_with true Sample.ok_text)
                  (Sample.finvoice "003722222222" None) Sample.world) with
     | Py.Ok r => Some r
     | Py.Raise _ => None
     end)
  = Some (Some 2%Z).
Proof. vm_compute. reflexivity. Qed.

(** ** The digest of a request *)
Section Digest.
Import Py.
Local Open Scope string_scope.

Lemma join_strings (sep : string) (items : list string) :
  join sep (map Some items) = Ok (String.concat sep items).
Proof.
  induction items as [|s items IH]; [reflexivity|].
  destruct items as [|s' items]; [reflexivity|].
  change (join sep (map Some (s :: s' :: items)))
    with (bind (join sep (map Some (s' :: items))) (fun r => Ok (s ++ sep ++ r))).
  rewrite IH. reflexivity.
Qed.

Lemma calculate_digest_strings (params : sdict string) (key : string) :
  AhkioApix._calculate_digest (str_params params) (Some key)
  = Ok ("SHA-256:"
        ++ Sha256.hexdigest (Sha256.encode (signed_text (dict_values params) key))).
Proof.
  unfold AhkioApix._calculate_digest, signed_text, str_params, dict_values.
  rewrite map_map. cbn [snd].
  change [Some key] with (map (@Some string) [key]).
  rewrite <- (map_map snd (@Some string)), <- map_app, join_strings.
  reflexivity.
Qed.
End Digest.

(** ** The list of the files that wait at Apix *)
Section List.
Import Py.
Local Open Scope string_scope.
Context {F : Type}.
Variable env : Env.t F.

Lemma map_result_length {A B : Type} (f : A -> result B) (l : list A) (r : list B) :
  AhkioApix.map_result f l = Ok r -> List.length r = List.length l.
Proof.
  revert r; induction l as [|a l IH]; simpl; intros r H.
  - inversion H; reflexivity.
  - destruct (f a); [|discriminate]. simpl in H.
    destruct (AhkioApix.map_result f l) as [ys|]; [|discriminate].
    simpl in H. inversion H; subst. simpl. f_equal. apply IH. reflexivity.
Qed.

(** What [list_invoice_zips] does with the answer to its one request. *)
Lemma list_invoice_zips_steps (company : ResCompany.t) (w : World.t F)
    (transfer_id key : string) :
  ResCompany.ahkio_apix_transfer_id company = Some transfer_id ->
  ResCompany.ahkio_apix_transfer_key company = Some key ->
  AhkioApix.list_invoice_zips env company w
  = (let response := Env.send env (list_request env transfer_id key) in
     tree <~ Env.etree_fromstring env (Http.text response) ;;
     status <~ first (Xml.absolute ["Response"; "Status"] tree) ;;
     if match Xml.text status with Some "OK" => false | _ => true end
     then Raise (TypeError "exceptions must derive from BaseException")
     else AhkioApix.map_result AhkioApix.extract_content_from_group
            (Xml.absolute ["Response"; "Content"; "Group"] tree),
     sent_one w (list_request env transfer_id key))%py.
Proof.
  intros Hid Hkey. unfold AhkioApix.list_invoice_zips. rewrite Hid, Hkey.
  change [("TraID", Some transfer_id); ("t", Some (Env.now_stamp env))]
    with (map (fun kv : string * string => (fst kv, Some (snd kv)))
              [("TraID", transfer_id); ("t", Env.now_stamp env)]).
  unfold bindM at 1. unfold lift at 1. rewrite calculate_digest_strings.
  cbn [map fst snd dict_values sset dict_set String.eqb Ascii.eqb Bool.eqb].
  unfold bindM, lift, Orm.request, raise. fold (list_request env transfer_id key).
  fold (sent_one w (list_request env transfer_id key)).
  destruct (Env.etree_fromstring env _) as [tree|e]; [|reflexivity].
  cbn [bind].
  destruct (first (Xml.absolute ["Response"; "Status"] tree)) as [status|e]; [|reflexivity].
  cbn [bind].
  destruct (match Xml.text status with Some "OK" => false | _ => true end); reflexivity.
Qed.
End List.

Section ListAnswers.
Import Py.
Local Open Scope string_scope.
Context {F : Type}.
Variable env : Env.t F.

(** An answer whose status is not [OK] makes [list_invoice_zips] raise,
    but what it raises is the [TypeError] of raising a [str]: the same
    exception whatever the body of the answer. *)
Lemma list_not_ok_raises (company : ResCompany.t) (w : World.t F)
    (transfer_id key : string) (tree status : Xml.node) :
  ResCompany.ahkio_apix_transfer_id company = Some transfer_id ->
  ResCompany.ahkio_apix_transfer_key company = Some key ->
  Env.etree_fromstring env (Http.text (Env.send env (list_request env transfer_id key)))
  = Ok tree ->
  first (Xml.absolute ["Response"; "Status"] tree) = Ok status ->
  Xml.text status <> Some "OK" ->
  fst (AhkioApix.list_invoice_zips env company w)
  = Raise (TypeError "exceptions must derive from BaseException").
Proof.
  intros Hid Hkey Ht Hs Hne.
  rewrite (list_invoice_zips_steps env company w Hid Hkey).
  cbv zeta. cbn [fst]. rewrite Ht. cbn [bind]. rewrite Hs. cbn [bind].
  destruct (Xml.text status) as [t|]; [|reflexivity].
  destruct (String.eqb_spec t "OK") as [->|Hn]; [contradiction Hne; reflexivity|].
  assert (match t with "OK" => false | _ => true end = true) as ->; [|reflexivity].
  clear -Hn. 
  destruct t as [|a [|b [|c t]]]; try reflexivity;
    destruct a as [[] [] [] [] [] [] [] []]; try reflexivity;
    destruct b as [[] [] [] [] [] [] [] []]; try reflexivity.
  contradiction Hn; reflexivity.
Qed.

(** With the status [OK] the result is the extraction of each [Group] in
    turn: one descriptor per group when every extraction succeeds. *)
Lemma list_ok_returns (company : ResCompany.t) (w : World.t F)
    (transfer_id key : string) (tree status : Xml.node) :
  ResCompany.ahkio_apix_transfer_id company = Some transfer_id ->
  ResCompany.ahkio_apix_transfer_key company = Some key ->
  Env.etree_fromstring env (Http.text (Env.send env (list_request env transfer_id key)))
  = Ok tree ->
  first (Xml.absolute ["Response"; "Status"] tree) = Ok status ->
  Xml.text status = Some "OK" ->
  fst (AhkioApix.list_invoice_zips env company w)
  = AhkioApix.map_result AhkioApix.extract_content_from_group
      (Xml.absolute ["Response"; "Content"; "Group"] tree)
  /\ forall files,
       fst (AhkioApix.list_invoice_zips env company w) = Ok files ->
       List.length files
       = List.length (Xml.absolute ["Response"; "Content"; "Group"] tree).
Proof.
  intros Hid Hkey Ht Hs Hok.
  rewrite (list_invoice_zips_steps env company w Hid Hkey).
  cbv zeta. cbn [fst]. rewrite Ht. cbn [bind]. rewrite Hs. cbn [bind]. rewrite Hok.
  split; [reflexivity|]. intros files H. eapply map_result_length; eassumption.
Qed.
End ListAnswers.

(** C4, where the code departs from it: Apix answers with the status [ERR];
    [list_invoice_zips] raises, but the exception is the [TypeError] of
    raising a [str], and the body of the answer is not in it. *)
Theorem list_failure_drops_the_body :
  Env.send (Sample.env_with false Sample.fail_text)
    (list_request (Sample.env_with false Sample.fail_text) "TRA1" "secret")
  = {| Http.status_code := 200; Http.text := Sample.fail_text;
       Http.content := Sample.fail_text |}
  /\ fst (AhkioApix.list_invoice_zips (Sample.env_with false Sample.fail_text)
            Sample.sender Sample.world)
     = Py.Raise (Py.TypeError "exceptions must derive from BaseException").
Proof. split; vm_compute; reflexivity. Qed.

Example list_two_files :
  fst (AhkioApix.list_invoice_zips (Sample.env_with false Sample.list_text)
         Sample.sender Sample.world)
  = Py.Ok [Sample.file "S1" "UNRECEIVED"; Sample.file "S2" "NEW"].
Proof. vm_compute. reflexivity. Qed.

Example list_value_without_text :
  fst (AhkioApix.list_invoice_zips (Sample.env_with false Sample.hollow_text)
         Sample.sender Sample.world)
  = Py.Raise (Py.IndexError "list index out of range").
Proof. vm_compute. reflexivity. Qed.

(** ** Download: what is skipped *)
Section Download.
Import Py.
Local Open Scope string_scope.
Context {F : Type} {PF : PyFloat F}.
Variable env : Env.t F.

Lemma find_in {A : Type} (p : A -> bool) (l : list A) (a : A) :
  In a l -> p a = true -> exists b, find p l = Some b.
Proof.
  intros Hin Hp. destruct (find p l) as [b|] eqn:E; [eauto|].
  rewrite (find_none _ _ E a Hin) in Hp. discriminate.
Qed.

(** C5, as amended: a file whose status is [NEW], or differs from a
    non-empty status filter, or whose zip is already stored (an attachment
    of the model [account.move] with the name derived from the StorageID),
    is skipped: [download] returns the empty recordset and leaves the world
    as it was, so that no request is sent and no record created. *)
Theorem download_skips (file : sdict string) (storage_status : value)
    (w : World.t F) (status : string) :
  sget "StorageStatus" file = Some status ->
  status = "NEW"
  \/ (truthy storage_status = true /\ storage_status <> Some status)
  \/ (exists storage_id a,
        sget "StorageID" file = Some storage_id
        /\ In a (World.attachments w)
        /\ IrAttachment.name a = stored_name storage_id
        /\ IrAttachment.res_model a = Some "account.move") ->
  AhkioApix.download env file storage_status w = (Ok None, w).
Proof.
  intros Hs H. unfold AhkioApix.download, item.
  unfold bindM at 1. unfold lift at 1. rewrite Hs.
  destruct (String.eqb_spec status "NEW") as [E|E]; [reflexivity|].
  destruct H as [H | [[Ht Hd] | (storage_id & a & Hid & Hin & Hn & Hm)]];
    [contradiction | |].
  - rewrite Ht. destruct storage_status as [s|]; [|discriminate Ht].
    cbn [fmt andb].
    destruct (String.eqb_spec status s) as [->|_]; [contradiction Hd; reflexivity|].
    reflexivity.
  - destruct (truthy storage_status && negb (status =? fmt storage_status));
      [reflexivity|].
    unfold bindM at 1. unfold lift at 1. rewrite Hid.
    unfold bindM at 1. unfold Orm.search_attachment.
    fold (stored_name storage_id).
    match goal with
    | |- context [find ?p (World.attachments w)] =>
        destruct (find_in p (World.attachments w) a Hin) as [b ->]
    end; [|reflexivity].
    rewrite Hn, Hm, !String.eqb_refl. reflexivity.
Qed.

(** With no status filter, or an empty one, the status is not filtered. *)
Lemma download_unfiltered (file : sdict string) (storage_status : value)
    (w : World.t F) :
  truthy storage_status = false ->
  AhkioApix.download env file storage_status w
  = AhkioApix.download env file None w.
Proof.
  intros H. unfold AhkioApix.download. rewrite H. reflexivity.
Qed.
End Download.

Lemma download_skips_witness :
  AhkioApix.download (Sample.env_with true Sample.package)
    (Sample.file "S1" "UNRECEIVED") (Some "UNRECEIVED"%string)
    (Sample.world_with [Sample.stored "account.move"])
  = (Py.Ok None, Sample.world_with [Sample.stored "account.move"]).
Proof.
  apply (@download_skips _ _ (Sample.env_with true Sample.package)
           (Sample.file "S1" "UNRECEIVED") (Some "UNRECEIVED"%string)
           (Sample.world_with [Sample.stored "account.move"]) "UNRECEIVED"%string).
  - reflexivity.
  - right; right. exists "S1"%string, (Sample.stored "account.move").
    repeat split. left; reflexivity.
Defined.

(** C5 as stated fails twice.  An attachment with the name derived from the
    StorageID exists, but on a partner: the file is downloaded, one request
    is sent and records are created.  And with the empty status filter a
    file whose status differs from it is downloaded as well. *)
Lemma download_not_skipped :
  (let w := Sample.world_with [Sample.stored "res.partner"] in
   let r := AhkioApix.download (Sample.env_with true Sample.package)
              (Sample.file "S1" "UNRECEIVED") (Some "UNRECEIVED"%string) w in
   In (Sample.stored "res.partner") (World.attachments w)
   /\ IrAttachment.name (Sample.stored "res.partner") = stored_name "S1"
   /\ List.length (World.sent (snd r)) = 1%nat
   /\ List.length (World.attachments (snd r)) = 3%nat
   /\ fst r <> Py.Ok None)
  /\ (let r := AhkioApix.download (Sample.env_with true Sample.package)
                 (Sample.file "S1" "RECEIVED") (Some ""%string) Sample.world in
      "RECEIVED"%string <> ""%string
      /\ List.length (World.sent (snd r)) = 1%nat
      /\ List.length (World.attachments (snd r)) = 2%nat
      /\ fst r <> Py.Ok None).
Proof.
  split; cbv zeta.
  - split; [left; reflexivity|]. split; [reflexivity|].
    split; [vm_compute; reflexivity|]. split; [vm_compute; reflexivity|].
    vm_compute. discriminate.
  - split; [discriminate|].
    split; [vm_compute; reflexivity|]. split; [vm_compute; reflexivity|].
    vm_compute. discriminate.
Qed.

(** ** The secret and the parameters of a request *)
Section Secret.
Import Py.
Local Open Scope string_scope.
Context {F : Type} {PF : PyFloat F}.
Variable env : Env.t F.



Lemma validated_credentials (invoice : AccountMove.t F) :
  AccountEdiFormat._validate_required_fields invoice = Ok tt ->
  exists transfer_id key,
    ResCompany.ahkio_apix_transfer_id (AccountMove.company_id invoice) = Some transfer_id
    /\ ResCompany.ahkio_apix_transfer_key (AccountMove.company_id invoice) = Some key
    /\ key <> "".
Proof.
  rewrite validate_first_missing.
  destruct (Mandatory.first_missing invoice) as [f|] eqn:E; [discriminate|]. intros _.
  unfold Mandatory.first_missing in E.
  pose proof (find_none _ _ E Mandatory.TransferId (check_order_complete _)) as Hid.
  pose proof (find_none _ _ E Mandatory.TransferKey (check_order_complete _)) as Hkey.
  cbn [Mandatory.missing] in Hid, Hkey. unfold Mandatory.empty, truthy in Hid, Hkey.
  destruct (ResCompany.ahkio_apix_transfer_id _) as [transfer_id|]; [|discriminate].
  destruct (ResCompany.ahkio_apix_transfer_key _) as [key|]; [|discriminate].
  exists transfer_id, key. repeat split.
  intros ->. discriminate.
Qed.

End Secret.

Example export_sends_one_request :
  map Http.params
      (World.sent (snd (AccountEdiFormat._export_finvoice Sample.env Sample.invoice
                          Sample.world)))
  = [[("soft", Some "Ahkio"); ("ver", Some "2.0"); ("TraID", Some "TRA1");
      ("t", Some "20230115103000");
      ("d", Some "SHA-256:a275de51355dc26024274c588797e27cdfabc0979169784dabb6d00ab1ecc588")]]%string.
Proof. vm_compute. reflexivity. Qed.

(** ** Dicts *)
Section DictFacts.
Import Py.
Context {V : Type}.
Implicit Types (d : dict Z V) (k : Z) (v : V).

Lemma dict_get_set d k k' v :
  dict_get Z.eqb k (dict_set Z.eqb k' v d)
  = if (k =? k')%Z then Some v else dict_get Z.eqb k d.
Proof.
  induction d as [|[k0 v0] d IH]; simpl.
  - reflexivity.
  - destruct (Z.eqb_spec k' k0) as [->|Hne]; simpl.
    + destruct (k =? k0)%Z; reflexivity.
    + rewrite IH. destruct (Z.eqb_spec k k0) as [->|H0]; [|reflexivity].
      destruct (Z.eqb_spec k0 k'); [congruence | reflexivity].
Qed.

Lemma dict_mem_keys d k :
  dict_mem Z.eqb k d = existsb (Z.eqb k) (dict_keys d).
Proof.
  unfold dict_mem, dict_keys.
  induction d as [|[k0 v0] d IH]; simpl; [reflexivity|].
  destruct (k =? k0)%Z; [reflexivity | exact IH].
Qed.

Lemma dict_keys_set d k v :
  dict_keys (dict_set Z.eqb k v d) = Aggregation.see (dict_keys d) k.
Proof.
  unfold Aggregation.see, dict_keys.
  induction d as [|[k0 v0] d IH]; simpl; [reflexivity|].
  destruct (k =? k0)%Z; simpl; [reflexivity|].
  rewrite IH. destruct (existsb (Z.eqb k) (map fst d)); reflexivity.
Qed.

Lemma dict_keys_set_present d k v v0 :
  dict_get Z.eqb k d = Some v0 -> dict_keys (dict_set Z.eqb k v d) = dict_keys d.
Proof.
  intros H. rewrite dict_keys_set. unfold Aggregation.see.
  rewrite <- dict_mem_keys. unfold dict_mem. rewrite H. reflexivity.
Qed.

Lemma dict_get_in d k v :
  NoDup (dict_keys d) -> In (k, v) d -> dict_get Z.eqb k d = Some v.
Proof.
  unfold dict_keys. induction d as [|[k0 v0] d IH]; simpl; intros Hn Hin; [contradiction|].
  inversion Hn as [|? ? Hk0 Hd]; subst.
  destruct Hin as [E|Hin].
  - inversion E; subst. rewrite Z.eqb_refl. reflexivity.
  - destruct (Z.eqb_spec k k0) as [->|_]; [|auto].
    exfalso. apply Hk0. change k0 with (fst (k0, v)). apply in_map. exact Hin.
Qed.
End DictFacts.

Lemma existsb_eqb_in (k : Z) (l : list Z) : existsb (Z.eqb k) l = true <-> In k l.
Proof.
  rewrite existsb_exists. split.
  - intros (x & Hx & E). apply Z.eqb_eq in E. subst. exact Hx.
  - intros H. exists k. split; [exact H | apply Z.eqb_refl].
Qed.

Lemma see_nodup (seen : list Z) (k : Z) : NoDup seen -> NoDup (Aggregation.see seen k).
Proof.
  intros H. unfold Aggregation.see.
  destruct (existsb (Z.eqb k) seen) eqn:E; [exact H|].
  apply NoDup_app; [exact H | repeat constructor; intros [] | ].
  intros x Hx [<-|[]]. apply existsb_eqb_in in Hx. congruence.
Qed.

Lemma fold_see_nodup (l seen : list Z) :
  NoDup seen -> NoDup (fold_left Aggregation.see l seen).
Proof.
  revert seen; induction l as [|k l IH]; simpl; intros seen H; [exact H|].
  apply IH, see_nodup, H.
Qed.

Lemma first_seen_nodup (l : list Z) : NoDup (Aggregation.first_seen l).
Proof. apply fold_see_nodup. constructor. Qed.

(** ** Export: the aggregated tax details *)
Section TaxDetails.
Import Py.
Context {F : Type} {PF : PyFloat F}.
Variable env : Env.t F.
Implicit Types (d : dict Z (Tax.aggregated F)) (k : Z).

Lemma find_snoc {A : Type} (p : A -> bool) (l : list A) (a : A) :
  find p (l ++ [a])
  = match find p l with
    | Some x => Some x
    | None => if p a then Some a else None
    end.
Proof.
  induction l as [|b l IH]; simpl; [reflexivity|].
  destruct (p b); [reflexivity | exact IH].
Qed.

Lemma seeded_keys (kls : list (Z * AccountMoveLine.t F)) d :
  dict_keys (fold_left seed kls d) = fold_left Aggregation.see (map fst kls) (dict_keys d).
Proof.
  revert d; induction kls as [|kl kls IH]; intros d; simpl; [reflexivity|].
  rewrite IH. unfold seed. rewrite dict_keys_set. reflexivity.
Qed.

Lemma seeded_get (kls : list (Z * AccountMoveLine.t F)) d k :
  dict_get Z.eqb k (fold_left seed kls d)
  = match find (fun kl => (k =? fst kl)%Z) (rev kls) with
    | Some kl => Some (AccountEdiFormat.tax_line_entry (snd kl))
    | None => dict_get Z.eqb k d
    end.
Proof.
  revert d; induction kls as [|kl kls IH]; intros d; simpl; [reflexivity|].
  rewrite IH, find_snoc.
  destruct (find _ (rev kls)); [reflexivity|].
  unfold seed. rewrite dict_get_set.
  destruct (k =? fst kl)%Z; reflexivity.
Qed.

Lemma add_base_keys d (r : Tax.res F) :
  dict_keys (AccountEdiFormat.add_base d r) = dict_keys d.
Proof.
  unfold AccountEdiFormat.add_base.
  destruct (dict_get Z.eqb (Tax.id r) d) as [e|] eqn:E; [|reflexivity].
  eapply dict_keys_set_present. exact E.
Qed.

Lemma add_base_get d (r : Tax.res F) k :
  dict_get Z.eqb k (AccountEdiFormat.add_base d r)
  = option_map (grown k [r]) (dict_get Z.eqb k d).
Proof.
  unfold AccountEdiFormat.add_base, grown. cbn [filter].
  destruct (dict_get Z.eqb (Tax.id r) d) as [e|] eqn:E.
  - rewrite dict_get_set.
    destruct (Z.eqb_spec k (Tax.id r)) as [->|Hne].
    + rewrite E. reflexivity.
    + destruct (dict_get Z.eqb k d) as [[l a b]|]; reflexivity.
  - destruct (Z.eqb_spec k (Tax.id r)) as [->|Hne].
    + rewrite E. reflexivity.
    + destruct (dict_get Z.eqb k d) as [[l a b]|]; reflexivity.
Qed.

Lemma added_keys (rs : list (Tax.res F)) d :
  dict_keys (fold_left AccountEdiFormat.add_base rs d) = dict_keys d.
Proof.
  revert d; induction rs as [|r rs IH]; intros d; simpl; [reflexivity|].
  rewrite IH. apply add_base_keys.
Qed.

Lemma added_get (rs : list (Tax.res F)) d k :
  dict_get Z.eqb k (fold_left AccountEdiFormat.add_base rs d)
  = option_map (grown k rs) (dict_get Z.eqb k d).
Proof.
  revert d; induction rs as [|r rs IH]; intros d; simpl.
  - destruct (dict_get Z.eqb k d) as [[l a b]|]; reflexivity.
  - rewrite IH, add_base_get.
    destruct (dict_get Z.eqb k d) as [[l a b]|]; [|reflexivity].
    unfold grown; simpl. destruct (k =? Tax.id r)%Z; reflexivity.
Qed.

(** The loop over the invoice lines changes the dict as one pass of
    [add_base] over all the results of the tax engine. *)
Lemma export_lines_dict (invoice : AccountMove.t F)
    (ils : list (nat * AccountMoveLine.t F))
    (st : dict Z (Tax.aggregated F) * list (Template.line_values F)) :
  fst (fold_left (AccountEdiFormat.export_line env invoice) ils st)
  = fold_left AccountEdiFormat.add_base
      (flat_map (fun il => Tax.taxes (AccountEdiFormat.line_taxes_res env invoice (snd il)))
                ils)
      (fst st).
Proof.
  revert st; induction ils as [|il ils IH]; intros st; simpl; [reflexivity|].
  rewrite IH, fold_left_app. reflexivity.
Qed.

Lemma flat_map_enumerate {A B : Type} (f : A -> list B) (l : list A) :
  flat_map (fun il => f (snd il)) (AccountEdiFormat.enumerate l) = flat_map f l.
Proof.
  unfold AccountEdiFormat.enumerate. generalize 0%nat.
  induction l as [|a l IH]; intros n; simpl; [reflexivity|].
  rewrite IH. reflexivity.
Qed.

Lemma aggregated_dict (invoice : AccountMove.t F) :
  fst (AccountEdiFormat.export_lines env invoice)
  = fold_left AccountEdiFormat.add_base (Aggregation.tax_results env invoice)
      (fold_left seed (AccountEdiFormat.tax_lines invoice) []).
Proof.
  unfold AccountEdiFormat.export_lines. rewrite export_lines_dict.
  rewrite (flat_map_enumerate
             (fun line => Tax.taxes (AccountEdiFormat.line_taxes_res env invoice line))).
  reflexivity.
Qed.

Lemma tax_lines_key (invoice : AccountMove.t F) (kl : Z * AccountMoveLine.t F) :
  In kl (AccountEdiFormat.tax_lines invoice) -> Aggregation.tax_key (snd kl) = fst kl.
Proof.
  unfold AccountEdiFormat.tax_lines. rewrite in_flat_map.
  intros (line & _ & H). unfold Aggregation.tax_key.
  destruct (AccountMoveLine.tax_line_id line) as [tax|] eqn:E; [|contradiction].
  destruct H as [<-|[]]. simpl. rewrite E. reflexivity.
Qed.

(** What the dict holds for a tax. *)
Lemma aggregated_entry (invoice : AccountMove.t F) (k : Z) (e : Tax.aggregated F) :
  dict_get Z.eqb k (fst (AccountEdiFormat.export_lines env invoice)) = Some e ->
  Aggregation.tax_key (Tax.agg_line e) = k
  /\ Aggregation.last_tax_line invoice k = Some (Tax.agg_line e)
  /\ Tax.agg_tax_amount e
     = Tax.agg_tax_amount (AccountEdiFormat.tax_line_entry (Tax.agg_line e))
  /\ Tax.agg_tax_base_amount e = Aggregation.total (Aggregation.bases env invoice k).
Proof.
  rewrite aggregated_dict, added_get, seeded_get. unfold Aggregation.last_tax_line.
  destruct (find _ (rev (AccountEdiFormat.tax_lines invoice))) as [kl|] eqn:Hf;
    [|discriminate].
  simpl. intros H. inversion H; subst; clear H. simpl.
  apply find_some in Hf. destruct Hf as [Hin Hk].
  apply in_rev in Hin. apply Z.eqb_eq in Hk.
  repeat split. rewrite (tax_lines_key _ _ Hin). auto.
Qed.

Lemma seen_fresh (l acc : list Z) :
  NoDup (acc ++ l) -> fold_left Aggregation.see l acc = (acc ++ l)%list.
Proof.
  revert acc; induction l as [|k l IH]; intros acc H.
  - rewrite app_nil_r. reflexivity.
  - cbn [fold_left]. unfold Aggregation.see at 2.
    destruct (existsb (Z.eqb k) acc) eqn:E.
    + apply existsb_eqb_in in E. apply NoDup_remove_2 in H.
      exfalso. apply H. apply in_or_app. left. exact E.
    + rewrite IH; rewrite <- app_assoc; [reflexivity|exact H].
Qed.

(** Entries whose keys are those of the tax lines, each carrying a tax line
    of its key: when no key occurs twice they carry the tax lines in order. *)
Lemma lines_in_order (details : list (Tax.aggregated F))
    (kls : list (Z * AccountMoveLine.t F)) :
  NoDup (map fst kls) ->
  map (fun e => Aggregation.tax_key (Tax.agg_line e)) details = map fst kls ->
  (forall e, In e details -> In (Aggregation.tax_key (Tax.agg_line e), Tax.agg_line e) kls) ->
  map (@Tax.agg_line F) details = map snd kls.
Proof.
  revert kls; induction details as [|e details IH]; intros [|[k line] kls] Hn Hk Hin;
    try discriminate Hk; [reflexivity|].
  cbn [map fst snd] in *. inversion Hk as [[Hke Hks]]. inversion Hn as [|? ? Hfresh Hn'].
  subst. f_equal.
  - destruct (Hin e (or_introl eq_refl)) as [E|Hl].
    + inversion E. reflexivity.
    + exfalso. apply Hfresh.
      change (Aggregation.tax_key (Tax.agg_line e))
        with (fst (Aggregation.tax_key (Tax.agg_line e), Tax.agg_line e)).
      apply in_map. exact Hl.
  - apply IH; [exact Hn'|exact Hks|].
    intros e' He'. destruct (Hin e' (or_intror He')) as [E|Hl]; [|exact Hl].
    exfalso. apply Hfresh. inversion E as [[Hk' Hline]]. rewrite Hk', <- Hks.
    apply (in_map (fun e => Aggregation.tax_key (Tax.agg_line e))). exact He'.
Qed.

(** C3, as amended, for an invoice in which no two tax lines of the journal
    bear the same tax: the aggregated tax details hold one entry per tax
    line of the journal, in the order of the journal, and each entry carries
    its tax line; a tax that has no tax line in the journal has no entry.
    The amount of an entry is the amount of its tax line with the sign
    changed, and its base is the sum, from zero and in line order, of the
    bases the tax engine returns for that tax over the invoice lines. *)
Theorem aggregated_taxes_details_by_tax_line (invoice : AccountMove.t F) :
  NoDup (map fst (AccountEdiFormat.tax_lines invoice)) ->
  let details := AccountEdiFormat.aggregated_taxes_details env invoice in
  map (@Tax.agg_line F) details = map snd (AccountEdiFormat.tax_lines invoice)
  /\ Forall (fun e =>
               Tax.agg_tax_amount e
               = match AccountMoveLine.currency_id (Tax.agg_line e) with
                 | Some _ => f_neg (AccountMoveLine.amount_currency (Tax.agg_line e))
                 | None => f_neg (AccountMoveLine.balance (Tax.agg_line e))
                 end
               /\ Tax.agg_tax_base_amount e
                  = Aggregation.total
                      (Aggregation.bases env invoice
                         (Aggregation.tax_key (Tax.agg_line e))))
            details.
Proof.
  intros Hn. cbv zeta. unfold AccountEdiFormat.aggregated_taxes_details.
  set (D := fst (AccountEdiFormat.export_lines env invoice)).
  assert (dict_keys D = map fst (AccountEdiFormat.tax_lines invoice)) as Hkeys.
  { unfold D. rewrite aggregated_dict, added_keys, seeded_keys.
    apply (seen_fresh (map fst (AccountEdiFormat.tax_lines invoice)) []). exact Hn. }
  assert (forall k e, In (k, e) D -> dict_get Z.eqb k D = Some e) as Hget.
  { intros k e Hin. apply dict_get_in; [|exact Hin]. rewrite Hkeys. exact Hn. }
  assert (forall e, In e (dict_values D) ->
            exists k, In (k, e) D /\ Aggregation.tax_key (Tax.agg_line e) = k) as Hentry.
  { intros e Hin. unfold dict_values in Hin. apply in_map_iff in Hin.
    destruct Hin as ([k e'] & <- & Hin). exists k. split; [exact Hin|].
    pose proof (Hget _ _ Hin) as Hg. apply aggregated_entry in Hg. apply Hg. }
  split.
  - apply lines_in_order; [exact Hn| |].
    + rewrite <- Hkeys. unfold dict_values, dict_keys. rewrite map_map.
      apply map_ext_in. intros [k e] Hin. cbn [fst snd].
      pose proof (Hget _ _ Hin) as Hg. apply aggregated_entry in Hg. apply Hg.
    + intros e Hin. destruct (Hentry e Hin) as (k & HinD & Hk).
      pose proof (Hget _ _ HinD) as Hg. apply aggregated_entry in Hg.
      destruct Hg as (_ & Hl & _). unfold Aggregation.last_tax_line in Hl.
      destruct (find _ (rev (AccountEdiFormat.tax_lines invoice))) as [[k' line]|] eqn:Hf;
        [|discriminate Hl].
      cbn [option_map snd] in Hl. inversion Hl; subst line.
      apply find_some in Hf. destruct Hf as [Hin' Hk'].
      apply in_rev in Hin'. apply Z.eqb_eq in Hk'. cbn [fst] in Hk'.
      rewrite Hk, Hk'. exact Hin'.
  - apply Forall_forall. intros e Hin.
    destruct (Hentry e Hin) as (k & HinD & Hk).
    pose proof (Hget _ _ HinD) as Hg. apply aggregated_entry in Hg.
    destruct Hg as (_ & _ & Ha & Hb). rewrite Hk. split; assumption.
Qed.
End TaxDetails.

Lemma aggregated_taxes_details_by_tax_line_witness :
  map (@Tax.agg_line _)
      (AccountEdiFormat.aggregated_taxes_details Sample.env Sample.invoice)
  = map snd (AccountEdiFormat.tax_lines Sample.invoice)
  /\ Forall (fun e =>
               Tax.agg_tax_amount e
               = match AccountMoveLine.currency_id (Tax.agg_line e) with
                 | Some _ => f_neg (AccountMoveLine.amount_currency (Tax.agg_line e))
                 | None => f_neg (AccountMoveLine.balance (Tax.agg_line e))
                 end
               /\ Tax.agg_tax_base_amount e
                  = Aggregation.total
                      (Aggregation.bases Sample.env Sample.invoice
                         (Aggregation.tax_key (Tax.agg_line e))))
            (AccountEdiFormat.aggregated_taxes_details Sample.env Sample.invoice).
Proof.
  apply (aggregated_taxes_details_by_tax_line Sample.env Sample.invoice).
  constructor; [intros []|constructor].
Defined.

(** C3 as stated fails.  The invoice has two lines at 24 % and one at 0 %;
    the tax at 0 % has no tax line in the journal, and the aggregated details
    hold one entry, not two.  And once the tax line was adjusted by hand to
    47, the amount of the entry is 47, while the tax amounts of the lines
    that bear the tax add up to 48. *)
Lemma aggregated_taxes_details_follow_the_journal :
  map (fun line => map (@AccountTax.id _) (AccountMoveLine.tax_ids line))
      (AccountEdiFormat.product_lines Sample.invoice)
  = [[24]; [24]; [100]]%Z
  /\ List.length (AccountEdiFormat.aggregated_taxes_details Sample.env Sample.invoice)
     = 1%nat
  /\ map (@Tax.agg_tax_amount _)
         (AccountEdiFormat.aggregated_taxes_details Sample.env Sample.adjusted_invoice)
     = [QArith_base.inject_Z 47]
  /\ Aggregation.total
       (map (@Tax.amount _)
            (filter (fun r => (24 =? Tax.id r)%Z)
                    (Aggregation.tax_results Sample.env Sample.adjusted_invoice)))
     = QArith_base.inject_Z 48.
Proof. vm_compute. repeat split; reflexivity. Qed.

(** Outside the amended statement: when two journal items are tax lines
    of one tax, the dict comprehension keeps the second one only, and the
    amount of the entry is 18 where the journal holds 30 and 18. *)
Example aggregated_taxes_details_two_lines_of_one_tax :
  map (fun e => (Aggregation.tax_key (Tax.agg_line e), Tax.agg_tax_amount e,
                 Tax.agg_tax_base_amount e))
      (AccountEdiFormat.aggregated_taxes_details Sample.env Sample.split_invoice)
  = [(24%Z, QArith_base.inject_Z 18, QArith_base.inject_Z 200)].
Proof. vm_compute. reflexivity. Qed.

Example aggregated_taxes_details_sample :
  map (fun e => (Aggregation.tax_key (Tax.agg_line e), Tax.agg_tax_amount e,
                 Tax.agg_tax_base_amount e))
      (AccountEdiFormat.aggregated_taxes_details Sample.env Sample.invoice)
  = [(24%Z, QArith_base.inject_Z 48, QArith_base.inject_Z 200)].
Proof. vm_compute. reflexivity. Qed.

(** ** SHA-256 has 2^256 values *)
Section Sha256Range.
Local Open Scope Z_scope.




(** Cutting into chunks loses nothing: the chunks of a list, put end to
    end, are the list. *)
Lemma chunks_concat {A : Type} (size fuel : nat) (l : list A) :
  (0 < size)%nat -> (List.length l <= fuel)%nat ->
  List.concat (Sha256.chunks fuel size l) = l.
Proof.
  intros Hs. revert l; induction fuel as [|fuel IH]; intros l Hl.
  - destruct l; [reflexivity | simpl in Hl; lia].
  - destruct l as [|x l]; [reflexivity|].
    cbn [Sha256.chunks List.concat]. rewrite IH.
    + apply firstn_skipn.
    + rewrite length_skipn. cbn [List.length] in *. lia.
Qed.

(** The padded message is a whole number of 64-byte blocks. *)
Lemma pad_length (msg : list Z) : (Z.of_nat (List.length (Sha256.pad msg)) mod 64 = 0)%Z.
Proof.
  unfold Sha256.pad. rewrite !length_app, repeat_length. cbn [List.length].
  assert (forall n x, List.length (Sha256.be_bytes n x) = n) as Hb.
  { induction n as [|n IH]; intros x; simpl; [reflexivity|].
    rewrite length_app, IH. simpl. lia. }
  rewrite Hb.
  set (len := Z.of_nat (List.length msg)).
  pose proof (Z.mod_pos_bound (55 - len) 64 ltac:(lia)) as Hm.
  replace (Z.of_nat (List.length msg + (1 + (Z.to_nat ((55 - len) mod 64) + 8))))
    with (len + 9 + (55 - len) mod 64) by (rewrite !Nat2Z.inj_add, Z2Nat.id; lia).
  rewrite Z.add_mod_idemp_r by lia.
  replace (len + 9 + (55 - len)) with (1 * 64) by lia.
  apply Z.mod_mul. lia.
Qed.






End Sha256Range.

(** ** The text that is hashed tells its items apart *)
Section SignedText.
Local Open Scope string_scope.

Lemma append_assoc (a b c : string) : (a ++ b) ++ c = a ++ b ++ c.
Proof. induction a as [|x a IH]; simpl; [reflexivity | rewrite IH; reflexivity]. Qed.

Lemma append_length (a b : string) :
  String.length (a ++ b) = (String.length a + String.length b)%nat.
Proof. induction a as [|x a IH]; simpl; [reflexivity | rewrite IH; reflexivity]. Qed.




End SignedText.

(** ** The digest follows the values and the secret *)
Section DigestOfValues.
Import Py.
Local Open Scope string_scope.




End DigestOfValues.

Example digest_abc_secret :
  AhkioApix._calculate_digest (str_params [("p", "a"); ("q", "b"); ("r", "c")]%string)
    (Some "secret"%string)
  = Py.Ok "SHA-256:127fa5ec347f0f74aa0e6c51001b82aabf6708357985c25a22de3d02b132157b"%string.
Proof. vm_compute. reflexivity. Qed.

Example digest_changes_with_the_secret :
  AhkioApix._calculate_digest (str_params [("p", "a"); ("q", "b"); ("r", "c")]%string)
    (Some "secret"%string)
  <> AhkioApix._calculate_digest (str_params [("p", "a"); ("q", "b"); ("r", "c")]%string)
       (Some "Secret"%string).
Proof. vm_compute. discriminate. Qed.

(** ** [format_monetary] *)
Section FormatMonetary.
Import Py.
Local Open Scope Z_scope.

Lemma round_half_even_nearest (p q : Z) :
  0 < q ->
  let v := Float.round_half_even p q in
  2 * Z.abs (v * q - p) <= q /\ (2 * Z.abs (v * q - p) = q -> Z.even v = true).
Proof.
  intros Hq. cbv zeta. unfold Float.round_half_even.
  pose proof (Z.div_mod p q ltac:(lia)) as Hdm.
  pose proof (Z.mod_pos_bound p q Hq) as Hr.
  set (d := p / q) in *. set (r := p mod q) in *.
  destruct (Z.ltb_spec (2 * r) q) as [H1|H1].
  - split; [lia | intros E; lia].
  - destruct (Z.ltb_spec q (2 * r)) as [H2|H2].
    + split; [nia | intros E; nia].
    + destruct (Z.even d) eqn:He.
      * split; [nia | intros _; exact He].
      * split; [nia | intros _].
        rewrite Z.even_add, He. reflexivity.
Qed.

Lemma round_half_even_nonneg (p q : Z) :
  0 <= p -> 0 < q -> 0 <= Float.round_half_even p q.
Proof.
  intros Hp Hq. unfold Float.round_half_even.
  pose proof (Z.div_pos p q Hp Hq).
  repeat match goal with |- context [if ?b then _ else _] => destruct b end; lia.
Qed.

Lemma scaled_nonneg (x : Float.t) (n : nat) : 0 <= Float.scaled x n.
Proof.
  unfold Float.scaled.
  assert (0 <= Z.of_N (Float.mant x) * 10 ^ Z.of_nat n) by (apply Z.mul_nonneg_nonneg; lia).
  destruct (Z.leb_spec 0 (Float.expo x)).
  - apply Z.mul_nonneg_nonneg; [assumption | apply Z.pow_nonneg; lia].
  - apply round_half_even_nonneg; [assumption | apply Z.pow_pos_nonneg; lia].
Qed.

Lemma digit_is_digit (d : Z) : 0 <= d < 10 -> Numeral.is_digit (Float.digit d) = true.
Proof.
  intros H.
  assert (d = 0 \/ d = 1 \/ d = 2 \/ d = 3 \/ d = 4 \/ d = 5 \/ d = 6 \/ d = 7 \/ d = 8 \/ d = 9)
    as Hd by lia.
  repeat (destruct Hd as [->|Hd]; [reflexivity|]). subst. reflexivity.
Qed.

Lemma digit_value (d : Z) : 0 <= d < 10 -> Z.of_N (N_of_ascii (Float.digit d)) - 48 = d.
Proof.
  intros H.
  assert (d = 0 \/ d = 1 \/ d = 2 \/ d = 3 \/ d = 4 \/ d = 5 \/ d = 6 \/ d = 7 \/ d = 8 \/ d = 9)
    as Hd by lia.
  repeat (destruct Hd as [->|Hd]; [reflexivity|]). subst. reflexivity.
Qed.

Lemma all_digits_app (a b : string) :
  Numeral.all_digits (a ++ b) = Numeral.all_digits a && Numeral.all_digits b.
Proof.
  induction a as [|c a IH]; simpl; [reflexivity|].
  rewrite IH, andb_assoc. reflexivity.
Qed.

Lemma number_from_app (a b : string) (acc : Z) :
  Numeral.number_from acc (a ++ b) = Numeral.number_from (Numeral.number_from acc a) b.
Proof. revert acc; induction a as [|c a IH]; intros acc; simpl; auto. Qed.

Lemma digits_length (k : nat) (v : Z) : String.length (Float.digits k v) = k.
Proof.
  revert v; induction k as [|k IH]; intros v; simpl; [reflexivity|].
  rewrite append_length, IH. simpl. lia.
Qed.

Lemma digits_all_digits (k : nat) (v : Z) : Numeral.all_digits (Float.digits k v) = true.
Proof.
  revert v; induction k as [|k IH]; intros v; simpl; [reflexivity|].
  rewrite all_digits_app, IH. simpl.
  rewrite digit_is_digit; [reflexivity | apply Z.mod_pos_bound; lia].
Qed.

Lemma digits_number (k : nat) (v : Z) :
  Numeral.number (Float.digits k v) = v mod 10 ^ Z.of_nat k.
Proof.
  unfold Numeral.number. revert v; induction k as [|k IH]; intros v.
  - simpl. rewrite Z.mod_1_r. reflexivity.
  - cbn [Float.digits]. rewrite number_from_app, IH. cbn [Numeral.number_from].
    rewrite digit_value by (apply Z.mod_pos_bound; lia).
    rewrite Nat2Z.inj_succ, Z.pow_succ_r by lia.
    rewrite (Z.rem_mul_r v 10 (10 ^ Z.of_nat k)) by (try apply Z.pow_pos_nonneg; lia).
    lia.
Qed.

Lemma ndigits_positive (fuel : nat) (v : Z) : (1 <= Float.ndigits fuel v)%nat.
Proof. destruct fuel; simpl; [lia|]. destruct (v <? 10); lia. Qed.

Lemma ndigits_enough (fuel : nat) (v : Z) :
  0 <= v < 10 * 2 ^ Z.of_nat fuel -> v < 10 ^ Z.of_nat (Float.ndigits fuel v).
Proof.
  revert v; induction fuel as [|fuel IH]; intros v Hv.
  - simpl in *. lia.
  - cbn [Float.ndigits]. destruct (Z.ltb_spec v 10) as [H|H]; [simpl; lia|].
    rewrite Nat2Z.inj_succ, Z.pow_succ_r in * by lia.
    assert (v / 10 < 10 ^ Z.of_nat (Float.ndigits fuel (v / 10))) as Hq.
    { apply IH. split; [apply Z.div_pos; lia|].
      apply Z.div_lt_upper_bound; [lia|].
      assert (0 < 2 ^ Z.of_nat fuel) by (apply Z.pow_pos_nonneg; lia). lia. }
    pose proof (Z.div_mod v 10 ltac:(lia)). pose proof (Z.mod_pos_bound v 10 ltac:(lia)).
    lia.
Qed.

Lemma ndigits_tight (fuel : nat) (v : Z) :
  (1 < Float.ndigits fuel v)%nat -> 10 ^ Z.of_nat (Float.ndigits fuel v - 1) <= v.
Proof.
  revert v; induction fuel as [|fuel IH]; intros v; cbn [Float.ndigits]; [lia|].
  destruct (Z.ltb_spec v 10) as [H|H]; [lia|]. intros _.
  replace (S (Float.ndigits fuel (v / 10)) - 1)%nat with (Float.ndigits fuel (v / 10)) by lia.
  destruct (Nat.eq_dec (Float.ndigits fuel (v / 10)) 1) as [E|E].
  - rewrite E. simpl. lia.
  - pose proof (ndigits_positive fuel (v / 10)).
    specialize (IH (v / 10) ltac:(lia)).
    replace (Float.ndigits fuel (v / 10)) with (S (Float.ndigits fuel (v / 10) - 1)) at 1 by lia.
    rewrite Nat2Z.inj_succ, Z.pow_succ_r by lia.
    pose proof (Z.div_mod v 10 ltac:(lia)). pose proof (Z.mod_pos_bound v 10 ltac:(lia)).
    lia.
Qed.

(** [decimal v] is the numeral of [v]: digits only, at least one, no
    leading zero on a numeral of several digits, and it denotes [v]. *)
Lemma decimal_numeral (v : Z) :
  0 <= v ->
  Numeral.all_digits (Float.decimal v) = true
  /\ (1 <= String.length (Float.decimal v))%nat
  /\ Numeral.number (Float.decimal v) = v
  /\ ((1 < String.length (Float.decimal v))%nat ->
      10 ^ Z.of_nat (String.length (Float.decimal v) - 1) <= v).
Proof.
  intros Hv. unfold Float.decimal.
  set (fuel := Z.to_nat (Z.log2 v)).
  rewrite digits_length, digits_number.
  split; [apply digits_all_digits|]. split; [apply ndigits_positive|].
  split; [|apply ndigits_tight].
  apply Z.mod_small. split; [exact Hv|]. apply ndigits_enough. split; [exact Hv|].
  unfold fuel. rewrite Z2Nat.id by apply Z.log2_nonneg.
  destruct (Z.eq_dec v 0) as [->|Hne]; [simpl; lia|].
  pose proof (Z.log2_spec v ltac:(lia)) as [_ Hlt].
  rewrite Z.pow_succ_r in Hlt by apply Z.log2_nonneg. lia.
Qed.

Lemma replace_app (a b : ascii) (s t : string) :
  replace a b (s ++ t) = (replace a b s ++ replace a b t)%string.
Proof. induction s as [|c s IH]; simpl; [reflexivity | rewrite IH; reflexivity]. Qed.

Lemma replace_digits (s : string) :
  Numeral.all_digits s = true -> replace "." "," s = s.
Proof.
  induction s as [|c s IH]; simpl; [reflexivity|].
  intros H. apply andb_true_iff in H. destruct H as [Hc Hs].
  rewrite (IH Hs). destruct (Ascii.eqb_spec c "."%char) as [->|_]; [discriminate Hc|].
  reflexivity.
Qed.

(** C7: [format_monetary] renders the amount as an optional minus sign, the
    numeral of the integer part (no leading zero), and, when there are
    decimals, a comma and exactly as many digits as the currency has
    decimals; there is no exponent and no point.  The digits are those of
    the amount times [10^decimals] rounded to the nearest integer, ties to
    even, so that a double such as 90.85000000000001 renders as its
    rounding, [90,85]. *)
Theorem format_monetary_rendering (number : Float.t) (currency : ResCurrency.t) :
  let decimals := ResCurrency.decimal_places currency in
  let unit := 10 ^ Z.of_nat decimals in
  let v := Float.scaled number decimals in
  let q := 2 ^ (- Float.expo number) in
  let p := Z.of_N (Float.mant number) * unit in
  exists integer fraction : string,
    AccountEdiFormat.format_monetary number currency
    = ((if Float.sign number then "-" else "")
       ++ integer
       ++ match decimals with
          | O => ""
          | S _ => "," ++ fraction
          end)%string
    /\ Numeral.all_digits integer = true
    /\ Numeral.all_digits fraction = true
    /\ (1 <= String.length integer)%nat
    /\ String.length fraction = decimals
    /\ ((1 < String.length integer)%nat ->
        10 ^ Z.of_nat (String.length integer - 1) <= Numeral.number integer)
    /\ Numeral.number integer * unit + Numeral.number fraction = v
    /\ 0 <= Numeral.number fraction < unit
    /\ (if 0 <=? Float.expo number
        then v = p * 2 ^ Float.expo number
        else 2 * Z.abs (v * q - p) <= q
             /\ (2 * Z.abs (v * q - p) = q -> Z.even v = true)).
Proof.
  cbv zeta.
  set (decimals := ResCurrency.decimal_places currency).
  set (unit := 10 ^ Z.of_nat decimals).
  assert (0 < unit) as Hunit by (apply Z.pow_pos_nonneg; lia).
  pose proof (scaled_nonneg number decimals) as Hv.
  destruct (@decimal_numeral (Float.scaled number decimals / unit))
    as (Hd & Hl & Hn & Ht); [apply Z.div_pos; lia|].
  exists (Float.decimal (Float.scaled number decimals / unit)),
         (Float.digits decimals (Float.scaled number decimals mod unit)).
  split; [|split; [exact Hd|split; [apply digits_all_digits|split; [exact Hl|
          split; [apply digits_length|split; [rewrite Hn; exact Ht|split; [|split]]]]]]].
  - unfold AccountEdiFormat.format_monetary, Float.float_repr.
    fold decimals. fold unit.
    rewrite !replace_app, (replace_digits _ Hd).
    f_equal; [destruct (Float.sign number); reflexivity|]. f_equal.
    destruct decimals as [|k]; [reflexivity|].
    rewrite replace_app, (replace_digits _ (digits_all_digits _ _)). reflexivity.
  - rewrite Hn, digits_number. fold unit.
    rewrite Z.mod_mod by lia.
    pose proof (Z.div_mod (Float.scaled number decimals) unit ltac:(lia)). lia.
  - rewrite digits_number. fold unit. rewrite Z.mod_mod by lia.
    apply Z.mod_pos_bound. exact Hunit.
  - unfold Float.scaled. fold unit.
    destruct (Z.leb_spec 0 (Float.expo number)) as [He|He]; [reflexivity|].
    apply round_half_even_nearest. apply Z.pow_pos_nonneg; lia.
Qed.
End FormatMonetary.

(** * Further properties of the code *)

Unset Implicit Arguments.

(** ** Export: what happens after the checks *)
(** ** Reading a file that was read *)
Section TempFiles.
Local Open Scope string_scope.

Lemma substring_all (s : string) : substring 0 (String.length s) s = s.
Proof. induction s as [|a s IH]; simpl; [reflexivity|rewrite IH; reflexivity]. Qed.

Lemma substring_empty (n m : nat) : substring n m "" = "".
Proof. destruct n, m; reflexivity. Qed.

Lemma append_empty_r (s : string) : s ++ "" = s.
Proof. induction s as [|a s IH]; simpl; [reflexivity|rewrite IH; reflexivity]. Qed.

(** Written to a new file and read from the start, the data come back,
    and the position is at the end. *)
Lemma read_written (data : string) :
  TempFile.read (TempFile.seek 0 (TempFile.write data TempFile.empty))
  = (data, {| TempFile.content := data; TempFile.position := String.length data |}).
Proof.
  unfold TempFile.read, TempFile.seek, TempFile.write, TempFile.empty.
  cbn [TempFile.content TempFile.position Nat.add].
  rewrite !substring_empty. cbn [append]. rewrite append_empty_r.
  rewrite Nat.sub_0_r, substring_all, Nat.max_0_l. reflexivity.
Qed.

(** Whatever the file, a [read()] that follows a [read()] gives nothing. *)
Lemma read_after_read (f : TempFile.t) :
  fst (TempFile.read (snd (TempFile.read f))) = "".
Proof.
  unfold TempFile.read. cbn [fst snd TempFile.content TempFile.position].
  replace (String.length (TempFile.content f)
           - Nat.max (TempFile.position f) (String.length (TempFile.content f)))%nat
    with 0%nat by lia.
  apply substring_0_length.
Qed.
End TempFiles.

Section Upload.
Import Py.
Local Open Scope string_scope.
Context {F : Type} {PF : PyFloat F}.
Variable env : Env.t F.

(** An export that passes the checks sends its one request and then
    depends on the answer alone. *)
Lemma export_steps_exact (invoice : AccountMove.t F) (w : World.t F)
    (transfer_id key : string) :
  AccountEdiFormat._validate_required_fields invoice = Ok tt ->
  ResCompany.ahkio_apix_transfer_id (AccountMove.company_id invoice) = Some transfer_id ->
  ResCompany.ahkio_apix_transfer_key (AccountMove.company_id invoice) = Some key ->
  AccountEdiFormat._export_finvoice env invoice w
  = let rq := upload_request env invoice transfer_id key
                (export_xml env invoice) (export_pdf env invoice) in
    let w' := sent_one w rq in
    match Env.etree_fromstring env (Http.text (Env.send env rq)) with
    | Raise e => (Raise e, w')
    | Ok tree =>
        match first (Xml.absolute ["Response"; "Status"] tree) with
        | Raise e => (Raise e, w')
        | Ok status =>
            if match Xml.text status with Some "OK" => false | _ => true end
            then (Raise (FinvoiceGenerationException (Http.text (Env.send env rq))), w')
            else (Ok (upload_receipt env invoice),
                  attached w' (upload_receipt env invoice))
        end
    end.
Proof.
  intros Hv Hid Hkey.
  unfold AccountEdiFormat._export_finvoice, AccountEdiFormat.upload_params.
  unfold bindM at 1. unfold lift at 1. rewrite Hv, Hid, Hkey.
  cbv zeta. unfold bindM at 1. unfold lift at 1.
  cbn [dict_values map snd app].
  change [Some "Ahkio"; Some "2.0"; Some transfer_id; Some (Env.now_stamp env); Some key]
    with (map (@Some string) ["Ahkio"; "2.0"; transfer_id; Env.now_stamp env; key]).
  rewrite join_strings.
  cbn [sset dict_set String.eqb Ascii.eqb Bool.eqb].
  rewrite read_after_read, read_written. cbn [fst].
  unfold bindM, lift, Orm.request, raise, Orm.create_attachment.
  unfold upload_request, upload_receipt, export_xml, export_pdf, safe_name, sent_one,
    attached, upload_url.
  cbn [World.sent World.attachments World.moves World.messages World.commits].
  destruct (Env.etree_fromstring env _) as [tree|e]; [|reflexivity].
  destruct (first (Xml.absolute ["Response"; "Status"] tree)) as [status|e]; [|reflexivity].
  destruct (match Xml.text status with Some "OK" => false | _ => true end); reflexivity.
Qed.

Lemma export_steps (invoice : AccountMove.t F) (w : World.t F) :
  AccountEdiFormat._validate_required_fields invoice = Ok tt ->
  exists transfer_id key xml pdf,
    ResCompany.ahkio_apix_transfer_id (AccountMove.company_id invoice) = Some transfer_id
    /\ ResCompany.ahkio_apix_transfer_key (AccountMove.company_id invoice) = Some key
    /\ AccountEdiFormat._export_finvoice env invoice w
       = let rq := upload_request env invoice transfer_id key xml pdf in
         let w' := sent_one w rq in
         match Env.etree_fromstring env (Http.text (Env.send env rq)) with
         | Raise e => (Raise e, w')
         | Ok tree =>
             match first (Xml.absolute ["Response"; "Status"] tree) with
             | Raise e => (Raise e, w')
             | Ok status =>
                 if match Xml.text status with Some "OK" => false | _ => true end
                 then (Raise (FinvoiceGenerationException (Http.text (Env.send env rq))), w')
                 else (Ok (upload_receipt env invoice),
                       attached w' (upload_receipt env invoice))
             end
         end.
Proof.
  intros Hv. destruct (validated_credentials invoice Hv) as (transfer_id & key & Hid & Hkey & _).
  exists transfer_id, key, (export_xml env invoice), (export_pdf env invoice).
  split; [exact Hid|]. split; [exact Hkey|].
  apply export_steps_exact; assumption.
Qed.



(** The request of an export that passes the checks, whatever the answer. *)
Lemma export_sent (invoice : AccountMove.t F) (w : World.t F) :
  AccountEdiFormat._validate_required_fields invoice = Ok tt ->
  exists transfer_id key xml pdf,
    ResCompany.ahkio_apix_transfer_id (AccountMove.company_id invoice) = Some transfer_id
    /\ ResCompany.ahkio_apix_transfer_key (AccountMove.company_id invoice) = Some key
    /\ World.sent (snd (AccountEdiFormat._export_finvoice env invoice w))
       = (World.sent w ++ [upload_request env invoice transfer_id key xml pdf])%list.
Proof.
  intros Hv. destruct (export_steps invoice w Hv) as (tid & key & xml & pdf & Hid & Hkey & E).
  exists tid, key, xml, pdf. split; [exact Hid|]. split; [exact Hkey|].
  rewrite E. cbv zeta.
  destruct (Env.etree_fromstring env _) as [tree|e]; [|reflexivity].
  destruct (first (Xml.absolute ["Response"; "Status"] tree)) as [status|e]; [|reflexivity].
  destruct (match Xml.text status with Some "OK" => false | _ => true end); reflexivity.
Qed.


Lemma replace_removes (a b : ascii) (s : string) :
  a <> b -> AhkioApix.has_char a (replace a b s) = false.
Proof.
  intros Hne. induction s as [|c s IH]; simpl; [reflexivity|].
  rewrite IH, orb_false_r.
  destruct (Ascii.eqb_spec c a) as [->|Hc].
  - apply Ascii.eqb_neq. exact Hne.
  - apply Ascii.eqb_neq. auto.
Qed.

Lemma has_char_app (c : ascii) (s t : string) :
  AhkioApix.has_char c (s ++ t) = AhkioApix.has_char c s || AhkioApix.has_char c t.
Proof.
  induction s as [|x s IH]; simpl; [reflexivity|].
  rewrite IH, orb_assoc. reflexivity.
Qed.

(** X2: whatever the name of the invoice, the zip an export uploads holds
    two entries whose names contain no slash: the name of the invoice with
    every slash replaced, then [_finvoice.xml] and [_finvoice.pdf]. *)
Theorem export_entry_names_flat (invoice : AccountMove.t F) (w : World.t F) :
  AccountEdiFormat._validate_required_fields invoice = Ok tt ->
  exists rq xml_name xml pdf_name pdf,
    World.sent (snd (AccountEdiFormat._export_finvoice env invoice w))
    = (World.sent w ++ [rq])%list
    /\ Http.data rq = Env.zip_write env [(xml_name, xml); (pdf_name, pdf)]
    /\ xml_name = replace "/" "_" (AccountMove.name invoice) ++ "_finvoice.xml"
    /\ pdf_name = replace "/" "_" (AccountMove.name invoice) ++ "_finvoice.pdf"
    /\ AhkioApix.has_char "/" xml_name = false
    /\ AhkioApix.has_char "/" pdf_name = false.
Proof.
  intros Hv. destruct (export_sent invoice w Hv) as (tid & key & xml & pdf & _ & _ & E).
  exists (upload_request env invoice tid key xml pdf).
  exists (safe_name invoice ++ "_finvoice.xml"), xml.
  exists (safe_name invoice ++ "_finvoice.pdf"), pdf.
  split; [exact E|]. split; [reflexivity|]. split; [reflexivity|]. split; [reflexivity|].
  unfold safe_name. rewrite !has_char_app, replace_removes by discriminate.
  split; reflexivity.
Qed.

(** X3: the digest an export computes in line is the one
    [_calculate_digest] computes for the same parameters and key: the
    request carries the upload parameters with [d] set to that digest. *)
Theorem export_digest_is_calculate_digest (invoice : AccountMove.t F) (w : World.t F) :
  AccountEdiFormat._validate_required_fields invoice = Ok tt ->
  exists d rq,
    AhkioApix._calculate_digest (AccountEdiFormat.upload_params env invoice)
      (ResCompany.ahkio_apix_transfer_key (AccountMove.company_id invoice))
    = Ok d
    /\ World.sent (snd (AccountEdiFormat._export_finvoice env invoice w))
       = (World.sent w ++ [rq])%list
    /\ Http.params rq = sset "d" (Some d) (AccountEdiFormat.upload_params env invoice).
Proof.
  intros Hv. destruct (export_sent invoice w Hv) as (tid & key & xml & pdf & Hid & Hkey & E).
  exists (signature ["Ahkio"; "2.0"; tid; Env.now_stamp env] key).
  exists (upload_request env invoice tid key xml pdf).
  split; [|split; [exact E|]].
  - unfold AccountEdiFormat.upload_params. rewrite Hid, Hkey.
    change [("soft", Some "Ahkio"); ("ver", Some "2.0"); ("TraID", Some tid);
            ("t", Some (Env.now_stamp env))]
      with (str_params [("soft", "Ahkio"); ("ver", "2.0"); ("TraID", tid);
                        ("t", Env.now_stamp env)]).
    rewrite calculate_digest_strings. reflexivity.
  - unfold AccountEdiFormat.upload_params. rewrite Hid. reflexivity.
Qed.

(** The content of the attachment of an export: what the temporary file
    gives when it is read a second time. *)
Lemma export_attachment_read (invoice : AccountMove.t F) (w w' : World.t F)
    (a : IrAttachment.t) :
  AccountEdiFormat._export_finvoice env invoice w = (Ok a, w') ->
  IrAttachment.raw a
  = fst (TempFile.read
           (snd (TempFile.read
                   (TempFile.seek 0
                      (TempFile.write
                         (Env.zip_write env
                            [(safe_name invoice ++ "_finvoice.xml", export_xml env invoice);
                             (safe_name invoice ++ "_finvoice.pdf", export_pdf env invoice)])
                         TempFile.empty))))).
Proof.
  unfold AccountEdiFormat._export_finvoice.
  unfold bindM at 1. unfold lift at 1.
  destruct (AccountEdiFormat._validate_required_fields invoice); [|discriminate].
  cbv zeta. unfold bindM at 1. unfold lift at 1.
  destruct (join "+" _) as [text|e]; [|discriminate].
  unfold bindM, lift, Orm.request, raise, Orm.create_attachment.
  destruct (Env.etree_fromstring env _) as [tree|e]; [|discriminate].
  destruct (first (Xml.absolute ["Response"; "Status"] tree)) as [status|e];
    [|discriminate].
  destruct (match Xml.text status with Some "OK" => false | _ => true end);
    [discriminate|].
  intros H. inversion H. reflexivity.
Qed.

(** X23: the attachment that a successful export returns holds no
    content, whatever the zip that was sent.  The export writes the zip to a
    temporary file, goes back to its start and reads it for the request: the
    request carries the whole zip.  The attachment is made from a second
    [read()] of the same file, which by then is at its end and gives
    nothing.  The attachment is the one record created, named after the
    temporary file, of type zip and linked to no record. *)
Theorem export_attachment_is_empty (invoice : AccountMove.t F) (w w' : World.t F)
    (a : IrAttachment.t) :
  AccountEdiFormat._export_finvoice env invoice w = (Ok a, w') ->
  (exists rq,
      World.sent w' = (World.sent w ++ [rq])%list
      /\ Http.data rq
         = Env.zip_write env
             [(safe_name invoice ++ "_finvoice.xml", export_xml env invoice);
              (safe_name invoice ++ "_finvoice.pdf", export_pdf env invoice)])
  /\ IrAttachment.raw a = ""
  /\ IrAttachment.name a
     = Env.temp_name env ("apix_invoice_" ++ replace "/" "_" (AccountMove.name invoice) ++ "_")
         ".zip"
  /\ IrAttachment.mimetype a = Some "application/zip"
  /\ IrAttachment.res_model a = None
  /\ IrAttachment.res_id a = None
  /\ World.attachments w' = (World.attachments w ++ [a])%list.
Proof.
  intros H.
  assert (AccountEdiFormat._validate_required_fields invoice = Ok tt) as Hv.
  { destruct (AccountEdiFormat._validate_required_fields invoice) as [[]|e] eqn:E;
      [reflexivity|].
    rewrite (@export_stops_at_validation _ _ env invoice e w E) in H. discriminate H. }
  destruct (validated_credentials invoice Hv) as (tid & key & Hid & Hkey & _).
  pose proof H as H0.
  rewrite (export_steps_exact invoice w tid key Hv Hid Hkey) in H. cbv zeta in H.
  destruct (Env.etree_fromstring env _) as [tree|e]; [|discriminate H].
  destruct (first (Xml.absolute ["Response"; "Status"] tree)) as [status|e];
    [|discriminate H].
  destruct (match Xml.text status with Some "OK" => false | _ => true end);
    [discriminate H|].
  inversion H; subst. split; [|split; [|repeat split]].
  - exists (upload_request env invoice tid key
              (export_xml env invoice) (export_pdf env invoice)).
    split; reflexivity.
  - rewrite (export_attachment_read invoice w _ _ H0). apply read_after_read.
Qed.
End Upload.


Lemma export_entry_names_flat_witness :
  exists rq xml_name xml pdf_name pdf,
    World.sent (snd (AccountEdiFormat._export_finvoice Sample.env Sample.invoice Sample.world))
    = ([] ++ [rq])%list
    /\ Http.data rq = Env.zip_write Sample.env [(xml_name, xml); (pdf_name, pdf)]
    /\ xml_name = (Py.replace "/" "_" "INV/2023/0001" ++ "_finvoice.xml")%string
    /\ pdf_name = (Py.replace "/" "_" "INV/2023/0001" ++ "_finvoice.pdf")%string
    /\ AhkioApix.has_char "/" xml_name = false
    /\ AhkioApix.has_char "/" pdf_name = false.
Proof.
  exact (export_entry_names_flat Sample.env Sample.invoice Sample.world eq_refl).
Defined.

Lemma export_digest_is_calculate_digest_witness :
  exists d rq,
    AhkioApix._calculate_digest (AccountEdiFormat.upload_params Sample.env Sample.invoice)
      (Some "secret"%string)
    = Py.Ok d
    /\ World.sent (snd (AccountEdiFormat._export_finvoice Sample.env Sample.invoice
                          Sample.world))
       = ([] ++ [rq])%list
    /\ Http.params rq
       = Py.sset "d" (Some d) (AccountEdiFormat.upload_params Sample.env Sample.invoice).
Proof.
  exact (export_digest_is_calculate_digest Sample.env Sample.invoice Sample.world eq_refl).
Defined.

(** ** The transfer key and the request *)
Section KeyFlow.
Import Py.
Local Open Scope string_scope.
Context {F : Type} {PF : PyFloat F}.
Variable env : Env.t F.








End KeyFlow.


(** ** The batch of exports *)
Section Batch.
Import Py.
Local Open Scope string_scope.
Context {F : Type} {PF : PyFloat F}.
Variable env : Env.t F.
Variable super_post : list (AccountMove.t F) -> M F (dict Z AccountEdiFormat.outcome).

Lemma post_invoice_edi_loop (invoices : list (AccountMove.t F)) :
  AccountEdiFormat._post_invoice_edi env "finvoice_3_0" super_post invoices
  = post_loop env invoices (ret []).
Proof. reflexivity. Qed.

Lemma post_loop_ext (invoices : list (AccountMove.t F))
    (m m' : M F (dict Z AccountEdiFormat.outcome)) (w w' : World.t F) :
  m w = m' w' -> post_loop env invoices m w = post_loop env invoices m' w'.
Proof.
  revert m m'; induction invoices as [|inv invoices IH]; intros m m' H; [exact H|].
  cbn [post_loop fold_left]. apply IH. unfold bindM. rewrite H. reflexivity.
Qed.

Lemma post_loop_raised (invoices : list (AccountMove.t F))
    (m : M F (dict Z AccountEdiFormat.outcome)) (w w' : World.t F) (e : exn) :
  m w = (Raise e, w') -> post_loop env invoices m w = (Raise e, w').
Proof.
  intros H. rewrite (post_loop_ext invoices m (raise e) w w' H).
  clear. induction invoices as [|inv invoices IH]; [reflexivity|].
  cbn [post_loop fold_left]. etransitivity; [|exact IH].
  apply post_loop_ext. reflexivity.
Qed.

Lemma post_loop_returned (invoices : list (AccountMove.t F))
    (m : M F (dict Z AccountEdiFormat.outcome)) (w w' : World.t F)
    (res : dict Z AccountEdiFormat.outcome) :
  m w = (Ok res, w') -> post_loop env invoices m w = post_loop env invoices (ret res) w'.
Proof. intros H. apply post_loop_ext. exact H. Qed.

Lemma post_one_no_generation_error (res : dict Z AccountEdiFormat.outcome)
    (inv : AccountMove.t F) (w : World.t F) (e : exn) :
  fst (AccountEdiFormat.post_one env res inv w) = Raise e -> generation_error e = false.
Proof.
  unfold AccountEdiFormat.post_one.
  destruct (AccountEdiFormat._export_finvoice env inv w) as [[a|e'] w']; [discriminate|].
  destruct e'; cbn [fst]; intros H; inversion H; reflexivity.
Qed.

(** X4: [_post_invoice_edi] never lets a [FinvoiceGenerationException]
    escape: whatever the invoices, it returns, or it raises an exception of
    another class. *)
Theorem post_invoice_edi_absorbs_generation_errors
    (invoices : list (AccountMove.t F)) (w : World.t F) :
  match fst (AccountEdiFormat._post_invoice_edi env "finvoice_3_0" super_post invoices w)
  with
  | Ok _ => True
  | Raise e => generation_error e = false
  end.
Proof.
  rewrite post_invoice_edi_loop.
  assert (forall (m : M F (dict Z AccountEdiFormat.outcome)) w,
             (forall e, fst (m w) = Raise e -> generation_error e = false) ->
             forall e, fst (post_loop env invoices m w) = Raise e -> generation_error e = false)
    as H.
  { induction invoices as [|inv invoices IH]; intros m w0 Hm; [exact Hm|].
    cbn [post_loop fold_left]. apply IH. intros e. unfold bindM.
    destruct (m w0) as [[res|e0] w1] eqn:E.
    - apply post_one_no_generation_error.
    - cbn [fst]. intros H. inversion H; subst. apply Hm. reflexivity. }
  specialize (H (ret []) w).
  destruct (fst (post_loop env invoices (ret []) w)) as [res|e]; [exact I|].
  apply H; [|reflexivity]. intros e0 H0. discriminate H0.
Qed.

(** X5: an exception of another class stops the batch: when the invoices
    before [invoice] were handled and the export of [invoice] raises
    something that is no [FinvoiceGenerationException], the batch raises it
    and the invoices after it are not exported. *)
Theorem post_invoice_edi_stops_on_other_errors
    (before after : list (AccountMove.t F)) (invoice : AccountMove.t F)
    (w w1 w2 : World.t F) (res : dict Z AccountEdiFormat.outcome) (e : exn) :
  AccountEdiFormat._post_invoice_edi env "finvoice_3_0" super_post before w = (Ok res, w1) ->
  AccountEdiFormat._export_finvoice env invoice w1 = (Raise e, w2) ->
  generation_error e = false ->
  AccountEdiFormat._post_invoice_edi env "finvoice_3_0" super_post
    (before ++ invoice :: after) w
  = (Raise e, w2).
Proof.
  rewrite !post_invoice_edi_loop. intros Hb He Hg.
  replace (post_loop env (before ++ invoice :: after) (ret []))
    with (post_loop env after
            (bindM (post_loop env before (ret []))
                   (fun res => AccountEdiFormat.post_one env res invoice)))
    by (unfold post_loop; rewrite fold_left_app; reflexivity).
  apply post_loop_raised. unfold bindM. rewrite Hb.
  unfold AccountEdiFormat.post_one. rewrite He.
  destruct e; try reflexivity. discriminate Hg.
Qed.
Lemma fold_set_keys {A V : Type} (key : A -> Z) (g : A -> V) (l : list A) (d : dict Z V) :
  dict_keys (fold_left (fun d x => dict_set Z.eqb (key x) (g x) d) l d)
  = fold_left Aggregation.see (map key l) (dict_keys d).
Proof.
  revert d; induction l as [|x l IH]; intros d; simpl; [reflexivity|].
  rewrite IH, dict_keys_set. reflexivity.
Qed.

Lemma fold_set_get {A V : Type} (key : A -> Z) (g : A -> V) (l : list A) (d : dict Z V)
    (k : Z) :
  dict_get Z.eqb k (fold_left (fun d x => dict_set Z.eqb (key x) (g x) d) l d)
  = match find (fun x => (k =? key x)%Z) (rev l) with
    | Some x => Some (g x)
    | None => dict_get Z.eqb k d
    end.
Proof.
  revert d; induction l as [|x l IH]; intros d; simpl; [reflexivity|].
  rewrite IH, find_snoc.
  destruct (find _ (rev l)); [reflexivity|].
  rewrite dict_get_set. destruct (k =? key x)%Z; reflexivity.
Qed.

Lemma some_field_missing (invoice : AccountMove.t F) :
  (exists f, Mandatory.missing invoice f = true) ->
  exists f, Mandatory.first_missing invoice = Some f.
Proof.
  intros [f0 Hf0]. destruct (Mandatory.first_missing invoice) as [f|] eqn:E; [eauto|].
  unfold Mandatory.first_missing in E.
  rewrite (find_none _ _ E f0 (check_order_complete f0)) in Hf0. discriminate.
Qed.

Lemma post_loop_refused (invoices : list (AccountMove.t F))
    (res : dict Z AccountEdiFormat.outcome) (w : World.t F) :
  (forall inv, In inv invoices -> exists f, Mandatory.missing inv f = true) ->
  post_loop env invoices (ret res) w
  = (Ok (fold_left (fun d inv => dict_set Z.eqb (AccountMove.id inv) (refusal inv) d)
                   invoices res), w).
Proof.
  revert res; induction invoices as [|inv invoices IH]; intros res H; [reflexivity|].
  change (post_loop env (inv :: invoices) (ret res) w)
    with (post_loop env invoices
            (bindM (ret res) (fun r => AccountEdiFormat.post_one env r inv)) w).
  destruct (some_field_missing inv (H inv (or_introl eq_refl))) as [f Hf].
  rewrite (post_loop_returned invoices _ w w
             (dict_set Z.eqb (AccountMove.id inv) (refusal inv) res)).
  - apply IH. intros i Hi. apply H. right. exact Hi.
  - unfold bindM, ret, AccountEdiFormat.post_one.
    assert (AccountEdiFormat._validate_required_fields inv
            = Raise (FinvoiceGenerationException (Mandatory.message f))) as Hv
      by (rewrite validate_first_missing, Hf; reflexivity).
    rewrite (@export_stops_at_validation _ _ env inv _ w Hv).
    unfold refusal. rewrite Hf. reflexivity.
Qed.

(** X6: a batch in which every invoice lacks a mandatory field sends
    nothing and changes nothing; it returns one outcome per invoice id, in
    the order in which the ids first occur, and each outcome is the error
    that names the first missing field of an invoice with that id. *)
Theorem post_invoice_edi_refuses_without_sending
    (invoices : list (AccountMove.t F)) (w : World.t F) :
  (forall inv, In inv invoices -> exists f, Mandatory.missing inv f = true) ->
  exists res,
    AccountEdiFormat._post_invoice_edi env "finvoice_3_0" super_post invoices w = (Ok res, w)
    /\ dict_keys res = Aggregation.first_seen (map (@AccountMove.id F) invoices)
    /\ forall k o,
         dict_get Z.eqb k res = Some o ->
         exists inv f,
           In inv invoices
           /\ AccountMove.id inv = k
           /\ Mandatory.first_missing inv = Some f
           /\ o = AccountEdiFormat.Error (FinvoiceGenerationException (Mandatory.message f)).
Proof.
  intros H. eexists. split; [|split].
  - rewrite post_invoice_edi_loop. apply post_loop_refused. exact H.
  - rewrite fold_set_keys. reflexivity.
  - intros k o. rewrite fold_set_get.
    destruct (find _ (rev invoices)) as [inv|] eqn:E; [|discriminate].
    intros Ho. inversion Ho; subst; clear Ho.
    apply find_some in E. destruct E as [Hin Hk].
    apply in_rev in Hin. apply Z.eqb_eq in Hk.
    destruct (some_field_missing inv (H inv Hin)) as [f Hf].
    exists inv, f. repeat split; auto.
    unfold refusal. rewrite Hf. reflexivity.
Qed.
End Batch.

Lemma post_invoice_edi_stops_on_other_errors_witness :
  exists w2,
    AccountEdiFormat._post_invoice_edi (Sample.env_with false "garbage") "finvoice_3_0"
      (fun _ => ret [])
      ([Sample.incomplete_invoice] ++ Sample.invoice :: [Sample.incomplete_invoice])
      Sample.world
    = (Py.Raise (Py.XMLSyntaxError "Document is empty"), w2).
Proof.
  eexists.
  eapply (post_invoice_edi_stops_on_other_errors (Sample.env_with false "garbage")
            (fun _ => ret []) [Sample.incomplete_invoice] [Sample.incomplete_invoice]
            Sample.invoice Sample.world).
  - vm_compute. reflexivity.
  - vm_compute. reflexivity.
  - reflexivity.
Defined.

Lemma post_invoice_edi_refuses_without_sending_witness :
  exists res,
    AccountEdiFormat._post_invoice_edi Sample.env "finvoice_3_0" (fun _ => ret [])
      [Sample.incomplete_invoice; Sample.incomplete_invoice] Sample.world
    = (Py.Ok res, Sample.world)
    /\ Py.dict_keys res
       = Aggregation.first_seen
           (map (@AccountMove.id _) [Sample.incomplete_invoice; Sample.incomplete_invoice])
    /\ forall k o,
         Py.dict_get Z.eqb k res = Some o ->
         exists inv f,
           In inv [Sample.incomplete_invoice; Sample.incomplete_invoice]
           /\ AccountMove.id inv = k
           /\ Mandatory.first_missing inv = Some f
           /\ o = AccountEdiFormat.Error
                    (Py.FinvoiceGenerationException (Mandatory.message f)).
Proof.
  apply (post_invoice_edi_refuses_without_sending Sample.env (fun _ => ret [])
           [Sample.incomplete_invoice; Sample.incomplete_invoice] Sample.world).
  intros inv [<-|[<-|[]]]; exists Mandatory.RecipientOvt; reflexivity.
Defined.

(** ** The digest: what it takes and what it gives *)
Section DigestFacts.
Import Py.
Local Open Scope string_scope.

Lemma join_all_strings (sep : string) (items : list value) :
  forallb (fun v => match v with Some _ => true | None => false end) items = true ->
  exists strings, items = map Some strings.
Proof.
  induction items as [|[s|] items IH]; simpl; intros H.
  - exists []. reflexivity.
  - destruct (IH H) as [strings ->]. exists (s :: strings). reflexivity.
  - discriminate H.
Qed.

Lemma join_not_all_strings (sep : string) (items : list value) :
  forallb (fun v => match v with Some _ => true | None => false end) items = false ->
  join sep items = Raise (TypeError "sequence item: expected str instance").
Proof.
  induction items as [|[s|] items IH]; simpl; intros H.
  - discriminate H.
  - destruct items as [|v items]; [discriminate H|].
    rewrite (IH H). reflexivity.
  - reflexivity.
Qed.

(** X7: [_calculate_digest] needs every parameter value and the key to be
    a [str]: then it returns the signature of the values and the key; a
    value or a key that is unset ([None], [False]) makes it raise
    [TypeError], whatever the other values. *)
Theorem calculate_digest_needs_strings (params : sdict value) (key : value) :
  (all_strings params key = true ->
   exists values k,
     dict_values params = map Some values
     /\ key = Some k
     /\ AhkioApix._calculate_digest params key = Ok (signature values k))
  /\ (all_strings params key = false ->
      AhkioApix._calculate_digest params key
      = Raise (TypeError "sequence item: expected str instance")).
Proof.
  unfold all_strings, AhkioApix._calculate_digest. split; intros H.
  - rewrite forallb_app in H. apply andb_true_iff in H. destruct H as [Hv Hk].
    destruct (join_all_strings "+" _ Hv) as [values E].
    destruct key as [k|]; [|discriminate Hk].
    exists values, k. split; [exact E|]. split; [reflexivity|].
    rewrite E. change [Some k] with (map (@Some string) [k]).
    rewrite <- map_app, join_strings. reflexivity.
  - rewrite (join_not_all_strings "+" _ H). reflexivity.
Qed.

Lemma hex_be_length (n : nat) (x : Z) : String.length (Sha256.hex_be n x) = n.
Proof.
  revert x; induction n as [|n IH]; intros x; [reflexivity|].
  cbn [Sha256.hex_be]. rewrite append_length, IH. simpl. lia.
Qed.

Lemma all_hex_app (s t : string) : all_hex (s ++ t) = all_hex s && all_hex t.
Proof.
  induction s as [|c s IH]; simpl; [reflexivity|].
  rewrite IH, andb_assoc. reflexivity.
Qed.

Lemma hex_char_is_hex (d : Z) : (0 <= d < 16)%Z -> is_hex (Sha256.hex_char d) = true.
Proof.
  intros H.
  assert (d = 0 \/ d = 1 \/ d = 2 \/ d = 3 \/ d = 4 \/ d = 5 \/ d = 6 \/ d = 7
          \/ d = 8 \/ d = 9 \/ d = 10 \/ d = 11 \/ d = 12 \/ d = 13 \/ d = 14 \/ d = 15)%Z
    as H' by lia.
  clear H. repeat (destruct H' as [->|H']); try subst d; reflexivity.
Qed.

Lemma hex_be_all_hex (n : nat) (x : Z) : all_hex (Sha256.hex_be n x) = true.
Proof.
  revert x; induction n as [|n IH]; intros x; [reflexivity|].
  cbn [Sha256.hex_be]. rewrite all_hex_app, IH. cbn [all_hex andb].
  rewrite hex_char_is_hex; [reflexivity|]. apply Z.mod_pos_bound. lia.
Qed.

(** X8: a digest that [_calculate_digest] returns always has the same
    shape: [SHA-256:] and then 64 characters, each a digit or a lower-case
    letter from [a] to [f]; 72 characters in all, whatever the length of
    the values. *)
Theorem calculate_digest_shape (params : sdict value) (key : value) (d : string) :
  AhkioApix._calculate_digest params key = Ok d ->
  exists h,
    d = "SHA-256:" ++ h
    /\ String.length h = 64%nat
    /\ all_hex h = true
    /\ String.length d = 72%nat.
Proof.
  unfold AhkioApix._calculate_digest. intros H.
  destruct (join "+" _) as [text|e]; [|discriminate H].
  cbn [bind] in H. inversion H; subst; clear H.
  exists (Sha256.hexdigest (Sha256.encode text)).
  unfold Sha256.hexdigest.
  split; [reflexivity|]. split; [apply hex_be_length|]. split; [apply hex_be_all_hex|].
  cbn [String.length append]. rewrite hex_be_length. reflexivity.
Qed.

Lemma concat_boundary (pre post : list string) (x y : string) :
  String.concat "+" (pre ++ (x ++ "+" ++ y) :: post)
  = String.concat "+" (pre ++ x :: y :: post).
Proof.
  induction pre as [|a pre IH].
  - cbn [app String.concat]. destruct post as [|b post].
    + reflexivity.
    + rewrite <- !append_assoc. reflexivity.
  - cbn [app]. 
    change (String.concat "+" (a :: ?l)) with (String.concat "+" (a :: l)).
    destruct pre as [|a' pre].
    + cbn [app] in *. cbn [String.concat]. f_equal. f_equal.
      exact IH.
    + cbn [app] in *. 
      change (a ++ "+" ++ String.concat "+" (a' :: pre ++ (x ++ "+" ++ y) :: post)
              = a ++ "+" ++ String.concat "+" (a' :: pre ++ x :: y :: post)).
      rewrite IH. reflexivity.
Qed.

(** X9: the digest does not tell where one value ends and the next
    begins: a value that contains a plus sign signs as the two values on
    either side of it would, with the same key. *)
Theorem calculate_digest_joins_values (pre post : sdict string) (k k1 k2 x y key : string) :
  AhkioApix._calculate_digest
    (str_params (pre ++ (k, (x ++ "+" ++ y)%string) :: post)%list) (Some key)
  = AhkioApix._calculate_digest
      (str_params (pre ++ (k1, x) :: (k2, y) :: post)%list) (Some key).
Proof.
  rewrite !calculate_digest_strings. unfold signed_text, dict_values.
  rewrite !map_app. cbn [map snd]. rewrite <- !app_assoc. cbn [app].
  rewrite (concat_boundary (map snd pre) (map snd post ++ [key]) x y). reflexivity.
Qed.
End DigestFacts.

Lemma calculate_digest_shape_witness :
  exists h,
    ("SHA-256:" ++ Sha256.hexdigest (Sha256.encode "a+b+secret"))%string
    = ("SHA-256:" ++ h)%string
    /\ String.length h = 64%nat
    /\ all_hex h = true
    /\ String.length ("SHA-256:" ++ Sha256.hexdigest (Sha256.encode "a+b+secret"))%string
       = 72%nat.
Proof.
  exact (calculate_digest_shape
           [("x", Some "a"); ("y", Some "b")]%string (Some "secret"%string) _ eq_refl).
Defined.

(** ** The files that wait at Apix: descriptors *)
Section Descriptors.
Import Py.
Local Open Scope string_scope.
Context {F : Type} {PF : PyFloat F}.
Variable env : Env.t F.

(** X10: for a company whose transfer id or transfer key is unset,
    [list_invoice_zips] raises [TypeError] while it computes the digest:
    no request is sent and nothing changes. *)
Theorem list_without_credentials_sends_nothing (company : ResCompany.t) (w : World.t F) :
  ResCompany.ahkio_apix_transfer_id company = None
  \/ ResCompany.ahkio_apix_transfer_key company = None ->
  AhkioApix.list_invoice_zips env company w
  = (Raise (TypeError "sequence item: expected str instance"), w).
Proof.
  intros H. unfold AhkioApix.list_invoice_zips, AhkioApix._calculate_digest.
  unfold bindM at 1. unfold lift at 1.
  destruct H as [-> | ->]; [reflexivity|].
  destruct (ResCompany.ahkio_apix_transfer_id company); reflexivity.
Qed.

Lemma value_node_read (kv : string * string) (file : sdict string) :
  bind (first (Xml.text_nodes (value_node kv))) (fun v =>
  bind (first (Xml.attribute "type" (value_node kv))) (fun k =>
  Ok (sset k v file)))
  = match snd kv with
    | EmptyString => Raise (IndexError "list index out of range")
    | String _ _ => Ok (sset (fst kv) (snd kv) file)
    end.
Proof. destruct kv as [k [|c v]]; reflexivity. Qed.

(** The loop of [extract_content_from_group] over written values: it
    reads them in order until one has no text. *)
Lemma extract_values (pairs : list (string * string)) (acc : result (sdict string)) :
  fold_left (fun acc value =>
               bind acc (fun file =>
               bind (first (Xml.text_nodes value)) (fun v =>
               bind (first (Xml.attribute "type" value)) (fun k =>
               Ok (sset k v file)))))
            (map value_node pairs) acc
  = match acc with
    | Raise e => Raise e
    | Ok d =>
        if forallb (fun kv => negb (snd kv =? "")) pairs
        then Ok (fold_left (fun d kv => sset (fst kv) (snd kv) d) pairs d)
        else Raise (IndexError "list index out of range")
    end.
Proof.
  revert acc; induction pairs as [|kv pairs IH]; intros acc.
  - destruct acc; reflexivity.
  - cbn [map fold_left forallb]. rewrite IH.
    destruct acc as [d|e]; [|reflexivity].
    cbn [bind]. rewrite value_node_read.
    destruct (snd kv) as [|c v] eqn:E; reflexivity.
Qed.

Lemma filter_all {A : Type} (p : A -> bool) (l : list A) :
  (forall a, In a l -> p a = true) -> filter p l = l.
Proof.
  induction l as [|a l IH]; intros H; [reflexivity|].
  simpl. rewrite (H a (or_introl eq_refl)). f_equal. apply IH.
  intros b Hb. apply H. right. exact Hb.
Qed.

Lemma set_fresh (k v : string) (d : sdict string) :
  ~ In k (dict_keys d) -> sset k v d = (d ++ [(k, v)])%list.
Proof.
  induction d as [|[k' v'] d IH]; intros H; [reflexivity|].
  unfold sset in *. cbn [dict_set app].
  destruct (String.eqb_spec k k') as [->|Hne].
  - contradiction H. left. reflexivity.
  - f_equal. apply IH. intros Hin. apply H. right. exact Hin.
Qed.

Lemma descriptor_fresh (pairs : list (string * string)) (d : sdict string) :
  NoDup (dict_keys d ++ map fst pairs) ->
  fold_left (fun d kv => sset (fst kv) (snd kv) d) pairs d = (d ++ pairs)%list.
Proof.
  revert d; induction pairs as [|[k v] pairs IH]; intros d H.
  - rewrite app_nil_r. reflexivity.
  - cbn [fold_left fst snd map] in *.
    rewrite set_fresh.
    + rewrite IH.
      * rewrite <- app_assoc. reflexivity.
      * unfold dict_keys in *. rewrite map_app, <- app_assoc. exact H.
    + apply NoDup_remove_2 in H. intros Hin. apply H. apply in_or_app. left. exact Hin.
Qed.

(** X11: a group that holds one [Value] per field, the name of the field
    in the attribute [type] and the value as its text, is read back as the
    descriptor of its fields when every value is non-empty: a name that
    occurs again replaces the value and keeps the place of the first
    occurrence, and when no name occurs twice the descriptor is the list of
    the fields as it stands.  A field whose value is empty has no text to
    read: the extraction raises [IndexError]. *)
Theorem extract_content_reads_descriptor (pairs : list (string * string)) :
  ((forall kv, In kv pairs -> snd kv <> "") ->
   AhkioApix.extract_content_from_group (descriptor_group pairs)
   = Ok (descriptor_of pairs))
  /\ ((exists kv, In kv pairs /\ snd kv = "") ->
      AhkioApix.extract_content_from_group (descriptor_group pairs)
      = Raise (IndexError "list index out of range"))
  /\ (NoDup (map fst pairs) -> descriptor_of pairs = pairs).
Proof.
  assert (AhkioApix.extract_content_from_group (descriptor_group pairs)
          = if forallb (fun kv => negb (snd kv =? "")) pairs
            then Ok (descriptor_of pairs)
            else Raise (IndexError "list index out of range")) as E.
  { unfold AhkioApix.extract_content_from_group, descriptor_group, descriptor_of,
      Xml.child_elements.
    cbn [Xml.children]. rewrite filter_all.
    - apply (extract_values pairs (Ok [])).
    - intros a Ha. apply in_map_iff in Ha. destruct Ha as [kv [<- _]]. reflexivity. }
  split; [|split].
  - intros H. rewrite E.
    replace (forallb (fun kv => negb (snd kv =? "")) pairs) with true; [reflexivity|].
    symmetry. apply forallb_forall. intros kv Hkv.
    apply negb_true_iff, String.eqb_neq. apply H. exact Hkv.
  - intros (kv & Hin & Hempty). rewrite E.
    replace (forallb (fun kv => negb (snd kv =? "")) pairs) with false; [reflexivity|].
    symmetry. apply not_true_is_false. intros Hall.
    rewrite forallb_forall in Hall. specialize (Hall kv Hin).
    rewrite Hempty in Hall. discriminate Hall.
  - intros H. unfold descriptor_of. rewrite descriptor_fresh; [reflexivity|exact H].
Qed.
End Descriptors.

Lemma list_without_credentials_sends_nothing_witness :
  AhkioApix.list_invoice_zips Sample.env Sample.idle Sample.world
  = (Py.Raise (Py.TypeError "sequence item: expected str instance"), Sample.world).
Proof.
  apply (list_without_credentials_sends_nothing Sample.env Sample.idle Sample.world).
  left. reflexivity.
Defined.

(** ** Download: the request, the zip and the invoice *)
Section Unpacking.
Import Py.
Local Open Scope string_scope.
Context {F : Type} {PF : PyFloat F}.
Variable env : Env.t F.

Lemma create_invoice_attachments_loop (id : Z) (files : sdict string)
    (m : M F (list string)) (w w0 : World.t F) (ids : list string) :
  m w = (Ok ids, w0) ->
  fold_left (fun acc nf =>
               bindM acc (fun ids =>
               bindM (Orm.create_attachment
                        {| IrAttachment.name := fst nf;
                           IrAttachment.raw := snd nf;
                           IrAttachment.res_model := Some "account.move";
                           IrAttachment.res_id := Some id;
                           IrAttachment.mimetype := None |})
                     (fun a => ret (ids ++ [IrAttachment.name a])%list)))
            files m w
  = (Ok (ids ++ dict_keys files)%list,
     {| World.sent := World.sent w0;
        World.attachments := (World.attachments w0 ++ filed id files)%list;
        World.moves := World.moves w0;
        World.messages := World.messages w0;
        World.commits := World.commits w0 |}).
Proof.
  revert m w0 ids; induction files as [|[n c] files IH]; intros m w0 ids H.
  - cbn [fold_left filed map dict_keys]. rewrite H, !app_nil_r.
    destruct w0; reflexivity.
  - cbn [fold_left].
    erewrite IH; [|unfold bindM; rewrite H; reflexivity].
    cbn [World.sent World.attachments World.moves World.messages World.commits
         fst snd IrAttachment.name filed map dict_keys].
    rewrite <- !app_assoc. reflexivity.
Qed.

Lemma file_invoice_result (attachment : IrAttachment.t) (files : sdict string)
    (invoice : Z * Form.t F) (w : World.t F) :
  file_invoice attachment files invoice w
  = (Ok (Some invoice), filed_world attachment files (fst invoice) w).
Proof.
  unfold file_invoice, AhkioApix.create_invoice_attachments.
  unfold bindM at 1. cbn [Orm.set_res_id].
  unfold bindM at 1. cbn [Orm.message_post].
  unfold bindM at 1.
  erewrite create_invoice_attachments_loop; [|reflexivity].
  cbn [app World.sent World.attachments World.moves World.messages World.commits].
  unfold filed_world.
  destruct files as [|nf files]; cbn [dict_keys map]; unfold bindM, ret;
    cbn [Orm.message_post Orm.commit Orm.set_res_id snd
         World.sent World.attachments World.moves World.messages World.commits];
    rewrite <- ?app_assoc; reflexivity.
Qed.

(** What [unpack] does: either it returns the invoice it has created, and
    the world is that of [file_invoice] after the invoice was saved, or it
    returns no invoice and leaves the world as it was. *)
Ltac no_invoice r :=
  subst r; right; split; [ intros ? H; cbn [fst] in H; discriminate H | reflexivity ].

(** What [unpack] does: either it returns the invoice it has created, and
    the world is that of [file_invoice] after the invoice was saved, or it
    returns no invoice and leaves the world as it was. *)
Lemma unpack_cases (file : sdict string) (filename : string)
    (attachment : IrAttachment.t) (content : string) (w : World.t F) :
  (exists (files : sdict string) (form : Form.t F),
      unpack env file filename attachment content w
      = (Ok (Some (Z.of_nat (List.length (World.moves w)) + 1, form)%Z),
         filed_world attachment files (Z.of_nat (List.length (World.moves w)) + 1)
           (snd (Orm.save form w))))
  \/ ((forall invoice, fst (unpack env file filename attachment content w)
                       <> Ok (Some invoice))
      /\ snd (unpack env file filename attachment content w) = w).
Proof.
  remember (unpack env file filename attachment content w) as r eqn:E.
  unfold unpack in E.
  unfold bindM at 1 in E.
  destruct (Env.zip_read env content) as [zip_file|]; [|no_invoice r].
  unfold ret at 1 in E. unfold bindM at 1 in E. unfold lift at 1 in E.
  destruct (item "DocumentName" file) as [document_name|e]; [|no_invoice r].
  unfold bindM at 1 in E.
  destruct (sget document_name zip_file) as [xml_doc|]; [|no_invoice r].
  unfold ret at 1 in E.
  destruct (Env.etree_fromstring env xml_doc) as [tree|e].
  - unfold bindM at 1 in E. unfold lift at 1 in E.
    destruct (fold_left _ _ _) as [st|e]; [|no_invoice r].
    unfold bindM at 1 in E. unfold AccountEdiFormat._create_invoice_from_xml_tree in E.
    rewrite import_finvoice_result in E.
    destruct (AccountEdiFormat.import_form env tree) as [form|e]; [|no_invoice r].
    left. exists (snd st), form.
    cbn [Orm.save] in E. rewrite file_invoice_result in E. exact E.
  - unfold bindM, lift, ret in E.
    destruct (item "DocumentID" file); no_invoice r.
Qed.
Lemma existsb_find {A : Type} (p : A -> bool) (l : list A) :
  existsb p l = match find p l with Some _ => true | None => false end.
Proof.
  induction l as [|a l IH]; [reflexivity|].
  simpl. destruct (p a); [reflexivity|exact IH].
Qed.

(** [download] step by step: the guards, the request, the zip. *)
Lemma download_steps (file : sdict string) (storage_status : value) (w : World.t F) :
  AhkioApix.download env file storage_status w
  = match sget "StorageStatus" file with
    | None => (Raise (KeyError "StorageStatus"), w)
    | Some status =>
        if (status =? "NEW")
           || (truthy storage_status && negb (status =? fmt storage_status))
        then (Ok None, w)
        else
          match sget "StorageID" file with
          | None => (Raise (KeyError "StorageID"), w)
          | Some storage_id =>
              if is_stored w storage_id then (Ok None, w)
              else
                match sget "StorageKey" file with
                | None => (Raise (KeyError "StorageKey"), w)
                | Some key =>
                    let rq := download_request env storage_id key in
                    let response := Env.send env rq in
                    let zip := package_of storage_id (Http.content response) in
                    if (Http.status_code response =? 200)%Z
                       || match sget "DocumentID" file with
                          | Some _ => true
                          | None => false
                          end
                    then unpack env file ("apix_in_invoice_" ++ storage_id) zip
                           (Http.content response) (attached (sent_one w rq) zip)
                    else (Raise (KeyError "DocumentID"), sent_one w rq)
                end
          end
    end.
Proof.
  unfold AhkioApix.download.
  unfold bindM at 1. unfold lift at 1. unfold item at 1.
  destruct (sget "StorageStatus" file) as [status|]; [|reflexivity].
  destruct (status =? "NEW"); [reflexivity|]. cbn [orb].
  destruct (truthy storage_status && negb (status =? fmt storage_status));
    [reflexivity|].
  unfold bindM at 1. unfold lift at 1. unfold item at 1.
  destruct (sget "StorageID" file) as [storage_id|]; [|reflexivity].
  unfold bindM at 1. unfold Orm.search_attachment.
  unfold is_stored, stored_name. rewrite existsb_find.
  destruct (find _ (World.attachments w)); [reflexivity|].
  unfold bindM at 1. unfold lift at 1. unfold item at 1.
  destruct (sget "StorageKey" file) as [key|]; [|reflexivity].
  change [("markreceived", Some "yes"); ("SID", Some storage_id);
          ("t", Some (Env.now_stamp env))]
    with (str_params [("markreceived", "yes"); ("SID", storage_id);
                      ("t", Env.now_stamp env)]).
  unfold bindM at 1. unfold lift at 1. rewrite calculate_digest_strings.
  cbv zeta.
  destruct (Http.status_code (Env.send env (download_request env storage_id key)) =? 200)%Z
    eqn:E200.
  - cbn [orb]. unfold bindM at 1. unfold Orm.request at 1.
    change (Env.send env _) with (Env.send env (download_request env storage_id key)).
    rewrite E200. reflexivity.
  - cbn [orb]. unfold bindM at 1. unfold Orm.request at 1.
    change (Env.send env _) with (Env.send env (download_request env storage_id key)).
    rewrite E200. unfold bindM at 1. unfold lift at 1. unfold item at 1.
    destruct (sget "DocumentID" file); reflexivity.
Qed.
Lemma download_fetched (file : sdict string) (storage_status : value) (w : World.t F)
    (status storage_id key : string) :
  sget "StorageStatus" file = Some status ->
  status <> "NEW" ->
  truthy storage_status = false \/ storage_status = Some status ->
  sget "StorageID" file = Some storage_id ->
  is_stored w storage_id = false ->
  sget "StorageKey" file = Some key ->
  Http.status_code (Env.send env (download_request env storage_id key)) = 200%Z
  \/ (exists document_id, sget "DocumentID" file = Some document_id) ->
  AhkioApix.download env file storage_status w
  = unpack env file ("apix_in_invoice_" ++ storage_id)
      (package_of storage_id
         (Http.content (Env.send env (download_request env storage_id key))))
      (Http.content (Env.send env (download_request env storage_id key)))
      (attached (sent_one w (download_request env storage_id key))
         (package_of storage_id
            (Http.content (Env.send env (download_request env storage_id key))))).
Proof.
  intros Hs Hnew Hf Hid Hst Hkey Hdoc.
  rewrite download_steps, Hs, Hid, Hst, Hkey.
  destruct (String.eqb_spec status "NEW") as [E|_]; [contradiction|].
  assert (truthy storage_status && negb (status =? fmt storage_status) = false) as ->.
  { destruct Hf as [-> | ->]; [reflexivity|].
    cbn [fmt]. rewrite String.eqb_refl. apply andb_false_r. }
  cbn [orb]. cbv zeta.
  destruct Hdoc as [-> | [document_id ->]]; [reflexivity|].
  rewrite orb_true_r. reflexivity.
Qed.

(** [unpack] sends nothing, and what is stored stays stored under its name,
    with its content and its model. *)
Lemma unpack_keeps (file : sdict string) (filename : string)
    (attachment : IrAttachment.t) (content : string) (w : World.t F) :
  World.sent (snd (unpack env file filename attachment content w)) = World.sent w
  /\ forall a,
       In a (World.attachments w) ->
       exists a',
         In a' (World.attachments (snd (unpack env file filename attachment content w)))
         /\ IrAttachment.name a' = IrAttachment.name a
         /\ IrAttachment.raw a' = IrAttachment.raw a
         /\ IrAttachment.res_model a' = IrAttachment.res_model a.
Proof.
  destruct (unpack_cases file filename attachment content w)
    as [(files & form & E) | [_ E]]; rewrite E.
  - cbn [snd filed_world Orm.save Orm.set_res_id World.sent World.attachments].
    split; [reflexivity|]. intros a Ha.
    eexists. split; [apply in_or_app; left; apply in_map; exact Ha|].
    destruct (_ && _); repeat split; reflexivity.
  - split; [reflexivity|]. intros a Ha. exists a. repeat split. exact Ha.
Qed.

Lemma stores_is_stored (w : World.t F) (storage_id content : string) :
  stores w storage_id content -> is_stored w storage_id = true.
Proof.
  intros (a & Ha & Hn & _ & Hm). unfold is_stored. apply existsb_exists.
  exists a. split; [exact Ha|].
  unfold stored_name. rewrite Hn, Hm, !String.eqb_refl. reflexivity.
Qed.

(** X12: a download that is not skipped and whose descriptor is complete
    sends exactly one request, the signed request for the file, and creates
    the attachment of the zip it got, under the name derived from the
    StorageID, before it opens the zip: in the state the call leaves the
    zip is stored whatever happened next, be it an answer that is no zip, a
    document that cannot be read or an import that fails. *)
Theorem download_stores_the_package (file : sdict string) (storage_status : value)
    (w : World.t F) (status storage_id key : string) :
  sget "StorageStatus" file = Some status ->
  status <> "NEW" ->
  truthy storage_status = false \/ storage_status = Some status ->
  sget "StorageID" file = Some storage_id ->
  is_stored w storage_id = false ->
  sget "StorageKey" file = Some key ->
  Http.status_code (Env.send env (download_request env storage_id key)) = 200%Z
  \/ (exists document_id, sget "DocumentID" file = Some document_id) ->
  World.sent (snd (AhkioApix.download env file storage_status w))
  = (World.sent w ++ [download_request env storage_id key])%list
  /\ stores (snd (AhkioApix.download env file storage_status w)) storage_id
       (Http.content (Env.send env (download_request env storage_id key))).
Proof.
  intros Hs Hnew Hf Hid Hst Hkey Hdoc.
  rewrite (download_fetched file storage_status w status storage_id key
             Hs Hnew Hf Hid Hst Hkey Hdoc).
  match goal with
  | |- context [unpack env file ?n ?a ?c ?w1] =>
      destruct (unpack_keeps file n a c w1) as [Hsent Hkeep]
  end.
  split; [rewrite Hsent; reflexivity|].
  destruct (Hkeep (package_of storage_id
                     (Http.content (Env.send env (download_request env storage_id key)))))
    as (a' & Hin & Hn & Hr & Hm).
  - cbn [attached World.attachments]. apply in_or_app. right. left. reflexivity.
  - exists a'. split; [exact Hin|]. unfold package. rewrite Hn, Hr, Hm.
    repeat split.
Qed.

(** X13: [download] is idempotent: once a download has returned, with an
    invoice or with the empty recordset, the same download in the state it
    left returns the empty recordset and changes nothing; in particular a
    file is not fetched twice, also when its document could not be parsed. *)
Theorem download_is_idempotent (file : sdict string) (storage_status : value)
    (w w' : World.t F) (r : option (Z * Form.t F)) :
  AhkioApix.download env file storage_status w = (Ok r, w') ->
  AhkioApix.download env file storage_status w' = (Ok None, w').
Proof.
  intros H. pose proof H as H0. revert H0.
  rewrite (download_steps file storage_status w'), (download_steps file storage_status w).
  destruct (sget "StorageStatus" file) as [status|]; [|discriminate].
  destruct (_ || _); [reflexivity|].
  destruct (sget "StorageID" file) as [storage_id|]; [|discriminate].
  destruct (is_stored w storage_id) eqn:Hst.
  - intros H0. inversion H0; subst. rewrite Hst. reflexivity.
  - destruct (sget "StorageKey" file) as [key|] eqn:Hkey; [|discriminate].
    cbv zeta. destruct (_ || _); [|discriminate].
    intros H0.
    match type of H0 with
    | unpack env file ?n ?a ?c ?w1 = _ =>
        destruct (unpack_keeps file n a c w1) as [_ Hkeep];
        destruct (Hkeep a) as (a' & Hin & Hn & Hr & Hm);
        [cbn [attached World.attachments]; apply in_or_app; right; left; reflexivity|]
    end.
    rewrite H0 in Hin. cbn [snd] in Hin.
    rewrite (stores_is_stored w' storage_id (IrAttachment.raw a')); [reflexivity|].
    exists a'. split; [exact Hin|]. unfold package. rewrite Hn, Hm. repeat split.
Qed.

(** X14: when [download] returns an invoice, it has sent the one signed
    request for the file, the invoice is the last one created, the zip is
    stored and linked to the invoice, the message that carries the zip is
    posted and the transaction is committed once. *)
Theorem download_returns_what_it_creates (file : sdict string) (storage_status : value)
    (w w' : World.t F) (id : Z) (form : Form.t F) :
  AhkioApix.download env file storage_status w = (Ok (Some (id, form)), w') ->
  exists storage_id key,
    sget "StorageID" file = Some storage_id
    /\ sget "StorageKey" file = Some key
    /\ World.sent w' = (World.sent w ++ [download_request env storage_id key])%list
    /\ World.moves w' = (World.moves w ++ [form])%list
    /\ World.commits w' = S (World.commits w)
    /\ (exists a,
          In a (World.attachments w')
          /\ package storage_id
               (Http.content (Env.send env (download_request env storage_id key))) a
          /\ IrAttachment.res_id a = Some id)
    /\ In ("Apix invoice zip", [stored_name storage_id]) (World.messages w').
Proof.
  rewrite download_steps.
  destruct (sget "StorageStatus" file) as [status|]; [|discriminate].
  destruct (_ || _); [discriminate|].
  destruct (sget "StorageID" file) as [storage_id|]; [|discriminate].
  destruct (is_stored w storage_id); [discriminate|].
  destruct (sget "StorageKey" file) as [key|]; [|discriminate].
  cbv zeta. destruct (_ || _); [|discriminate].
  intros H. exists storage_id, key. split; [reflexivity|]. split; [reflexivity|].
  match type of H with
  | unpack env file ?n ?a ?c ?w1 = _ =>
      destruct (unpack_cases file n a c w1) as [(files & form' & E) | [Hno _]]
  end.
  - rewrite E in H. inversion H; subst; clear H E.
    cbn [filed_world Orm.save Orm.set_res_id snd attached sent_one package_of
         World.sent World.attachments World.moves World.messages World.commits
         IrAttachment.name].
    split; [reflexivity|]. split; [reflexivity|]. split; [reflexivity|]. split.
    + eexists. split.
      * apply in_or_app. left. rewrite map_app. apply in_or_app. right.
        left. reflexivity.
      * cbn [IrAttachment.name IrAttachment.res_model].
        rewrite !String.eqb_refl. cbn [andb]. unfold package.
        repeat split.
    + apply in_or_app. right. left. reflexivity.
  - rewrite H in Hno. contradiction (Hno (id, form)). reflexivity.
Qed.

(** X15: [download] creates an invoice only when it returns it: whenever
    the result is the empty recordset or an exception, no invoice was
    created, no message posted and nothing committed. *)
Theorem download_without_result_creates_nothing (file : sdict string)
    (storage_status : value) (w : World.t F) :
  (forall invoice, fst (AhkioApix.download env file storage_status w) <> Ok (Some invoice)) ->
  World.moves (snd (AhkioApix.download env file storage_status w)) = World.moves w
  /\ World.messages (snd (AhkioApix.download env file storage_status w)) = World.messages w
  /\ World.commits (snd (AhkioApix.download env file storage_status w)) = World.commits w.
Proof.
  rewrite download_steps.
  destruct (sget "StorageStatus" file) as [status|]; [|repeat split].
  destruct (_ || _); [repeat split|].
  destruct (sget "StorageID" file) as [storage_id|]; [|repeat split].
  destruct (is_stored w storage_id); [repeat split|].
  destruct (sget "StorageKey" file) as [key|]; [|repeat split].
  cbv zeta. destruct (_ || _); [|repeat split].
  intros H.
  match type of H with
  | context [unpack env file ?n ?a ?c ?w1] =>
      destruct (unpack_cases file n a c w1) as [(files & form' & E) | [_ E]]
  end.
  - rewrite E in H. contradiction (H _ eq_refl).
  - rewrite E. repeat split.
Qed.

(** X16: [download] sends one request at most, and then it is the signed
    request for the StorageID of the file, signed with the StorageKey of the
    file: nothing else ever leaves. *)
Theorem download_sends_one_request_at_most (file : sdict string)
    (storage_status : value) (w : World.t F) :
  World.sent (snd (AhkioApix.download env file storage_status w)) = World.sent w
  \/ exists storage_id key,
       sget "StorageID" file = Some storage_id
       /\ sget "StorageKey" file = Some key
       /\ World.sent (snd (AhkioApix.download env file storage_status w))
          = (World.sent w ++ [download_request env storage_id key])%list.
Proof.
  rewrite download_steps.
  destruct (sget "StorageStatus" file) as [status|]; [|left; reflexivity].
  destruct (_ || _); [left; reflexivity|].
  destruct (sget "StorageID" file) as [storage_id|]; [|left; reflexivity].
  destruct (is_stored w storage_id); [left; reflexivity|].
  destruct (sget "StorageKey" file) as [key|]; [|left; reflexivity].
  right. exists storage_id, key. split; [reflexivity|]. split; [reflexivity|].
  cbv zeta. destruct (_ || _); [|reflexivity].
  match goal with
  | |- context [unpack env file ?n ?a ?c ?w1] =>
      destruct (unpack_keeps file n a c w1) as [-> _]
  end.
  reflexivity.
Qed.
End Unpacking.

Lemma download_stores_the_package_witness :
  World.sent (snd (AhkioApix.download (Sample.env_with true "garbage")
                     (Sample.file "S1" "UNRECEIVED") (Some "UNRECEIVED"%string)
                     Sample.world))
  = (World.sent Sample.world
     ++ [download_request (Sample.env_with true "garbage") "S1" "k9"])%list
  /\ stores (snd (AhkioApix.download (Sample.env_with true "garbage")
                    (Sample.file "S1" "UNRECEIVED") (Some "UNRECEIVED"%string)
                    Sample.world))
       "S1" "garbage".
Proof.
  apply (download_stores_the_package (Sample.env_with true "garbage")
           (Sample.file "S1" "UNRECEIVED") (Some "UNRECEIVED"%string) Sample.world
           "UNRECEIVED" "S1" "k9").
  - reflexivity.
  - discriminate.
  - right. reflexivity.
  - reflexivity.
  - reflexivity.
  - reflexivity.
  - left. reflexivity.
Defined.

Lemma download_is_idempotent_witness :
  AhkioApix.download (Sample.env_with true Sample.package)
    (Sample.file "S1" "UNRECEIVED") (Some "UNRECEIVED"%string)
    (snd (AhkioApix.download (Sample.env_with true Sample.package)
            (Sample.file "S1" "UNRECEIVED") (Some "UNRECEIVED"%string) Sample.world))
  = (Py.Ok None,
     snd (AhkioApix.download (Sample.env_with true Sample.package)
            (Sample.file "S1" "UNRECEIVED") (Some "UNRECEIVED"%string) Sample.world)).
Proof.
  eapply (download_is_idempotent (Sample.env_with true Sample.package)
            (Sample.file "S1" "UNRECEIVED") (Some "UNRECEIVED"%string) Sample.world).
  vm_compute. reflexivity.
Defined.

Lemma download_returns_what_it_creates_witness :
  exists id form w',
    AhkioApix.download (Sample.env_with true Sample.package)
      (Sample.file "S1" "UNRECEIVED") (Some "UNRECEIVED"%string) Sample.world
    = (Py.Ok (Some (id, form)), w')
    /\ World.sent w'
       = [download_request (Sample.env_with true Sample.package) "S1" "k9"]
    /\ World.moves w' = [form]
    /\ World.commits w' = 1%nat.
Proof.
  assert (exists id form w',
             AhkioApix.download (Sample.env_with true Sample.package)
               (Sample.file "S1" "UNRECEIVED") (Some "UNRECEIVED"%string) Sample.world
             = (Py.Ok (Some (id, form)), w')) as (id & form & w' & E)
    by (do 3 eexists; vm_compute; reflexivity).
  exists id, form, w'. split; [exact E|].
  destruct (download_returns_what_it_creates (Sample.env_with true Sample.package)
              (Sample.file "S1" "UNRECEIVED") (Some "UNRECEIVED"%string)
              Sample.world w' id form E)
    as (storage_id & key & Hid & Hkey & Hsent & Hmoves & Hcommits & _).
  inversion Hid; subst. inversion Hkey; subst.
  split; [exact Hsent|]. split; [exact Hmoves|exact Hcommits].
Defined.

Lemma download_without_result_creates_nothing_witness :
  World.moves (snd (AhkioApix.download (Sample.env_with true "garbage")
                      (Sample.file "S1" "UNRECEIVED") (Some "UNRECEIVED"%string)
                      Sample.world))
  = World.moves Sample.world
  /\ World.messages (snd (AhkioApix.download (Sample.env_with true "garbage")
                            (Sample.file "S1" "UNRECEIVED") (Some "UNRECEIVED"%string)
                            Sample.world))
     = World.messages Sample.world
  /\ World.commits (snd (AhkioApix.download (Sample.env_with true "garbage")
                           (Sample.file "S1" "UNRECEIVED") (Some "UNRECEIVED"%string)
                           Sample.world))
     = World.commits Sample.world.
Proof.
  apply (download_without_result_creates_nothing (Sample.env_with true "garbage")
           (Sample.file "S1" "UNRECEIVED") (Some "UNRECEIVED"%string) Sample.world).
  intros invoice. vm_compute. discriminate.
Defined.

(** ** The sweep over the companies and their files *)
Section Sweep.
Import Py.
Local Open Scope string_scope.
Context {F : Type} {PF : PyFloat F}.
Variable env : Env.t F.

Lemma sweep_ext {A : Type} (g : A -> M F unit) (l : list A) (m m' : M F unit)
    (w w0 : World.t F) :
  m w = m' w0 ->
  fold_left (fun acc x => bindM acc (fun _ => g x)) l m w
  = fold_left (fun acc x => bindM acc (fun _ => g x)) l m' w0.
Proof.
  revert m m'; induction l as [|x l IH]; intros m m' H; [exact H|].
  cbn [fold_left]. apply IH. unfold bindM. rewrite H. reflexivity.
Qed.

Lemma sweep_raised {A : Type} (g : A -> M F unit) (l : list A) (m : M F unit)
    (w w' : World.t F) (e : exn) :
  m w = (Raise e, w') ->
  fold_left (fun acc x => bindM acc (fun _ => g x)) l m w = (Raise e, w').
Proof.
  revert m; induction l as [|x l IH]; intros m H; [exact H|].
  cbn [fold_left]. apply IH. unfold bindM. rewrite H. reflexivity.
Qed.

Lemma sweep_idle {A : Type} (g : A -> M F unit) (l : list A) (w : World.t F) :
  (forall x, In x l -> g x w = (Ok tt, w)) ->
  fold_left (fun acc x => bindM acc (fun _ => g x)) l (ret tt) w = (Ok tt, w).
Proof.
  induction l as [|x l IH]; intros H; [reflexivity|].
  cbn [fold_left]. rewrite (sweep_ext g l _ (ret tt) w w).
  - apply IH. intros y Hy. apply H. right. exact Hy.
  - unfold bindM, ret. apply H. left. reflexivity.
Qed.

Lemma download_other_status (file : sdict string) (status : string) (w : World.t F) :
  sget "StorageStatus" file = Some status ->
  status <> "UNRECEIVED" ->
  AhkioApix.download env file (Some "UNRECEIVED") w = (Ok None, w).
Proof.
  intros Hs Hne. rewrite download_steps, Hs. cbn [truthy fmt negb String.eqb Ascii.eqb
                                                    Bool.eqb andb].
  destruct (String.eqb_spec status "UNRECEIVED") as [E|_]; [contradiction|].
  rewrite orb_true_r. reflexivity.
Qed.

(** X17: the sweep of a company downloads the files that wait to be
    received and no others: when the list holds no file whose status is
    [UNRECEIVED], the list request is all that is sent and nothing is
    created. *)
Theorem fetch_for_company_takes_unreceived_only (company : ResCompany.t)
    (w : World.t F) (files : list (sdict string)) :
  fst (AhkioApix.list_invoice_zips env company w) = Ok files ->
  (forall file, In file files ->
     exists status, sget "StorageStatus" file = Some status /\ status <> "UNRECEIVED") ->
  AhkioApix.fetch_invoice_zips_for_company env company w
  = (Ok tt, snd (AhkioApix.list_invoice_zips env company w)).
Proof.
  intros Hl Hfiles. unfold AhkioApix.fetch_invoice_zips_for_company.
  unfold bindM at 1.
  destruct (AhkioApix.list_invoice_zips env company w) as [[files'|e] w1];
    cbn [fst snd] in *; [|discriminate Hl].
  inversion Hl; subst files'; clear Hl.
  apply (sweep_idle
           (fun file =>
              bindM (AhkioApix.download env file (Some "UNRECEIVED"))
                    (fun r => match r with
                              | Some _ => bindM (lift (item "DocumentID" file))
                                                (fun _ => ret tt)
                              | None => ret tt
                              end))).
  intros file Hin. destruct (Hfiles file Hin) as (status & Hs & Hne).
  unfold bindM. rewrite (download_other_status file status w1 Hs Hne). reflexivity.
Qed.

Lemma filter_skipped (p : ResCompany.t -> bool) (skipped rest : list ResCompany.t)
    (c : ResCompany.t) :
  (forall s, In s skipped -> p s = false) ->
  p c = true ->
  filter p (skipped ++ c :: rest) = c :: filter p rest.
Proof.
  intros Hs Hc. induction skipped as [|s skipped IH]; cbn [app filter].
  - rewrite Hc. reflexivity.
  - rewrite (Hs s (or_introl eq_refl)). apply IH.
    intros x Hx. apply Hs. right. exact Hx.
Qed.

(** X18: [fetch_invoice_zips] passes over the companies that lack a
    transfer id or a transfer key, and it stops at the first exception:
    when the sweep of the first company that has both raises, the whole
    call raises the same exception in the same state, and the companies
    after it are not contacted. *)
Theorem fetch_invoice_zips_stops_at_failure (skipped rest : list ResCompany.t)
    (c : ResCompany.t) (w w' : World.t F) (e : exn) :
  Env.companies env = (skipped ++ c :: rest)%list ->
  (forall s, In s skipped ->
     truthy (ResCompany.ahkio_apix_transfer_id s)
     && truthy (ResCompany.ahkio_apix_transfer_key s) = false) ->
  truthy (ResCompany.ahkio_apix_transfer_id c)
  && truthy (ResCompany.ahkio_apix_transfer_key c) = true ->
  AhkioApix.fetch_invoice_zips_for_company env c w = (Raise e, w') ->
  AhkioApix.fetch_invoice_zips env w = (Raise e, w').
Proof.
  intros Hc Hs Hcred He. unfold AhkioApix.fetch_invoice_zips.
  rewrite Hc, (filter_skipped _ skipped rest c Hs Hcred).
  cbn [fold_left].
  apply (sweep_raised (AhkioApix.fetch_invoice_zips_for_company env)).
  unfold bindM, ret. exact He.
Qed.
End Sweep.

Lemma fetch_for_company_takes_unreceived_only_witness :
  AhkioApix.fetch_invoice_zips_for_company
    (Sample.env_among [Sample.sender] [(Sample.received_text, Sample.received_tree)]
       Sample.received_text)
    Sample.sender Sample.world
  = (Py.Ok tt,
     snd (AhkioApix.list_invoice_zips
            (Sample.env_among [Sample.sender]
               [(Sample.received_text, Sample.received_tree)] Sample.received_text)
            Sample.sender Sample.world)).
Proof.
  apply (fetch_for_company_takes_unreceived_only
           (Sample.env_among [Sample.sender]
              [(Sample.received_text, Sample.received_tree)] Sample.received_text)
           Sample.sender Sample.world
           [Sample.file "S3" "RECEIVED"; Sample.file "S2" "NEW"]).
  - vm_compute. reflexivity.
  - intros file [<-|[<-|[]]].
    + exists "RECEIVED"%string. split; [reflexivity|discriminate].
    + exists "NEW"%string. split; [reflexivity|discriminate].
Defined.

Lemma fetch_invoice_zips_stops_at_failure_witness :
  exists w',
    AhkioApix.fetch_invoice_zips
      (Sample.env_among [Sample.idle; Sample.sender; Sample.other]
         [(Sample.fail_text, Sample.fail_tree)] Sample.fail_text)
      Sample.world
    = (Py.Raise (Py.TypeError "exceptions must derive from BaseException"), w')
    /\ List.length (World.sent w') = 1%nat.
Proof.
  eexists. split.
  - eapply (fetch_invoice_zips_stops_at_failure
              (Sample.env_among [Sample.idle; Sample.sender; Sample.other]
                 [(Sample.fail_text, Sample.fail_tree)] Sample.fail_text)
              [Sample.idle] [Sample.other] Sample.sender Sample.world).
    + reflexivity.
    + intros s [<-|[]]. reflexivity.
    + reflexivity.
    + vm_compute. reflexivity.
  - reflexivity.
Defined.

(** ** Import: the lines and the comment *)
Section ImportLines.
Import Py.
Local Open Scope string_scope.
Context {F : Type} {PF : PyFloat F}.
Variable env : Env.t F.








End ImportLines.


(** A row at 24 % gets the tax at 24 %, and a row at 10 %, for which the
    table has no tax, gets none. *)
Example import_line_rates :
  option_map (fun line => map (@AccountTax.id _) (Form.tax_ids line))
    (match AccountEdiFormat.import_line Sample.env
             (Xml.Element "InvoiceRow" []
                [Xml.Element "RowVatRatePercent" [] [Xml.Text "24"];
                 Xml.Element "RowVatRatePercent" [] [Xml.Text "10"];
                 Xml.Element "RowVatRatePercent" [] [Xml.Text "0"]])
     with
     | Py.Ok line => Some line
     | Py.Raise _ => None
     end)
  = Some [24; 100]%Z.
Proof. vm_compute. reflexivity. Qed.

Section Narration.
Import Py.
Local Open Scope string_scope.
Context {F : Type} {PF : PyFloat F}.
Variable env : Env.t F.

Lemma account_details_result (elements : list Xml.node) (acc : result string) :
  (acc = Raise (TypeError "can only concatenate str (not NoneType) to str")
   \/ exists a, acc = Ok a) ->
  let r := fold_left (fun acc el =>
                        bind acc (fun a =>
                        AccountEdiFormat.concat_str (a ++ AccountEdiFormat.newline)
                                                    (Xml.text el)))
                     elements acc in
  (r = Raise (TypeError "can only concatenate str (not NoneType) to str")
   \/ exists a, r = Ok a)
  /\ ((acc = Raise (TypeError "can only concatenate str (not NoneType) to str")
       \/ exists e, In e elements /\ Xml.text e = None) ->
      r = Raise (TypeError "can only concatenate str (not NoneType) to str")).
Proof.
  revert acc; induction elements as [|el elements IH]; intros acc Hacc; cbv zeta.
  - cbn [fold_left]. split; [exact Hacc|].
    intros [H | (e & [] & _)]. exact H.
  - cbn [fold_left].
    assert (bind acc (fun a => AccountEdiFormat.concat_str
                                 (a ++ AccountEdiFormat.newline) (Xml.text el))
            = Raise (TypeError "can only concatenate str (not NoneType) to str")
            \/ exists a, bind acc (fun a => AccountEdiFormat.concat_str
                                              (a ++ AccountEdiFormat.newline)
                                              (Xml.text el)) = Ok a) as Hstep.
    { destruct Hacc as [-> | [a ->]]; [left; reflexivity|].
      cbn [bind]. destruct (Xml.text el); [right; eexists; reflexivity | left; reflexivity]. }
    destruct (IH _ Hstep) as [Hr Hraise]. split; [exact Hr|].
    intros H. apply Hraise.
    destruct H as [-> | (e & [<- | Hin] & He)].
    + left. reflexivity.
    + left. destruct Hacc as [-> | [a ->]]; [reflexivity|].
      cbn [bind]. rewrite He. reflexivity.
    + right. exists e. auto.
Qed.

(** The comment of an import raises [TypeError] when an account element
    is empty, or when the first free text is. *)
Lemma narration_empty_element (tree : Xml.node) :
  (exists e, In e (Xml.anywhere "SellerAccountID" tree) /\ Xml.text e = None)
  \/ (exists e rest, Xml.anywhere "InvoiceFreeText" tree = e :: rest /\ Xml.text e = None) ->
  exists msg, AccountEdiFormat.narration tree = Raise (TypeError msg).
Proof.
  intros H. unfold AccountEdiFormat.narration.
  set (original := match Xml.anywhere "InvoiceTotalVatIncludedAmount" tree with
                   | [] => []
                   | e :: _ => _
                   end).
  assert (exists o, original = map Some o) as [o Ho].
  { unfold original. destruct (Xml.anywhere "InvoiceTotalVatIncludedAmount" tree).
    - exists []. reflexivity.
    - eexists [_]. reflexivity. }
  destruct (Xml.anywhere "SellerAccountID" tree) as [|el elements] eqn:Ea.
  - destruct H as [(e & [] & _) | (e & rest & -> & He)].
    cbn [bind]. rewrite He, Ho. cbn [app].
    eexists. apply join_not_all_strings.
    rewrite forallb_app. cbn [forallb]. rewrite andb_false_r. reflexivity.
  - match goal with
    | |- context [fold_left ?f (el :: elements) (Ok ?t)] =>
        destruct (account_details_result (el :: elements) (Ok t)
                    (or_intror (ex_intro _ t eq_refl))) as [Hr Hraise]
    end.
    cbv zeta in Hr, Hraise.
    destruct H as [(e & Hin & He) | (e & rest & Ef & He)].
    + rewrite Hraise; [eexists; reflexivity|]. right. exists e. auto.
    + destruct Hr as [-> | [a ->]]; [eexists; reflexivity|].
      cbn [bind]. rewrite Ef, He, Ho.
      eexists. apply join_not_all_strings.
      rewrite forallb_app. cbn [app forallb]. rewrite andb_false_r. reflexivity.
Qed.

(** X20: a document in which a [SellerAccountID] element is empty, or in
    which the first [InvoiceFreeText] element is, cannot be imported: once
    the company check is passed and the total is read, the comment cannot
    be put together, the import raises [TypeError] and no invoice is
    created. *)
Theorem import_fails_on_empty_text (filename : string) (tree : Xml.node) (w : World.t F) :
  AccountEdiFormat.check_company env (AccountEdiFormat.import_company env tree) = Ok tt ->
  (exists total, AccountEdiFormat.total_amount tree = Ok total) ->
  (exists e, In e (Xml.anywhere "SellerAccountID" tree) /\ Xml.text e = None)
  \/ (exists e rest, Xml.anywhere "InvoiceFreeText" tree = e :: rest /\ Xml.text e = None) ->
  exists msg,
    AccountEdiFormat._create_invoice_from_xml_tree env filename tree w
    = (Raise (TypeError msg), w).
Proof.
  intros Hc [total Ht] H.
  destruct (narration_empty_element tree H) as [msg Hn].
  exists msg. unfold AccountEdiFormat._create_invoice_from_xml_tree.
  rewrite import_finvoice_result. unfold AccountEdiFormat.import_form.
  rewrite Hc, Ht. cbn [bind]. rewrite Hn. reflexivity.
Qed.
End Narration.

Lemma import_fails_on_empty_text_witness :
  exists msg,
    AccountEdiFormat._create_invoice_from_xml_tree (Sample.env_with true "") ""
      (Xml.Element "Finvoice" [] [Xml.Element "InvoiceFreeText" [] []]) Sample.world
    = (Py.Raise (Py.TypeError msg), Sample.world).
Proof.
  apply (import_fails_on_empty_text (Sample.env_with true "") ""
           (Xml.Element "Finvoice" [] [Xml.Element "InvoiceFreeText" [] []])
           Sample.world).
  - reflexivity.
  - eexists. reflexivity.
  - right. exists (Xml.Element "InvoiceFreeText" [] []), []. split; reflexivity.
Defined.

(** ** Export: the lines and the reference to the rendering *)
Section ExportLines.
Import Py.
Local Open Scope string_scope.
Context {F : Type} {PF : PyFloat F}.
Variable env : Env.t F.

Lemma export_lines_values (invoice : AccountMove.t F)
    (ils : list (nat * AccountMoveLine.t F))
    (st : dict Z (Tax.aggregated F) * list (Template.line_values F)) :
  snd (fold_left (AccountEdiFormat.export_line env invoice) ils st)
  = (snd st ++ map (line_values_of env invoice) ils)%list.
Proof.
  revert st; induction ils as [|il ils IH]; intros st; cbn [fold_left map].
  - rewrite app_nil_r. reflexivity.
  - rewrite IH. cbn [AccountEdiFormat.export_line snd]. rewrite <- app_assoc.
    reflexivity.
Qed.

Lemma enumerate_lines {A : Type} (l : list A) (n : nat) :
  map snd (combine (seq n (List.length l)) l) = l
  /\ map (fun il : nat * A => fst il + 1) (combine (seq n (List.length l)) l)
     = seq (n + 1) (List.length l).
Proof.
  revert n; induction l as [|a l IH]; intros n; [split; reflexivity|].
  cbn [List.length seq combine map fst snd].
  destruct (IH (S n)) as [-> ->]. split; reflexivity.
Qed.

(** X21: the lines of the document are the lines of the invoice that are
    no section and no note, in their order, numbered from 1 without a gap;
    each carries the untaxed total and the tax details that the tax engine
    returns for it. *)
Theorem export_numbers_the_product_lines (invoice : AccountMove.t F) (pdf_name : string) :
  let values :=
    Template.invoice_line_values (AccountEdiFormat.template_values env invoice pdf_name) in
  map (@Template.line F) values = AccountEdiFormat.product_lines invoice
  /\ map (@Template.index F) values
     = seq 1 (List.length (AccountEdiFormat.product_lines invoice))
  /\ forall v,
       In v values ->
       In (Template.line v) (AccountMove.invoice_line_ids invoice)
       /\ truthy (AccountMoveLine.display_type (Template.line v)) = false
       /\ Template.net_price_subtotal v
          = Tax.total_excluded
              (AccountEdiFormat.line_taxes_res env invoice (Template.line v))
       /\ Template.line_tax_details v
          = map AccountEdiFormat.detail_of
              (Tax.taxes (AccountEdiFormat.line_taxes_res env invoice (Template.line v))).
Proof.
  cbv zeta. cbn [AccountEdiFormat.template_values Template.invoice_line_values].
  unfold AccountEdiFormat.export_lines. rewrite export_lines_values. cbn [snd app].
  unfold AccountEdiFormat.enumerate.
  destruct (enumerate_lines (AccountEdiFormat.product_lines invoice) 0) as [Hl Hi].
  split; [|split].
  - rewrite map_map. exact Hl.
  - rewrite map_map. exact Hi.
  - intros v Hv. apply in_map_iff in Hv. destruct Hv as (il & <- & Hil).
    cbn [line_values_of Template.line Template.net_price_subtotal
         Template.line_tax_details].
    assert (In (snd il) (AccountEdiFormat.product_lines invoice)) as Hin.
    { rewrite <- Hl. apply in_map. exact Hil. }
    unfold AccountEdiFormat.product_lines in Hin. apply filter_In in Hin.
    destruct Hin as [Hin Hd]. apply negb_true_iff in Hd. auto.
Qed.

Lemma slice_from_7 (f : string) : slice_from 7 ("file://" ++ f) = f.
Proof.
  unfold slice_from, slice.
  cbn [append String.length]. set (n := String.length f).
  assert (clamp (Z.of_nat (S (S (S (S (S (S (S n)))))))) 7 = 7%Z) as ->
    by (unfold clamp; change (7 <? 0)%Z with false; cbv iota; lia).
  assert (clamp (Z.of_nat (S (S (S (S (S (S (S n))))))))
                (Z.of_nat (S (S (S (S (S (S (S n)))))))) = Z.of_nat (7 + n)) as ->.
  { unfold clamp.
    destruct (Z.ltb_spec (Z.of_nat (S (S (S (S (S (S (S n)))))))) 0); lia. }
  replace (Z.to_nat (Z.of_nat (7 + n) - 7)) with n by lia.
  change (Z.to_nat 7) with 7%nat. cbn [substring]. apply substring_all.
Qed.

Lemma substring_one (c : ascii) (s : string) (n m : nat) :
  substring n m s = String c "" -> AhkioApix.has_char c s = true.
Proof.
  revert n; induction s as [|a s IH]; intros n H.
  - destruct n, m; discriminate H.
  - destruct n as [|n]; cbn [substring] in H.
    + destruct m as [|m]; [discriminate H|].
      inversion H; subst. cbn [AhkioApix.has_char]. rewrite Ascii.eqb_refl. reflexivity.
    + cbn [AhkioApix.has_char]. rewrite (IH n H). apply orb_true_r.
Qed.

Lemma last_is_no_line_feed (f : string) :
  AhkioApix.has_char (ascii_of_N 10) f = false ->
  (slice_from (-1) f =? String (ascii_of_N 10) "") = false.
Proof.
  intros H. apply String.eqb_neq. intros E.
  unfold slice_from, slice in E. apply substring_one in E.
  rewrite H in E. discriminate E.
Qed.

Lemma prefix_file (f : string) : prefix "file://" ("file://" ++ f) = true.
Proof. destruct f; reflexivity. Qed.

Lemma match_file_uri_accepts (f : string) :
  f <> "" ->
  AhkioApix.has_char (ascii_of_N 10) f = false ->
  AhkioApix.match_file_uri ("file://" ++ f) = Some f.
Proof.
  intros Hne Hnl. unfold AhkioApix.match_file_uri.
  rewrite prefix_file, slice_from_7. cbv zeta.
  rewrite (last_is_no_line_feed f Hnl), Hnl.
  apply String.eqb_neq in Hne. rewrite Hne. reflexivity.
Qed.

Lemma has_char_replace (c a b : ascii) (s : string) :
  b <> c -> AhkioApix.has_char c s = false -> AhkioApix.has_char c (replace a b s) = false.
Proof.
  intros Hb. induction s as [|x s IH]; [reflexivity|].
  cbn [AhkioApix.has_char replace]. intros H. apply orb_false_iff in H.
  destruct H as [Hx Hs]. rewrite (IH Hs), orb_false_r.
  destruct (Ascii.eqb x a); [|exact Hx].
  apply Ascii.eqb_neq. auto.
Qed.

(** X22: the reference to the rendering that an export hands to the
    template is one that [download] accepts, and the file name [download]
    reads from it is the name of the rendering in the zip: the name of the
    invoice, every slash replaced, then [_finvoice.pdf], provided the name
    of the invoice holds no line feed. *)
Theorem exported_reference_is_read_back (invoice : AccountMove.t F) :
  AhkioApix.has_char (ascii_of_N 10) (AccountMove.name invoice) = false ->
  AhkioApix.match_file_uri
    (Template.pdf_name
       (AccountEdiFormat.template_values env invoice
          (replace "/" "_" (AccountMove.name invoice) ++ "_finvoice.pdf")))
  = Some (replace "/" "_" (AccountMove.name invoice) ++ "_finvoice.pdf").
Proof.
  intros H. cbn [AccountEdiFormat.template_values Template.pdf_name].
  apply match_file_uri_accepts.
  - destruct (replace "/" "_" (AccountMove.name invoice)); discriminate.
  - rewrite has_char_app, has_char_replace; [reflexivity|discriminate|exact H].
Qed.
End ExportLines.

Lemma exported_reference_is_read_back_witness :
  AhkioApix.match_file_uri
    (Template.pdf_name
       (AccountEdiFormat.template_values Sample.env Sample.invoice
          (Py.replace "/" "_" (AccountMove.name Sample.invoice) ++ "_finvoice.pdf")))
  = Some (Py.replace "/" "_" (AccountMove.name Sample.invoice) ++ "_finvoice.pdf")%string.
Proof.
  exact (exported_reference_is_read_back Sample.env Sample.invoice eq_refl).
Defined.

Lemma export_attachment_is_empty_witness :
  exists a w',
    AccountEdiFormat._export_finvoice Sample.env Sample.invoice Sample.world
    = (Py.Ok a, w')
    /\ IrAttachment.raw a = ""%string
    /\ World.attachments w' = [a].
Proof.
  assert (exists a w',
             AccountEdiFormat._export_finvoice Sample.env Sample.invoice Sample.world
             = (Py.Ok a, w')) as (a & w' & E)
    by (do 2 eexists; vm_compute; reflexivity).
  exists a, w'. split; [exact E|].
  destruct (export_attachment_is_empty Sample.env Sample.invoice Sample.world w' a E)
    as (_ & Hraw & _ & _ & _ & _ & Hatt).
  split; [exact Hraw|exact Hatt].
Defined.
